(** * TenHummingbirds: the browser session controller and the task orchestrator

    A shallow embedding of [HummBrowser] (humm-browser.ts) and
    [TenHummingbirdsAgent] (ai-agent.ts), and what holds of them.

    - A JavaScript value is a [JsVal]; a thrown value is a [JsExn].
    - The two singletons [hummBrowser] and [tenHummingbirdsAgent] are the
      fields [hb] and [ag] of one system state [Sys], next to the table of
      scheduled intervals, the trace of the calls made to the outside and the
      state of the outside world.
    - An [async] method is a program [Prog A]: it threads the state and ends
      with a value or with a thrown exception.  [await] is sequencing; the
      only activity that runs beside the methods is the capture interval,
      of which the model tracks the scheduling and the cancellation.
    - Playwright, cheerio, the JSON built-ins, the clock and the two
      gateways are the fields of [Env]: every theorem holds for every
      behaviour of them.
    - Strings are sequences of 8-bit characters; numbers that the code uses
      as integers (milliseconds, pixels, frame rates) are in [Z].
    - [console.log] and friends are not modelled.

    The file has the embedding first, then scripted environments to run it
    on, the vocabulary of the statements, a small program logic, and the
    properties of streaming, scrolling, the command boundary, the task
    boundary and the task handlers. *)

From Stdlib Require Import String Ascii ZArith QArith List Bool Lia DecimalString.
From stdpp Require Import base gmap sets.
Import ListNotations.
Close Scope Q_scope.
Local Open Scope Z_scope.
Local Open Scope string_scope.

(** ** JavaScript values *)

#[warnings="-register-all"]
Inductive JsVal : Type :=
| VUndef
| VNull
| VBool (b : bool)
| VNum (n : Z)            (* an integral number *)
| VDec (q : Q)            (* any other number *)
| VStr (s : string)
| VArr (items : list JsVal)
| VObj (fields : list (string * JsVal)).

(** [if (v)], [v || d] *)
Definition truthy (v : JsVal) : bool :=
  match v with
  | VUndef | VNull => false
  | VBool b => b
  | VNum n => negb (Z.eqb n 0)
  | VDec q => negb (Qeq_bool q 0)
  | VStr s => negb (String.eqb s EmptyString)
  | VArr _ | VObj _ => true
  end.

Definition js_or (v d : JsVal) : JsVal := if truthy v then v else d.

Fixpoint assoc (k : string) (l : list (string * JsVal)) : JsVal :=
  match l with
  | [] => VUndef
  | (k', v) :: r => if String.eqb k k' then v else assoc k r
  end.

(** [v.k] for the property names the code reads off a parsed answer.
    [None] is the TypeError of reading a property of null or undefined. *)
Definition getProp (v : JsVal) (k : string) : option JsVal :=
  match v with
  | VUndef | VNull => None
  | VObj fs => Some (assoc k fs)
  | _ => Some VUndef
  end.

Definition vstr (o : option string) : JsVal :=
  match o with Some s => VStr s | None => VUndef end.

Definition vopt (o : option JsVal) : JsVal :=
  match o with Some v => v | None => VUndef end.

(** an optional string inside a template literal *)
Definition show_opt (o : option string) : string :=
  match o with Some s => s | None => "undefined" end.

(** [if (s)] on an optional string *)
Definition given (o : option string) : bool :=
  match o with Some s => negb (String.eqb s EmptyString) | None => false end.

Definition show_num (n : Z) : string := NilZero.string_of_int (Z.to_int n).

Definition nl : string := String (ascii_of_nat 10) EmptyString.
Definition dq : string := String (ascii_of_nat 34) EmptyString.

(** ** Exceptions *)

Inductive JsExn : Type :=
| JsError (message : string)   (* new Error(message) *)
| JsThrown (v : JsVal).        (* any other thrown value *)

(** [error instanceof Error ? error.message : 'Unknown error'] *)
Definition message_of (e : JsExn) : string :=
  match e with
  | JsError m => m
  | JsThrown _ => "Unknown error"
  end.

(** ** Programs: state and exceptions *)

Definition Prog (S A : Type) : Type := S -> (JsExn + A) * S.

Definition ret {S A} (a : A) : Prog S A := fun s => (inr a, s).

Definition throw {S A} (e : JsExn) : Prog S A := fun s => (inl e, s).

Definition bind {S A B} (m : Prog S A) (k : A -> Prog S B) : Prog S B :=
  fun s =>
    match m s with
    | (inl e, s') => (inl e, s')
    | (inr a, s') => k a s'
    end.

(** [try { m } catch (e) { h e }] *)
Definition try_catch {S A} (m : Prog S A) (h : JsExn -> Prog S A) : Prog S A :=
  fun s =>
    match m s with
    | (inl e, s') => h e s'
    | (inr a, s') => (inr a, s')
    end.

(** [try { m } finally { f }]: [f] runs on both exits; an exception of [f]
    replaces the outcome of [m]. *)
Definition try_finally {S A} (m : Prog S A) (f : Prog S unit) : Prog S A :=
  fun s =>
    let (r, s') := m s in
    match f s' with
    | (inl e, s'') => (inl e, s'')
    | (inr _, s'') => (r, s'')
    end.

Definition when_ {S} (b : bool) (m : Prog S unit) : Prog S unit :=
  if b then m else ret tt.

Declare Scope prog_scope.
Delimit Scope prog_scope with prog.
Notation "x <- m ;; k" := (bind m (fun x => k))
  (at level 100, m at next level, right associativity) : prog_scope.
Notation "m ;;; k" := (bind m (fun _ => k))
  (at level 100, right associativity) : prog_scope.
Local Open Scope prog_scope.

(** ** Data model (humm-browser.ts) *)

Definition Handle := nat.

Record Options : Type := {
  opt_timeout : option Z;
  opt_callback : option Handle;
  opt_frameRate : option Z;
  opt_direction : option string;
  opt_pixels : option Z;
  opt_toElement : option string
}.

Definition no_options : Options :=
  {| opt_timeout := None; opt_callback := None; opt_frameRate := None;
     opt_direction := None; opt_pixels := None; opt_toElement := None |}.

Record HummCommand : Type := {
  cmd_action : string;
  cmd_url : option string;
  cmd_selector : option string;
  cmd_text : option string;
  cmd_options : option Options
}.

Definition command (a : string) : HummCommand :=
  {| cmd_action := a; cmd_url := None; cmd_selector := None;
     cmd_text := None; cmd_options := None |}.

Record Viewport : Type := {
  vp_width : Z;
  vp_height : Z;
  vp_deviceScaleFactor : Z
}.

Record StreamData : Type := {
  sd_isStreaming : bool;
  sd_frameRate : Z;
  sd_quality : Z
}.

Record HummObservation : Type := {
  obs_success : bool;
  obs_data : option JsVal;
  obs_screenshot : option string;
  obs_pageTitle : option string;
  obs_url : option string;
  obs_content : option string;
  obs_error : option string;
  obs_timestamp : Z;
  obs_viewport : option Viewport;
  obs_streamData : option StreamData
}.

(** the object literal [{ success, timestamp }], every other key absent *)
Definition observation (ok : bool) (ts : Z) : HummObservation :=
  {| obs_success := ok; obs_data := None; obs_screenshot := None;
     obs_pageTitle := None; obs_url := None; obs_content := None;
     obs_error := None; obs_timestamp := ts; obs_viewport := None;
     obs_streamData := None |}.

Definition with_data (v : JsVal) (o : HummObservation) : HummObservation :=
  {| obs_success := obs_success o; obs_data := Some v;
     obs_screenshot := obs_screenshot o; obs_pageTitle := obs_pageTitle o;
     obs_url := obs_url o; obs_content := obs_content o;
     obs_error := obs_error o; obs_timestamp := obs_timestamp o;
     obs_viewport := obs_viewport o; obs_streamData := obs_streamData o |}.

Definition with_screenshot (x : string) (o : HummObservation) : HummObservation :=
  {| obs_success := obs_success o; obs_data := obs_data o;
     obs_screenshot := Some x; obs_pageTitle := obs_pageTitle o;
     obs_url := obs_url o; obs_content := obs_content o;
     obs_error := obs_error o; obs_timestamp := obs_timestamp o;
     obs_viewport := obs_viewport o; obs_streamData := obs_streamData o |}.

Definition with_pageTitle (x : string) (o : HummObservation) : HummObservation :=
  {| obs_success := obs_success o; obs_data := obs_data o;
     obs_screenshot := obs_screenshot o; obs_pageTitle := Some x;
     obs_url := obs_url o; obs_content := obs_content o;
     obs_error := obs_error o; obs_timestamp := obs_timestamp o;
     obs_viewport := obs_viewport o; obs_streamData := obs_streamData o |}.

Definition with_url (x : string) (o : HummObservation) : HummObservation :=
  {| obs_success := obs_success o; obs_data := obs_data o;
     obs_screenshot := obs_screenshot o; obs_pageTitle := obs_pageTitle o;
     obs_url := Some x; obs_content := obs_content o;
     obs_error := obs_error o; obs_timestamp := obs_timestamp o;
     obs_viewport := obs_viewport o; obs_streamData := obs_streamData o |}.

Definition with_content (x : string) (o : HummObservation) : HummObservation :=
  {| obs_success := obs_success o; obs_data := obs_data o;
     obs_screenshot := obs_screenshot o; obs_pageTitle := obs_pageTitle o;
     obs_url := obs_url o; obs_content := Some x;
     obs_error := obs_error o; obs_timestamp := obs_timestamp o;
     obs_viewport := obs_viewport o; obs_streamData := obs_streamData o |}.

Definition with_error (x : option string) (o : HummObservation) : HummObservation :=
  {| obs_success := obs_success o; obs_data := obs_data o;
     obs_screenshot := obs_screenshot o; obs_pageTitle := obs_pageTitle o;
     obs_url := obs_url o; obs_content := obs_content o;
     obs_error := x; obs_timestamp := obs_timestamp o;
     obs_viewport := obs_viewport o; obs_streamData := obs_streamData o |}.

Definition with_viewport (x : option Viewport) (o : HummObservation) : HummObservation :=
  {| obs_success := obs_success o; obs_data := obs_data o;
     obs_screenshot := obs_screenshot o; obs_pageTitle := obs_pageTitle o;
     obs_url := obs_url o; obs_content := obs_content o;
     obs_error := obs_error o; obs_timestamp := obs_timestamp o;
     obs_viewport := x; obs_streamData := obs_streamData o |}.

Definition with_streamData (x : StreamData) (o : HummObservation) : HummObservation :=
  {| obs_success := obs_success o; obs_data := obs_data o;
     obs_screenshot := obs_screenshot o; obs_pageTitle := obs_pageTitle o;
     obs_url := obs_url o; obs_content := obs_content o;
     obs_error := obs_error o; obs_timestamp := obs_timestamp o;
     obs_viewport := obs_viewport o; obs_streamData := Some x |}.

(** the private fields of [class HummBrowser] *)
Record HummBrowser : Type := {
  browser : option Handle;
  context : option Handle;
  page : option Handle;
  isInitialized : bool;
  isStreaming : bool;
  streamInterval : option nat;
  streamCallback : option Handle
}.

Definition new_HummBrowser : HummBrowser :=
  {| browser := None; context := None; page := None; isInitialized := false;
     isStreaming := false; streamInterval := None; streamCallback := None |}.

Definition set_browser (x : option Handle) (b : HummBrowser) : HummBrowser :=
  {| browser := x; context := context b; page := page b;
     isInitialized := isInitialized b; isStreaming := isStreaming b;
     streamInterval := streamInterval b; streamCallback := streamCallback b |}.

Definition set_context (x : option Handle) (b : HummBrowser) : HummBrowser :=
  {| browser := browser b; context := x; page := page b;
     isInitialized := isInitialized b; isStreaming := isStreaming b;
     streamInterval := streamInterval b; streamCallback := streamCallback b |}.

Definition set_page (x : option Handle) (b : HummBrowser) : HummBrowser :=
  {| browser := browser b; context := context b; page := x;
     isInitialized := isInitialized b; isStreaming := isStreaming b;
     streamInterval := streamInterval b; streamCallback := streamCallback b |}.

Definition set_isInitialized (x : bool) (b : HummBrowser) : HummBrowser :=
  {| browser := browser b; context := context b; page := page b;
     isInitialized := x; isStreaming := isStreaming b;
     streamInterval := streamInterval b; streamCallback := streamCallback b |}.

Definition set_isStreaming (x : bool) (b : HummBrowser) : HummBrowser :=
  {| browser := browser b; context := context b; page := page b;
     isInitialized := isInitialized b; isStreaming := x;
     streamInterval := streamInterval b; streamCallback := streamCallback b |}.

Definition set_streamInterval (x : option nat) (b : HummBrowser) : HummBrowser :=
  {| browser := browser b; context := context b; page := page b;
     isInitialized := isInitialized b; isStreaming := isStreaming b;
     streamInterval := x; streamCallback := streamCallback b |}.

Definition set_streamCallback (x : option Handle) (b : HummBrowser) : HummBrowser :=
  {| browser := browser b; context := context b; page := page b;
     isInitialized := isInitialized b; isStreaming := isStreaming b;
     streamInterval := streamInterval b; streamCallback := x |}.

(** ** Data model (ai-agent.ts, groq-ai.ts, ai-image-generator.ts) *)

Record AgentTask : Type := {
  task_id : string;
  task_type : string;
  task_description : string;
  task_userQuery : string;
  task_targetUrl : option string;
  task_selector : option string;
  task_parameters : option JsVal;
  task_enableLiveView : option bool
}.

Definition set_targetUrl (u : string) (t : AgentTask) : AgentTask :=
  {| task_id := task_id t; task_type := task_type t;
     task_description := task_description t;
     task_userQuery := task_userQuery t; task_targetUrl := Some u;
     task_selector := task_selector t; task_parameters := task_parameters t;
     task_enableLiveView := task_enableLiveView t |}.

Record AgentResult : Type := {
  res_taskId : string;
  res_success : bool;
  res_data : option JsVal;
  res_observations : list HummObservation;
  res_summary : string;
  res_timestamp : Z;
  res_executionTime : Z
}.

Record AgentState : Type := {
  isActive : bool;
  currentTask : option AgentTask;
  browserReady : bool;
  lastActivity : Z;
  isLiveStreaming : bool;
  currentUrl : option string
}.

Definition set_isActive (x : bool) (a : AgentState) : AgentState :=
  {| isActive := x; currentTask := currentTask a;
     browserReady := browserReady a; lastActivity := lastActivity a;
     isLiveStreaming := isLiveStreaming a; currentUrl := currentUrl a |}.

Definition set_currentTask (x : option AgentTask) (a : AgentState) : AgentState :=
  {| isActive := isActive a; currentTask := x;
     browserReady := browserReady a; lastActivity := lastActivity a;
     isLiveStreaming := isLiveStreaming a; currentUrl := currentUrl a |}.

Definition set_browserReady (x : bool) (a : AgentState) : AgentState :=
  {| isActive := isActive a; currentTask := currentTask a;
     browserReady := x; lastActivity := lastActivity a;
     isLiveStreaming := isLiveStreaming a; currentUrl := currentUrl a |}.

Definition set_lastActivity (x : Z) (a : AgentState) : AgentState :=
  {| isActive := isActive a; currentTask := currentTask a;
     browserReady := browserReady a; lastActivity := x;
     isLiveStreaming := isLiveStreaming a; currentUrl := currentUrl a |}.

Definition set_isLiveStreaming (x : bool) (a : AgentState) : AgentState :=
  {| isActive := isActive a; currentTask := currentTask a;
     browserReady := browserReady a; lastActivity := lastActivity a;
     isLiveStreaming := x; currentUrl := currentUrl a |}.

Definition set_currentUrl (x : option string) (a : AgentState) : AgentState :=
  {| isActive := isActive a; currentTask := currentTask a;
     browserReady := browserReady a; lastActivity := lastActivity a;
     isLiveStreaming := isLiveStreaming a; currentUrl := x |}.

(** the [context] argument of [TenHummingbirdsAI.generateResponse] *)
Record GatewayContext : Type := {
  user_style : option string;
  analysis_type : option string
}.

Record ConversationalResponse : Type := {
  resp_text : string;
  resp_confidence : Z;
  resp_model_used : string
}.

Record GenerationParameters : Type := {
  steps : Z;
  guidance : Q
}.

(** The request is built from a parsed answer of type [any]: its fields hold
    whatever values the answer holds. *)
Record ImageGenerationRequest : Type := {
  req_prompt : JsVal;
  req_type : JsVal;
  req_style : JsVal;
  req_dimensions : JsVal;
  req_data : option JsVal;
  req_parameters : GenerationParameters
}.

Record ImageGenerationResult : Type := {
  img_success : bool;
  img_imageUrl : option string;
  img_imageBase64 : option string;
  img_prompt : string;
  img_model : string;
  img_generationTime : Z;
  img_error : option string;
  img_metadata : option JsVal
}.

(** ** The outside world *)

(** Calls that leave the two classes, in the order they are made. *)
Inductive Call : Type :=
| Launch
| NewContext
| NewPage
| SetDefaultTimeout (ms : Z)
| Goto (url : option string)
| Title
| Url
| WaitForSelector (selector : option string) (ms : Z)
| Click (selector : option string)
| WaitForTimeout (ms : Z)
| Fill (selector text : option string)
| Query (selector : string)
| TextContent
| Content
| ScrollIntoView (selector : string)
| ScrollBy (x y : Z)
| Screenshot
| ViewportSize
| ContextClose
| BrowserClose
| SetInterval (id : nat) (frameRate : Z)
| ClearInterval (id : nat)
| Sleep (ms : Z)
| GenerateResponse (prompt : string) (ctx : GatewayContext)
| GenerateImage (request : ImageGenerationRequest).

(** What the code consumes and does not define: the process environment and
    the clock, the JSON built-ins, Playwright, cheerio, and the two gateways
    [TenHummingbirdsAI.generateResponse] and
    [tenHummingbirdsImageGenerator.generateImage].  An operation on the world
    [W] answers with a value or with a thrown exception.  [String_of] is the
    conversion to a string that a template literal applies to a value that
    is not a string: it throws a TypeError on an object that cannot be
    converted, such as one with a key [toString] that is no function. *)
Record Env (W : Type) : Type := {
  DISABLE_BROWSER_AUTOMATION : W -> bool;
  Date_now : W -> Z * W;
  JSON_stringify : JsVal -> string;
  JSON_parse : string -> option JsVal;
  String_of : JsVal -> JsExn + string;
  chromium_launch : W -> (JsExn + Handle) * W;
  browser_newContext : Handle -> W -> (JsExn + Handle) * W;
  context_newPage : Handle -> W -> (JsExn + Handle) * W;
  page_setDefaultTimeout : Handle -> Z -> W -> (JsExn + unit) * W;
  page_goto : Handle -> option string -> W -> (JsExn + unit) * W;
  page_title : Handle -> W -> (JsExn + string) * W;
  page_url : Handle -> W -> (JsExn + string) * W;
  page_waitForSelector : Handle -> option string -> Z -> W -> (JsExn + unit) * W;
  page_click : Handle -> option string -> W -> (JsExn + unit) * W;
  page_waitForTimeout : Handle -> Z -> W -> (JsExn + unit) * W;
  page_fill : Handle -> option string -> option string -> W -> (JsExn + unit) * W;
  page_query : Handle -> string -> W -> (JsExn + option Handle) * W;
  element_textContent : Handle -> W -> (JsExn + option string) * W;
  page_content : Handle -> W -> (JsExn + string) * W;
  locator_scrollIntoViewIfNeeded : Handle -> string -> W -> (JsExn + unit) * W;
  window_scrollBy : Handle -> Z -> Z -> W -> (JsExn + unit) * W;
  page_screenshot : Handle -> W -> (JsExn + string) * W;
  page_viewportSize : Handle -> W -> (JsExn + option (Z * Z)) * W;
  context_close : Handle -> W -> (JsExn + unit) * W;
  browser_close : Handle -> W -> (JsExn + unit) * W;
  cheerio_text : string -> string;
  cheerio_html : string -> string;
  generateResponse : string -> GatewayContext -> W -> (JsExn + ConversationalResponse) * W;
  generateImage : ImageGenerationRequest -> W -> (JsExn + ImageGenerationResult) * W
}.

Arguments DISABLE_BROWSER_AUTOMATION {W}.
Arguments Date_now {W}.
Arguments JSON_stringify {W}.
Arguments JSON_parse {W}.
Arguments String_of {W}.
Arguments chromium_launch {W}.
Arguments browser_newContext {W}.
Arguments context_newPage {W}.
Arguments page_setDefaultTimeout {W}.
Arguments page_goto {W}.
Arguments page_title {W}.
Arguments page_url {W}.
Arguments page_waitForSelector {W}.
Arguments page_click {W}.
Arguments page_waitForTimeout {W}.
Arguments page_fill {W}.
Arguments page_query {W}.
Arguments element_textContent {W}.
Arguments page_content {W}.
Arguments locator_scrollIntoViewIfNeeded {W}.
Arguments window_scrollBy {W}.
Arguments page_screenshot {W}.
Arguments page_viewportSize {W}.
Arguments context_close {W}.
Arguments browser_close {W}.
Arguments cheerio_text {W}.
Arguments cheerio_html {W}.
Arguments generateResponse {W}.
Arguments generateImage {W}.

(** ** The system state *)

Record Sys (W : Type) : Type := {
  hb : HummBrowser;          (* the singleton hummBrowser *)
  ag : AgentState;           (* tenHummingbirdsAgent.state *)
  timers : gset nat;         (* intervals scheduled and not cleared *)
  next_timer : nat;
  trace : list Call;
  world : W
}.

Arguments hb {W}.
Arguments ag {W}.
Arguments timers {W}.
Arguments next_timer {W}.
Arguments trace {W}.
Arguments world {W}.

Definition new_AgentState (now : Z) : AgentState :=
  {| isActive := false; currentTask := None; browserReady := false;
     lastActivity := now; isLiveStreaming := false; currentUrl := None |}.

Definition boot {W} (now : Z) (w : W) : Sys W :=
  {| hb := new_HummBrowser; ag := new_AgentState now; timers := ∅;
     next_timer := 0%nat; trace := []; world := w |}.

(** ** String helpers of ai-agent.ts *)

(** Strings are sequences of 8-bit characters, the code points below 256.
    [\s] matches six ASCII characters (tab, line feed, vertical tab, form
    feed, carriage return, space) and, of the others, the no-break space
    U+00A0. *)
Definition is_space (c : ascii) : bool :=
  let n := nat_of_ascii c in
  (Nat.eqb n 9 || Nat.eqb n 10 || Nat.eqb n 11 || Nat.eqb n 12
   || Nat.eqb n 13 || Nat.eqb n 32 || Nat.eqb n 160)%bool.

(** the longest prefix matching [[^\s]*] *)
Fixpoint take_nonspace (s : string) : string :=
  match s with
  | EmptyString => EmptyString
  | String c r => if is_space c then EmptyString else String c (take_nonspace r)
  end.

Fixpoint strip_prefix (p s : string) : option string :=
  match p with
  | EmptyString => Some s
  | String a p' =>
      match s with
      | String b s' => if Ascii.eqb a b then strip_prefix p' s' else None
      | EmptyString => None
      end
  end.

Definition scheme_then_nonspace (scheme s : string) : option string :=
  match strip_prefix scheme s with
  | Some r =>
      let t := take_nonspace r in
      if String.eqb t EmptyString then None else Some (scheme ++ t)
  | None => None
  end.

(** [/(https?:\/\/[^\s]+)/] anchored at the start of [s] *)
Definition url_at (s : string) : option string :=
  match scheme_then_nonspace "https://" s with
  | Some u => Some u
  | None => scheme_then_nonspace "http://" s
  end.

(** [response.match(urlRegex)], capture group 1 of the leftmost match *)
Fixpoint first_url (s : string) : option string :=
  match url_at s with
  | Some u => Some u
  | None =>
      match s with
      | EmptyString => None
      | String _ r => first_url r
      end
  end.

(** [toLowerCase] of one character: A to Z, and the capital letters U+00C0
    to U+00DE but for the multiplication sign U+00D7 *)
Definition lower (c : ascii) : ascii :=
  let n := nat_of_ascii c in
  if (Nat.leb 65 n && Nat.leb n 90)%bool then ascii_of_nat (n + 32)
  else if (Nat.leb 192 n && Nat.leb n 222 && negb (Nat.eqb n 215))%bool
  then ascii_of_nat (n + 32)
  else c.

Fixpoint toLowerCase (s : string) : string :=
  match s with
  | EmptyString => EmptyString
  | String c r => String (lower c) (toLowerCase r)
  end.

Fixpoint includes (s sub : string) : bool :=
  match strip_prefix sub s with
  | Some _ => true
  | None =>
      match s with
      | EmptyString => false
      | String _ r => includes r sub
      end
  end.

Definition extractUrlFromResponse (response : string) : string :=
  match first_url response with
  | Some u => u
  | None =>
      if (includes (toLowerCase response) "finance"
          || includes (toLowerCase response) "stock")%bool
      then "https://finance.yahoo.com"
      else "https://google.com"
  end.

(** ** Prompt templates of ai-agent.ts *)

Definition researchPrompt (userQuery : string) (content : option string) : string :=
  String.concat nl
    [ EmptyString;
      "      User Query: " ++ userQuery;
      "      ";
      "      Extracted Content: " ++ show_opt content;
      "      ";
      "      Please analyze this content and provide relevant insights for the user's query. ";
      "      Focus on trading and financial information if applicable.";
      "    " ].

Definition imagePrompt (userQuery description : string) : string :=
  String.concat nl
    [ EmptyString;
      "        Analyze this image generation request and create an optimized prompt:";
      "        ";
      "        User Query: " ++ userQuery;
      "        Description: " ++ description;
      "        ";
      "        Determine:";
      "        1. Image type (chart, graph, diagram, visualization, creative, analysis)";
      "        2. Style (financial, technical, minimal, detailed, professional)";
      "        3. Optimized prompt for AI image generation";
      "        4. Recommended dimensions";
      "        ";
      "        Respond in this JSON format:";
      "        {";
      "          " ++ dq ++ "imageType" ++ dq ++ ": " ++ dq ++ "chart|graph|diagram|visualization|creative|analysis" ++ dq ++ ",";
      "          " ++ dq ++ "style" ++ dq ++ ": " ++ dq ++ "financial|technical|minimal|detailed|professional" ++ dq ++ ",";
      "          " ++ dq ++ "optimizedPrompt" ++ dq ++ ": " ++ dq ++ "detailed prompt for image generation" ++ dq ++ ",";
      "          " ++ dq ++ "dimensions" ++ dq ++ ": {" ++ dq ++ "width" ++ dq ++ ": 1024, " ++ dq ++ "height" ++ dq ++ ": 1024},";
      "          " ++ dq ++ "reasoning" ++ dq ++ ": " ++ dq ++ "explanation of choices" ++ dq;
      "        }";
      "      " ].

Definition summaryPrompt (description userQuery observationSummary result : string) : string :=
  String.concat nl
    [ EmptyString;
      "      Task: " ++ description;
      "      User Query: " ++ userQuery;
      "      ";
      "      Execution Steps:";
      "      " ++ observationSummary;
      "      ";
      "      Result: " ++ result;
      "      ";
      "      Please provide a concise, user-friendly summary of what was accomplished.";
      "    " ].

(** ** Values handed to the outside or returned as task data *)

Definition viewport_json (v : option Viewport) : JsVal :=
  match v with
  | Some x => VObj [("width", VNum (vp_width x)); ("height", VNum (vp_height x));
                    ("deviceScaleFactor", VNum (vp_deviceScaleFactor x))]
  | None => VUndef
  end.

Definition request_json (r : ImageGenerationRequest) : JsVal :=
  VObj ([("prompt", req_prompt r); ("type", req_type r);
         ("style", req_style r); ("dimensions", req_dimensions r)]
        ++ match req_data r with Some d => [("data", d)] | None => [] end
        ++ [("parameters",
             VObj [("steps", VNum (steps (req_parameters r)));
                   ("guidance", VDec (guidance (req_parameters r)))])])%list.

Definition square_1024 : JsVal :=
  VObj [("width", VNum 1024); ("height", VNum 1024)].

(** the [catch (parseError)] branch of [performImageGeneration] *)
Definition fallbackImageRequest (task : AgentTask) : ImageGenerationRequest :=
  {| req_prompt := VStr (task_userQuery task);
     req_type := VStr "creative";
     req_style := VStr "professional";
     req_dimensions := square_1024;
     req_data := None;
     req_parameters := {| steps := 20; guidance := 15 # 2 |} |}.

(** the [try] branch, once [JSON.parse] has returned [analysisResult];
    [None] when a property read throws *)
Definition parsedImageRequest (task : AgentTask) (analysisResult : JsVal)
  : option ImageGenerationRequest :=
  match getProp analysisResult "optimizedPrompt",
        getProp analysisResult "imageType",
        getProp analysisResult "style",
        getProp analysisResult "dimensions" with
  | Some p, Some t, Some st, Some d =>
      Some {| req_prompt := js_or p (VStr (task_userQuery task));
              req_type := js_or t (VStr "creative");
              req_style := js_or st (VStr "professional");
              req_dimensions := js_or d square_1024;
              req_data := Some (vopt (task_parameters task));
              req_parameters := {| steps := 25; guidance := 15 # 2 |} |}
  | _, _, _, _ => None
  end.

Section Program.

Context {W : Type} (E : Env W).

Local Abbreviation P := (Prog (Sys W)).

(** *** Access to the state *)

Definition getB : P HummBrowser := fun s => (inr (hb s), s).

Definition modB (f : HummBrowser -> HummBrowser) : P unit :=
  fun s => (inr tt,
            {| hb := f (hb s); ag := ag s; timers := timers s;
               next_timer := next_timer s; trace := trace s;
               world := world s |}).

Definition getA : P AgentState := fun s => (inr (ag s), s).

Definition modA (f : AgentState -> AgentState) : P unit :=
  fun s => (inr tt,
            {| hb := hb s; ag := f (ag s); timers := timers s;
               next_timer := next_timer s; trace := trace s;
               world := world s |}).

(** [Date.now()] *)
Definition now : P Z :=
  fun s => let (t, w) := Date_now E (world s) in
           (inr t,
            {| hb := hb s; ag := ag s; timers := timers s;
               next_timer := next_timer s; trace := trace s; world := w |}).

(** a call to the outside: recorded, then answered by the world *)
Definition call {A} (c : Call) (op : W -> (JsExn + A) * W) : P A :=
  fun s => let (r, w) := op (world s) in
           (r,
            {| hb := hb s; ag := ag s; timers := timers s;
               next_timer := next_timer s; trace := (trace s ++ [c])%list;
               world := w |}).

(** [setInterval(tick, 1000 / frameRate)]: a fresh handle is scheduled.  The
    ticks themselves, which only take screenshots and feed the callback, are
    not run by the model. *)
Definition setInterval (frameRate : Z) : P nat :=
  fun s => let id := next_timer s in
           (inr id,
            {| hb := hb s; ag := ag s; timers := {[ id ]} ∪ timers s;
               next_timer := S id;
               trace := (trace s ++ [SetInterval id frameRate])%list;
               world := world s |}).

(** [clearInterval(id)] *)
Definition clearInterval (id : nat) : P unit :=
  fun s => (inr tt,
            {| hb := hb s; ag := ag s; timers := timers s ∖ {[ id ]};
               next_timer := next_timer s;
               trace := (trace s ++ [ClearInterval id])%list;
               world := world s |}).

(** [await new Promise(resolve => setTimeout(resolve, ms))] *)
Definition sleep (ms : Z) : P unit :=
  call (Sleep ms) (fun w => (inr tt, w)).

(** [if (!this.page) throw new Error('Page not initialized')] *)
Definition the_page : P Handle :=
  b <- getB ;;
  match page b with
  | Some p => ret p
  | None => throw (JsError "Page not initialized")
  end.

(** [catch (error) { throw new Error(`<what>: ${...message...}`) }] *)
Definition rethrow_as {A} (what : string) (m : P A) : P A :=
  try_catch m (fun e => throw (JsError (what ++ ": " ++ message_of e))).

(** ** class HummBrowser *)

Definition HummBrowser_initialize : P unit :=
  fun s =>
    (if DISABLE_BROWSER_AUTOMATION E (world s)
     then throw (JsError "Browser automation is disabled in production")
     else
       try_catch
         (b <- call Launch (chromium_launch E) ;;
          modB (set_browser (Some b)) ;;;
          c <- call NewContext (browser_newContext E b) ;;
          modB (set_context (Some c)) ;;;
          p <- call NewPage (context_newPage E c) ;;
          modB (set_page (Some p)) ;;;
          call (SetDefaultTimeout 30000) (page_setDefaultTimeout E p 30000) ;;;
          modB (set_isInitialized true))
         (fun error => throw error)) s.

Definition navigate (url : option string) : P HummObservation :=
  p <- the_page ;;
  rethrow_as "Navigation failed"
    (call (Goto url) (page_goto E p url) ;;;
     pageTitle <- call Title (page_title E p) ;;
     currentUrl <- call Url (page_url E p) ;;
     t <- now ;;
     ret (with_pageTitle pageTitle
            (with_url currentUrl
               (with_data (VObj [("navigated", VBool true)])
                  (observation true t))))).

Definition click (selector : option string) : P HummObservation :=
  p <- the_page ;;
  rethrow_as ("Click failed on " ++ show_opt selector)
    (call (WaitForSelector selector 10000)
          (page_waitForSelector E p selector 10000) ;;;
     call (Click selector) (page_click E p selector) ;;;
     call (WaitForTimeout 1000) (page_waitForTimeout E p 1000) ;;;
     u <- call Url (page_url E p) ;;
     t <- now ;;
     ret (with_data (VObj [("clicked", vstr selector)])
            (with_url u (observation true t)))).

Definition input (selector text : option string) : P HummObservation :=
  p <- the_page ;;
  rethrow_as ("Input failed on " ++ show_opt selector)
    (call (WaitForSelector selector 10000)
          (page_waitForSelector E p selector 10000) ;;;
     call (Fill selector text) (page_fill E p selector text) ;;;
     t <- now ;;
     ret (with_data (VObj [("inputted", vstr text); ("selector", vstr selector)])
            (observation true t))).

(** [content] is a string, null (an element without text content) or the
    object assembled from the cleaned page. *)
Definition extractContent (selector : option string) : P HummObservation :=
  p <- the_page ;;
  rethrow_as "Content extraction failed"
    (content <-
       (if given selector then
          element <- call (Query (show_opt selector))
                          (page_query E p (show_opt selector)) ;;
          match element with
          | Some el =>
              txt <- call TextContent (element_textContent E el) ;;
              ret (match txt with Some x => VStr x | None => VNull end)
          | None => throw (JsError ("Element not found: " ++ show_opt selector))
          end
        else
          html <- call Content (page_content E p) ;;
          title <- call Title (page_title E p) ;;
          u <- call Url (page_url E p) ;;
          ret (VObj [("title", VStr title);
                     ("text", VStr (cheerio_text E html));
                     ("html", VStr (cheerio_html E html));
                     ("url", VStr u)])) ;;
     t <- now ;;
     ret (with_content
            (match content with
             | VStr x => x
             | other => JSON_stringify E other
             end)
            (with_data content (observation true t)))).

(** [direction === 'down' ? pixels : -pixels] with the defaults of the
    destructuring [{ direction = 'down', pixels = 500, toElement }] *)
Definition scroll_direction (o : Options) : string :=
  match opt_direction o with Some d => d | None => "down" end.

Definition scroll_pixels (o : Options) : Z :=
  match opt_pixels o with Some n => n | None => 500 end.

Definition scrollY (o : Options) : Z :=
  if String.eqb (scroll_direction o) "down"
  then scroll_pixels o
  else - scroll_pixels o.

Definition scroll (options : option Options) : P HummObservation :=
  let o := match options with Some o => o | None => no_options end in
  p <- the_page ;;
  rethrow_as "Scroll failed"
    ((if given (opt_toElement o)
      then call (ScrollIntoView (show_opt (opt_toElement o)))
                (locator_scrollIntoViewIfNeeded E p (show_opt (opt_toElement o)))
      else call (ScrollBy 0 (scrollY o)) (window_scrollBy E p 0 (scrollY o))) ;;;
     t <- now ;;
     ret (with_data (VObj [("scrolled", VBool true);
                           ("direction", VStr (scroll_direction o));
                           ("pixels", VNum (scroll_pixels o))])
            (observation true t))).

Definition takeScreenshot : P HummObservation :=
  p <- the_page ;;
  rethrow_as "Screenshot failed"
    (base64Screenshot <- call Screenshot (page_screenshot E p) ;;
     t <- now ;;
     ret (with_screenshot ("data:image/png;base64," ++ base64Screenshot)
            (with_data (VObj [("screenshotTaken", VBool true)])
               (observation true t)))).

Definition waitForElement (selector : option string) (timeout : option Z)
  : P HummObservation :=
  let ms := match timeout with Some n => n | None => 10000 end in
  p <- the_page ;;
  rethrow_as ("Wait failed for " ++ show_opt selector)
    (call (WaitForSelector selector ms) (page_waitForSelector E p selector ms) ;;;
     t <- now ;;
     ret (with_data (VObj [("elementFound", vstr selector)])
            (observation true t))).

Definition viewport_of (v : option (Z * Z)) : option Viewport :=
  match v with
  | Some (w, h) =>
      Some {| vp_width := w; vp_height := h; vp_deviceScaleFactor := 1 |}
  | None => None
  end.

Definition viewport_val (v : option (Z * Z)) : JsVal :=
  match v with
  | Some (w, h) => VObj [("width", VNum w); ("height", VNum h)]
  | None => VNull
  end.

Definition getCurrentState : P HummObservation :=
  b <- getB ;;
  match page b with
  | None =>
      t <- now ;;
      ret (with_error (Some "Browser not initialized") (observation false t))
  | Some p =>
      try_catch
        (pageTitle <- call Title (page_title E p) ;;
         u <- call Url (page_url E p) ;;
         viewport <- call ViewportSize (page_viewportSize E p) ;;
         b <- getB ;;
         t <- now ;;
         ret (with_pageTitle pageTitle
                (with_url u
                   (with_viewport (viewport_of viewport)
                      (with_streamData
                         {| sd_isStreaming := isStreaming b;
                            sd_frameRate :=
                              match streamInterval b with
                              | Some _ => 2
                              | None => 0
                              end;
                            sd_quality := 60 |}
                         (with_data
                            (VObj [("isReady", VBool true);
                                   ("title", VStr pageTitle);
                                   ("currentUrl", VStr u);
                                   ("isStreaming", VBool (isStreaming b))])
                            (observation true t)))))))
        (fun error =>
           t <- now ;;
           ret (with_error (Some (message_of error)) (observation false t)))
  end.

Definition startStreaming (callback : option Handle) (frameRate : option Z)
  : P HummObservation :=
  let fr := match frameRate with Some n => n | None => 2 end in
  the_page ;;;
  rethrow_as "Failed to start streaming"
    (modB (set_streamCallback callback) ;;;
     modB (set_isStreaming true) ;;;
     id <- setInterval fr ;;
     modB (set_streamInterval (Some id)) ;;;
     t <- now ;;
     ret (with_streamData
            {| sd_isStreaming := true; sd_frameRate := fr; sd_quality := 60 |}
            (with_data (VObj [("streamingStarted", VBool true)])
               (observation true t)))).

Definition stopStreaming : P HummObservation :=
  rethrow_as "Failed to stop streaming"
    (modB (set_isStreaming false) ;;;
     b <- getB ;;
     match streamInterval b with
     | Some id => clearInterval id ;;; modB (set_streamInterval None)
     | None => ret tt
     end ;;;
     modB (set_streamCallback None) ;;;
     t <- now ;;
     ret (with_streamData
            {| sd_isStreaming := false; sd_frameRate := 0; sd_quality := 0 |}
            (with_data (VObj [("streamingStopped", VBool true)])
               (observation true t)))).

Definition getViewportInfo : P HummObservation :=
  p <- the_page ;;
  rethrow_as "Failed to get viewport info"
    (viewport <- call ViewportSize (page_viewportSize E p) ;;
     u <- call Url (page_url E p) ;;
     title <- call Title (page_title E p) ;;
     t <- now ;;
     ret (with_pageTitle title
            (with_url u
               (with_viewport (viewport_of viewport)
                  (with_data
                     (VObj [("viewport", viewport_val viewport);
                            ("currentUrl", VStr u);
                            ("title", VStr title)])
                     (observation true t)))))).

Definition dispatch (command : HummCommand) : P HummObservation :=
  let a := cmd_action command in
  let o := cmd_options command in
  if String.eqb a "navigate" then navigate (cmd_url command)
  else if String.eqb a "click" then click (cmd_selector command)
  else if String.eqb a "input" then input (cmd_selector command) (cmd_text command)
  else if String.eqb a "extract" then extractContent (cmd_selector command)
  else if String.eqb a "scroll" then scroll o
  else if String.eqb a "screenshot" then takeScreenshot
  else if String.eqb a "wait" then
    waitForElement (cmd_selector command)
      (match o with Some x => opt_timeout x | None => None end)
  else if String.eqb a "stream_start" then
    startStreaming (match o with Some x => opt_callback x | None => None end)
      (match o with Some x => opt_frameRate x | None => None end)
  else if String.eqb a "stream_stop" then stopStreaming
  else if String.eqb a "get_viewport" then getViewportInfo
  else throw (JsError ("Unknown command action: " ++ a)).

(** [!this.page] *)
Definition no_page (b : HummBrowser) : bool :=
  match page b with Some _ => false | None => true end.

(** [!this.isInitialized || !this.page] *)
Definition uninitialized (b : HummBrowser) : bool :=
  negb (isInitialized b) || no_page b.

Definition executeCommand (command : HummCommand) : P HummObservation :=
  b <- getB ;;
  when_ (uninitialized b) HummBrowser_initialize ;;;
  startTime <- now ;;
  try_catch (dispatch command)
    (fun error =>
       ret (with_error (Some (message_of error)) (observation false startTime))).

Definition close : P unit :=
  try_catch
    (b <- getB ;;
     when_ (isStreaming b) (stopStreaming ;;; ret tt) ;;;
     match context b with
     | Some c => call ContextClose (context_close E c)
     | None => ret tt
     end ;;;
     match browser b with
     | Some x => call BrowserClose (browser_close E x)
     | None => ret tt
     end ;;;
     modB (set_isInitialized false))
    (fun _ => ret tt).


(** ** class TenHummingbirdsAgent *)

(** A handler runs with the array [observations] of its caller in scope:
    what it pushed stays pushed when it throws. *)
Local Abbreviation T := (Prog (Sys W * list HummObservation)).

Definition lift {A} (m : P A) : T A :=
  fun st => let (r, s') := m (fst st) in (r, (s', snd st)).

(** [observations.push(o)] *)
Definition push (o : HummObservation) : T unit :=
  fun st => (inr tt, (fst st, (snd st ++ [o])%list)).

Definition pushed : T (list HummObservation) :=
  fun st => (inr (snd st), st).

(** [const observations: HummObservation[] = []] for the extent of [m] *)
Definition with_observations {A} (m : T A) : P A :=
  fun s => let (r, st) := m (s, []) in (r, fst st).

(** [await hummBrowser.executeCommand(c)] followed by [observations.push] *)
Definition step (c : HummCommand) : T HummObservation :=
  r <- lift (executeCommand c) ;;
  push r ;;;
  ret r.

Definition navigate_to (u : option string) : HummCommand :=
  {| cmd_action := "navigate"; cmd_url := u; cmd_selector := None;
     cmd_text := None; cmd_options := None |}.

Definition extract_from (sel : option string) : HummCommand :=
  {| cmd_action := "extract"; cmd_url := None; cmd_selector := sel;
     cmd_text := None; cmd_options := None |}.

Definition stream_start_at (frameRate : Z) : HummCommand :=
  {| cmd_action := "stream_start"; cmd_url := None; cmd_selector := None;
     cmd_text := None;
     cmd_options :=
       Some {| opt_timeout := None; opt_callback := None;
               opt_frameRate := Some frameRate; opt_direction := None;
               opt_pixels := None; opt_toElement := None |} |}.

Definition ask (prompt : string) (ctx : GatewayContext) : P ConversationalResponse :=
  call (GenerateResponse prompt ctx) (generateResponse E prompt ctx).

Definition Agent_initialize : P unit :=
  try_catch
    (HummBrowser_initialize ;;;
     modA (set_browserReady true) ;;;
     modA (set_isActive true))
    (fun error => throw error).

Definition performResearch (task : AgentTask) : T JsVal :=
  targetUrl <-
    (if given (task_targetUrl task) then ret (show_opt (task_targetUrl task))
     else
       aiResponse <-
         lift (ask ("What is the best website to research: "
                    ++ task_userQuery task ++ "? Return just the URL.")
                   {| user_style := None; analysis_type := Some "strategy" |}) ;;
       let u := extractUrlFromResponse (resp_text aiResponse) in
       (* task.targetUrl = u: the task is the object held in currentTask *)
       lift (modA (fun a => set_currentTask
                              (option_map (set_targetUrl u) (currentTask a)) a)) ;;;
       ret u) ;;
  navResult <- step (navigate_to (Some targetUrl)) ;;
  if negb (obs_success navResult)
  then throw (JsError ("Failed to navigate to " ++ targetUrl))
  else
    extractResult <- step (extract_from None) ;;
    if negb (obs_success extractResult)
    then throw (JsError "Failed to extract page content")
    else
      aiAnalysis <-
        lift (ask (researchPrompt (task_userQuery task) (obs_content extractResult))
                  {| user_style := Some "professional";
                     analysis_type := Some "fundamental" |}) ;;
      ret (VObj [("url", VStr targetUrl);
                 ("pageTitle", vstr (obs_pageTitle navResult));
                 ("extractedContent", vopt (obs_data extractResult));
                 ("aiAnalysis", VStr (resp_text aiAnalysis));
                 ("confidence", VNum (resp_confidence aiAnalysis))]).

Definition performScraping (task : AgentTask) : T JsVal :=
  if negb (given (task_targetUrl task))
  then throw (JsError "Target URL required for scraping task")
  else
    navResult <- step (navigate_to (task_targetUrl task)) ;;
    if given (task_selector task) then
      extractResult <- step (extract_from (task_selector task)) ;;
      ret (VObj [("url", vstr (task_targetUrl task));
                 ("selector", vstr (task_selector task));
                 ("data", vopt (obs_data extractResult))])
    else
      extractResult <- step (extract_from None) ;;
      ret (VObj [("url", vstr (task_targetUrl task));
                 ("fullContent", vopt (obs_data extractResult))]).

Definition performNavigation (task : AgentTask) : T JsVal :=
  if negb (given (task_targetUrl task))
  then throw (JsError "Target URL required for navigation task")
  else
    navResult <- step (navigate_to (task_targetUrl task)) ;;
    screenshotResult <- step (command "screenshot") ;;
    ret (VObj [("url", vstr (task_targetUrl task));
               ("pageTitle", vstr (obs_pageTitle navResult));
               ("screenshot", vstr (obs_screenshot screenshotResult));
               ("navigationSuccess", VBool (obs_success navResult))]).

Definition performMonitoring (task : AgentTask) : T JsVal :=
  if negb (given (task_targetUrl task))
  then throw (JsError "Target URL required for monitoring task")
  else
    navResult <- step (navigate_to (task_targetUrl task)) ;;
    extractResult <- step (extract_from (task_selector task)) ;;
    t <- lift now ;;
    ret (VObj [("url", vstr (task_targetUrl task));
               ("monitoredData", vopt (obs_data extractResult));
               ("timestamp", VNum t)]).

(** [let imageRequest; try { JSON.parse ... } catch (parseError) { ... }] *)
Definition buildImageRequest (task : AgentTask) (text : string)
  : ImageGenerationRequest :=
  match JSON_parse E text with
  | Some analysisResult =>
      match parsedImageRequest task analysisResult with
      | Some r => r
      | None => fallbackImageRequest task
      end
  | None => fallbackImageRequest task
  end.

Definition performImageGeneration (task : AgentTask) : T JsVal :=
  try_catch
    (aiAnalysis <-
       lift (ask (imagePrompt (task_userQuery task) (task_description task))
                 {| user_style := Some "technical";
                    analysis_type := Some "strategy" |}) ;;
     let imageRequest := buildImageRequest task (resp_text aiAnalysis) in
     t1 <- lift now ;;
     push (with_data (VObj [("aiAnalysis", VStr (resp_text aiAnalysis));
                            ("imageRequest", request_json imageRequest)])
             (observation true t1)) ;;;
     imageResult <-
       lift (call (GenerateImage imageRequest) (generateImage E imageRequest)) ;;
     t2 <- lift now ;;
     push (with_error (img_error imageResult)
             (with_data
                (VObj [("imageGenerated", VBool (img_success imageResult));
                       ("model", VStr (img_model imageResult));
                       ("generationTime", VNum (img_generationTime imageResult));
                       ("metadata", vopt (img_metadata imageResult))])
                (observation (img_success imageResult) t2))) ;;;
     if negb (img_success imageResult)
     then throw (JsError ("Image generation failed: "
                          ++ show_opt (img_error imageResult)))
     else
       ret (VObj [("imageBase64", vstr (img_imageBase64 imageResult));
                  ("imageUrl", vstr (img_imageUrl imageResult));
                  ("prompt", VStr (img_prompt imageResult));
                  ("originalQuery", VStr (task_userQuery task));
                  ("model", VStr (img_model imageResult));
                  ("generationTime", VNum (img_generationTime imageResult));
                  ("metadata", vopt (img_metadata imageResult));
                  ("type", req_type imageRequest);
                  ("style", req_style imageRequest);
                  ("success", VBool true)]))
    (fun error => throw error).

(** [if (task.enableLiveView)] *)
Definition liveView (task : AgentTask) : bool :=
  match task_enableLiveView task with Some b => b | None => false end.

Definition performLiveDemo (task : AgentTask) : T JsVal :=
  if negb (given (task_targetUrl task))
  then throw (JsError "Target URL required for live demo task")
  else
    try_catch
      ((if liveView task then
          step (stream_start_at 2) ;;;
          lift (modA (set_isLiveStreaming true))
        else ret tt) ;;;
       navResult <- step (navigate_to (task_targetUrl task)) ;;
       lift (modA (set_currentUrl (task_targetUrl task))) ;;;
       if negb (obs_success navResult)
       then throw (JsError ("Failed to navigate to "
                            ++ show_opt (task_targetUrl task)))
       else
         lift (sleep 2000) ;;;
         viewportResult <- step (command "get_viewport") ;;
         screenshotResult <- step (command "screenshot") ;;
         a <- lift getA ;;
         ret (VObj [("url", vstr (task_targetUrl task));
                    ("pageTitle", vstr (obs_pageTitle navResult));
                    ("screenshot", vstr (obs_screenshot screenshotResult));
                    ("viewport", viewport_json (obs_viewport viewportResult));
                    ("liveStreamActive", VBool (isLiveStreaming a));
                    ("navigationSuccess", VBool (obs_success navResult));
                    ("demoCompleted", VBool true)]))
      (fun error =>
         a <- lift getA ;;
         (if isLiveStreaming a then
            lift (executeCommand (command "stream_stop")) ;;;
            lift (modA (set_isLiveStreaming false))
          else ret tt) ;;;
         throw error).

(** one line of [observationSummary] *)
Definition observation_line (obs : HummObservation) : string :=
  show_num (obs_timestamp obs) ++ ": "
  ++ match obs_data obs with
     | Some d => if truthy d then JSON_stringify E d else "No data"
     | None => "No data"
     end.

Definition observationSummary (observations : list HummObservation) : string :=
  String.concat nl
    (List.map observation_line (List.filter obs_success observations)).

Definition fallbackSummary (task : AgentTask) : string :=
  "Task completed: " ++ task_description task
  ++ ". Check the detailed results for more information.".

Definition generateTaskSummary (task : AgentTask)
    (observations : list HummObservation) (result : JsVal) : P string :=
  let prompt :=
    summaryPrompt (task_description task) (task_userQuery task)
      (observationSummary observations) (JSON_stringify E result) in
  try_catch
    (aiSummary <- ask prompt {| user_style := Some "professional";
                                analysis_type := None |} ;;
     ret (resp_text aiSummary))
    (fun _ => ret (fallbackSummary task)).

Definition handler (task : AgentTask) : T JsVal :=
  let ty := task_type task in
  if String.eqb ty "research" then performResearch task
  else if String.eqb ty "scrape" then performScraping task
  else if String.eqb ty "navigate" then performNavigation task
  else if String.eqb ty "monitor" then performMonitoring task
  else if String.eqb ty "live_demo" then performLiveDemo task
  else if String.eqb ty "generate_image" then performImageGeneration task
  else throw (JsError ("Unknown task type: " ++ ty)).

(** the [try] block of [executeTask] *)
Definition runTask (task : AgentTask) (startTime : Z) : T AgentResult :=
  lift (modA (set_currentTask (Some task))) ;;;
  t <- lift now ;;
  lift (modA (set_lastActivity t)) ;;;
  result <- handler task ;;
  observations <- pushed ;;
  summary <- lift (generateTaskSummary task observations result) ;;
  finish <- lift now ;;
  observations <- pushed ;;
  ret {| res_taskId := task_id task;
         res_success := true;
         res_data := Some result;
         res_observations := observations;
         res_summary := summary;
         res_timestamp := startTime;
         res_executionTime := finish - startTime |}.

(** the [catch (error)] block of [executeTask] *)
Definition failTask (task : AgentTask) (startTime : Z) (error : JsExn)
  : T AgentResult :=
  finish <- lift now ;;
  observations <- pushed ;;
  ret {| res_taskId := task_id task;
         res_success := false;
         res_data := None;
         res_observations := observations;
         res_summary := "Task failed: " ++ message_of error;
         res_timestamp := startTime;
         res_executionTime := finish - startTime |}.

Definition executeTask (task : AgentTask) : P AgentResult :=
  startTime <- now ;;
  with_observations
    (try_finally
       (try_catch (runTask task startTime) (failTask task startTime))
       (lift (modA (set_currentTask None)))).

Definition getState : P AgentState := getA.

Definition getBrowserState : P HummObservation := getCurrentState.

Definition stopLiveStream : P unit :=
  a <- getA ;;
  when_ (isLiveStreaming a)
    (try_catch
       (executeCommand (command "stream_stop") ;;;
        modA (set_isLiveStreaming false))
       (fun _ => ret tt)).

Definition shutdown : P unit :=
  try_catch
    (stopLiveStream ;;;
     close ;;;
     modA (set_isActive false) ;;;
     modA (set_browserReady false) ;;;
     modA (set_isLiveStreaming false) ;;;
     modA (set_currentUrl None))
    (fun _ => ret tt).

End Program.

(** * Scripted environments

    Concrete instances of [Env], used to run the programs on examples.  The
    world is the clock. *)

Record Scenario : Type := {
  sc_disabled : bool;            (* DISABLE_BROWSER_AUTOMATION is 'true' *)
  sc_goto_fails : bool;          (* page.goto rejects *)
  sc_screenshot_fails : bool;    (* page.screenshot rejects *)
  sc_gateway_down : bool;        (* generateResponse rejects *)
  sc_answer : string             (* the text the gateway answers with *)
}.

Definition all_well : Scenario :=
  {| sc_disabled := false; sc_goto_fails := false; sc_screenshot_fails := false;
     sc_gateway_down := false; sc_answer := "ok" |}.

Definition outcome {A} (fails : bool) (what : string) (a : A) (w : Z)
  : (JsExn + A) * Z :=
  if fails then (inl (JsError what), w) else (inr a, w).

(** enough of [JSON.stringify] to print the values of the examples *)
Definition sketch_json (v : JsVal) : string :=
  match v with
  | VUndef => "undefined"
  | VNull => "null"
  | VBool true => "true"
  | VBool false => "false"
  | VNum n => show_num n
  | VDec _ => "0.0"
  | VStr s => dq ++ s ++ dq
  | VArr _ => "[]"
  | VObj _ => "{}"
  end.

(** an answer that is valid JSON and not of the requested format *)
Definition misshapen_answer : string :=
  "{" ++ dq ++ "note" ++ dq ++ ": " ++ dq
  ++ "no chart can be derived from a request this vague" ++ dq ++ "}".

(** [JSON.parse] on the texts of the examples; a SyntaxError otherwise *)
Definition parse_small (text : string) : option JsVal :=
  if String.eqb text misshapen_answer
  then Some (VObj [("note", VStr "no chart can be derived from a request this vague")])
  else if String.eqb text "{}" then Some (VObj [])
  else if String.eqb text "null" then Some VNull
  else None.

(** the conversion of the values of the examples to a string *)
Definition text_small (v : JsVal) : JsExn + string :=
  match v with
  | VStr x => inr x
  | VObj fields =>
      if existsb (fun kv => String.eqb (fst kv) "toString") fields
      then inl (JsError "Cannot convert object to primitive value")
      else inr "[object Object]"
  | VArr _ => inr EmptyString
  | other => inr (sketch_json other)
  end.

Definition scripted (sc : Scenario) : Env Z :=
  {| DISABLE_BROWSER_AUTOMATION := fun _ => sc_disabled sc;
     Date_now := fun w => (w, w + 1);
     JSON_stringify := sketch_json;
     JSON_parse := parse_small;
     String_of := text_small;
     chromium_launch := fun w => (inr 1%nat, w);
     browser_newContext := fun _ w => (inr 2%nat, w);
     context_newPage := fun _ w => (inr 3%nat, w);
     page_setDefaultTimeout := fun _ _ w => (inr tt, w);
     page_goto := fun _ _ => outcome (sc_goto_fails sc) "net::ERR_NAME_NOT_RESOLVED" tt;
     page_title := fun _ w => (inr "Example Domain", w);
     page_url := fun _ w => (inr "https://example.com/", w);
     page_waitForSelector := fun _ _ _ w => (inr tt, w);
     page_click := fun _ _ w => (inr tt, w);
     page_waitForTimeout := fun _ _ w => (inr tt, w);
     page_fill := fun _ _ _ w => (inr tt, w);
     page_query := fun _ _ w => (inr (Some 4%nat), w);
     element_textContent := fun _ w => (inr (Some "text"), w);
     page_content := fun _ w => (inr "<html></html>", w);
     locator_scrollIntoViewIfNeeded := fun _ _ w => (inr tt, w);
     window_scrollBy := fun _ _ _ w => (inr tt, w);
     page_screenshot := fun _ => outcome (sc_screenshot_fails sc) "Timeout 30000ms exceeded" "iVBORw0KGgo=";
     page_viewportSize := fun _ w => (inr (Some (1366, 768)), w);
     context_close := fun _ w => (inr tt, w);
     browser_close := fun _ w => (inr tt, w);
     cheerio_text := fun html => html;
     cheerio_html := fun html => html;
     generateResponse := fun _ _ =>
       outcome (sc_gateway_down sc) "gateway unreachable"
         {| resp_text := sc_answer sc; resp_confidence := 90;
            resp_model_used := "Groq Llama3" |};
     generateImage := fun r w =>
       (inr {| img_success := true; img_imageUrl := None;
               img_imageBase64 := Some "iVBORw0KGgo=";
               img_prompt := "prompt"; img_model := "creative-generator";
               img_generationTime := 1; img_error := None;
               img_metadata := None |}, w) |}.

Definition automation_disabled : Scenario :=
  {| sc_disabled := true; sc_goto_fails := false; sc_screenshot_fails := false;
     sc_gateway_down := false; sc_answer := "ok" |}.

Definition gateway_down : Scenario :=
  {| sc_disabled := false; sc_goto_fails := false; sc_screenshot_fails := false;
     sc_gateway_down := true; sc_answer := "ok" |}.

Definition unreachable_site : Scenario :=
  {| sc_disabled := false; sc_goto_fails := true; sc_screenshot_fails := false;
     sc_gateway_down := false; sc_answer := "ok" |}.

Definition screenshot_times_out : Scenario :=
  {| sc_disabled := false; sc_goto_fails := false; sc_screenshot_fails := true;
     sc_gateway_down := false; sc_answer := "ok" |}.

Definition answering (text : string) : Scenario :=
  {| sc_disabled := false; sc_goto_fails := false; sc_screenshot_fails := false;
     sc_gateway_down := false; sc_answer := text |}.

(** the system after [tenHummingbirdsAgent.initialize()] *)
Definition ready (sc : Scenario) : Sys Z :=
  snd (Agent_initialize (scripted sc) (boot 0 0)).

Definition a_task (type : string) (targetUrl : option string) : AgentTask :=
  {| task_id := "task_1"; task_type := type;
     task_description := "demo"; task_userQuery := "latest market trends";
     task_targetUrl := targetUrl; task_selector := None;
     task_parameters := None; task_enableLiveView := Some true |}.

Definition demo_url : option string := Some "https://example.com".


(** * Specification vocabulary *)

Section Effects.

Context {W : Type} (E : Env W).

(** the reading and the effect of [Date.now()] *)
Definition clock (s : Sys W) : Z := fst (Date_now E (world s)).

Definition tick (s : Sys W) : Sys W :=
  {| hb := hb s; ag := ag s; timers := timers s; next_timer := next_timer s;
     trace := trace s; world := snd (Date_now E (world s)) |}.

(** the state in which the [try] block of [executeTask], started in [s],
    calls the handler of the task *)
Definition entered (task : AgentTask) (s : Sys W) : Sys W :=
  {| hb := hb s;
     ag := set_lastActivity (clock s) (set_currentTask (Some task) (ag s));
     timers := timers s; next_timer := next_timer s; trace := trace s;
     world := snd (Date_now E (world s)) |}.

(** the state in which [executeTask] returns, given the state in which its
    [try] or [catch] block ended *)
Definition left (s : Sys W) : Sys W :=
  {| hb := hb s; ag := set_currentTask None (ag s); timers := timers s;
     next_timer := next_timer s; trace := trace s; world := world s |}.

(** the [try] block of [executeTask] from the return of the handler on *)
Definition conclude (task : AgentTask) (startTime : Z) (result : JsVal)
  : Prog (Sys W * list HummObservation) AgentResult :=
  observations <- pushed ;;
  summary <- lift (generateTaskSummary E task observations result) ;;
  finish <- lift (now E) ;;
  observations <- pushed ;;
  ret {| res_taskId := task_id task;
         res_success := true;
         res_data := Some result;
         res_observations := observations;
         res_summary := summary;
         res_timestamp := startTime;
         res_executionTime := finish - startTime |}.

(** the request that [generateTaskSummary] sends to the gateway *)
Definition summary_request (task : AgentTask)
    (observations : list HummObservation) (result : JsVal) : string :=
  summaryPrompt (task_description task) (task_userQuery task)
    (observationSummary E observations) (JSON_stringify E result).

Definition summary_context : GatewayContext :=
  {| user_style := Some "professional"; analysis_type := None |}.

(** the state after that request, and the summary it yields *)
Definition asked (task : AgentTask) (observations : list HummObservation)
    (result : JsVal) (s : Sys W) : Sys W :=
  {| hb := hb s; ag := ag s; timers := timers s; next_timer := next_timer s;
     trace := (trace s ++ [GenerateResponse
                             (summary_request task observations result)
                             summary_context])%list;
     world := snd (generateResponse E
                     (summary_request task observations result)
                     summary_context (world s)) |}.

Definition summary_of (task : AgentTask) (observations : list HummObservation)
    (result : JsVal) (s : Sys W) : string :=
  match fst (generateResponse E (summary_request task observations result)
               summary_context (world s)) with
  | inr aiSummary => resp_text aiSummary
  | inl _ =>
      "Task completed: " ++ task_description task
      ++ ". Check the detailed results for more information."
  end.

(** what [executeTask] answers when its handler returned [result] *)
Definition completion (task : AgentTask) (startTime finish : Z)
    (observations : list HummObservation) (result : JsVal) (summary : string)
  : AgentResult :=
  {| res_taskId := task_id task;
     res_success := true;
     res_data := Some result;
     res_observations := observations;
     res_summary := summary;
     res_timestamp := startTime;
     res_executionTime := finish - startTime |}.

(** what [executeTask] answers when its handler threw *)
Definition failure (task : AgentTask) (startTime finish : Z)
    (observations : list HummObservation) (error : JsExn) : AgentResult :=
  {| res_taskId := task_id task;
     res_success := false;
     res_data := None;
     res_observations := observations;
     res_summary := "Task failed: " ++ message_of error;
     res_timestamp := startTime;
     res_executionTime := finish - startTime |}.

End Effects.

(** what [stopStreaming] does to the state before it reads the clock *)
Definition stop_effect {W} (s : Sys W) : Sys W :=
  match streamInterval (hb s) with
  | Some id =>
      {| hb := set_streamCallback None
                 (set_streamInterval None (set_isStreaming false (hb s)));
         ag := ag s; timers := timers s ∖ {[ id ]};
         next_timer := next_timer s;
         trace := (trace s ++ [ClearInterval id])%list; world := world s |}
  | None =>
      {| hb := set_streamCallback None (set_isStreaming false (hb s));
         ag := ag s; timers := timers s; next_timer := next_timer s;
         trace := trace s; world := world s |}
  end.

(** what [startStreaming] does to the state before it reads the clock *)
Definition start_effect {W} (callback : option Handle) (fr : Z) (s : Sys W) : Sys W :=
  {| hb := set_streamInterval (Some (next_timer s))
             (set_isStreaming true (set_streamCallback callback (hb s)));
     ag := ag s; timers := {[ next_timer s ]} ∪ timers s;
     next_timer := S (next_timer s);
     trace := (trace s ++ [SetInterval (next_timer s) fr])%list;
     world := world s |}.

Definition stream_start_with (o : option Options) : HummCommand :=
  {| cmd_action := "stream_start"; cmd_url := None; cmd_selector := None;
     cmd_text := None; cmd_options := o |}.

Definition frameRate_of (o : option Options) : Z :=
  match o with
  | Some x => match opt_frameRate x with Some n => n | None => 2 end
  | None => 2
  end.

Definition callback_of (o : option Options) : option Handle :=
  match o with Some x => opt_callback x | None => None end.

(** the word for the task type in the error of a missing target URL *)
Definition task_noun (type : string) : string :=
  if String.eqb type "scrape" then "scraping"
  else if String.eqb type "navigate" then "navigation"
  else "monitoring".

(** The spec's words, for comparison with the code: the templated summary
    substituted when the gateway fails. *)
Definition spec_templated_summary (description : string) : string :=
  "Task completed: " ++ description ++ ". Check detailed results.".

(** the own properties of a value, as far as the handler reads them *)
Definition fields_of (v : JsVal) : list (string * JsVal) :=
  match v with VObj fs => fs | _ => [] end.

(** the context of the analysis request of [performImageGeneration] *)
Definition image_context : GatewayContext :=
  {| user_style := Some "technical"; analysis_type := Some "strategy" |}.

(** The spec's words, for comparison with the code: an answer "of the
    expected shape" is an object holding the five keys of the requested
    JSON format. *)
Definition has_expected_shape (v : JsVal) : bool :=
  match v with
  | VObj fs =>
      forallb (fun k => match assoc k fs with VUndef => false | _ => true end)
        ["imageType"; "style"; "optimizedPrompt"; "dimensions"; "reasoning"]
  | _ => false
  end.




(** no stream is active *)
Definition idle (b : HummBrowser) : Prop :=
  isStreaming b = false /\ streamInterval b = None /\ streamCallback b = None.

(** the Observation of a stopped stream *)
Definition stopped_report (o : HummObservation) : Prop :=
  obs_success o = true
  /\ obs_streamData o =
       Some {| sd_isStreaming := false; sd_frameRate := 0; sd_quality := 0 |}.

(** the state after an assignment to a field of the agent state *)
Definition with_ag {W} (f : AgentState -> AgentState) (s : Sys W) : Sys W :=
  {| hb := hb s; ag := f (ag s); timers := timers s;
     next_timer := next_timer s; trace := trace s; world := world s |}.

(** [s'] differs from [s] in the world (the clock) only *)
Definition only_clock_moved {W} (s s' : Sys W) : Prop :=
  hb s' = hb s /\ ag s' = ag s /\ timers s' = timers s
  /\ next_timer s' = next_timer s /\ trace s' = trace s.

(** [s'] differs from [s] in the trace and the world only *)
Definition only_calls_made {W} (s s' : Sys W) : Prop :=
  hb s' = hb s /\ ag s' = ag s /\ timers s' = timers s
  /\ next_timer s' = next_timer s.

(** [ensures I m Qv Qe]: started in a state of [I], [m] ends in a state of
    [I], with a value of [Qv] or an exception of [Qe]. *)
Definition ensures {S A} (I : S -> Prop) (m : Prog S A)
    (Qv : A -> Prop) (Qe : JsExn -> Prop) : Prop :=
  forall s, I s ->
    match m s with
    | (inr a, s') => Qv a /\ I s'
    | (inl e, s') => Qe e /\ I s'
    end.

Definition anything {A} : A -> Prop := fun _ => True.
Definition nothing {A} : A -> Prop := fun _ => False.

(** What an invariant of the system state may depend on:
    insensitive to the trace and to the world, it is kept by every call out *)
Definition ignores_world {W} (I : Sys W -> Prop) : Prop :=
  forall s tr w, I s ->
    I {| hb := hb s; ag := ag s; timers := timers s;
         next_timer := next_timer s; trace := tr; world := w |}.

(** moreover insensitive to the streaming fields and to the timer table:
    kept by [startStreaming] and [stopStreaming] too *)
Definition ignores_stream {W} (I : Sys W -> Prop) : Prop :=
  forall s s', I s ->
    browser (hb s') = browser (hb s) -> context (hb s') = context (hb s) ->
    page (hb s') = page (hb s) -> isInitialized (hb s') = isInitialized (hb s) ->
    ag s' = ag s ->
    I s'.

(** the outcomes of a method of the controller *)
Definition succeeded (o : HummObservation) : Prop := obs_success o = true.

Definition has_message (e : JsExn) : Prop := message_of e <> EmptyString.

(** a command other than [stream_start] and [stream_stop] *)
Definition plain (c : HummCommand) : Prop :=
  cmd_action c <> "stream_start" /\ cmd_action c <> "stream_stop".

(** a Session exists *)
Definition has_session {W} (s : Sys W) : Prop := uninitialized (hb s) = false.

(** what a returned Observation reports *)
Definition reported (o : HummObservation) : Prop :=
  obs_success o = true
  \/ (obs_success o = false
      /\ exists m, obs_error o = Some m /\ m <> EmptyString).


(** * Reasoning about programs *)


Section Rules.

Context {S : Type} (I : S -> Prop).

Lemma ensures_ret {A} (a : A) (Qv : A -> Prop) Qe :
  Qv a -> ensures I (ret a) Qv Qe.
Proof. intros Ha s Hs. simpl. auto. Qed.

Lemma ensures_throw {A} e (Qv : A -> Prop) (Qe : JsExn -> Prop) :
  Qe e -> ensures I (@throw S A e) Qv Qe.
Proof. intros He s Hs. simpl. auto. Qed.

Lemma ensures_bind {A B} (m : Prog S A) (k : A -> Prog S B) Qv Qe :
  ensures I m anything Qe ->
  (forall a, ensures I (k a) Qv Qe) ->
  ensures I (bind m k) Qv Qe.
Proof.
  intros Hm Hk s Hs. unfold bind. specialize (Hm s Hs).
  destruct (m s) as [[e | a] s1].
  - exact Hm.
  - destruct Hm as [_ H1]. exact (Hk a s1 H1).
Qed.

Lemma ensures_try_catch {A} (m : Prog S A) h Qv Qe :
  ensures I m Qv anything ->
  (forall e, ensures I (h e) Qv Qe) ->
  ensures I (try_catch m h) Qv Qe.
Proof.
  intros Hm Hh s Hs. unfold try_catch. specialize (Hm s Hs).
  destruct (m s) as [[e | a] s1].
  - destruct Hm as [_ H1]. exact (Hh e s1 H1).
  - exact Hm.
Qed.

End Rules.

Lemma ignores_stream_world {W} (I : Sys W -> Prop) :
  ignores_stream I -> ignores_world I.
Proof. intros H s tr w Hs. apply (H s); auto. Qed.

Section ControllerFacts.

Context {W : Type} (E : Env W).

Local Abbreviation P := (Prog (Sys W)).

Variable I : Sys W -> Prop.

Lemma ensures_now Qe : ignores_world I -> ensures I (now E) anything Qe.
Proof.
  intros HI s Hs. unfold now. destruct (Date_now E (world s)) as [t w].
  split; [exact Logic.I | now apply HI].
Qed.

Lemma ensures_call {A} c (op : W -> (JsExn + A) * W) :
  ignores_world I -> ensures I (call c op) anything anything.
Proof.
  intros HI s Hs. unfold call. destruct (op (world s)) as [[e | a] w];
    (split; [exact Logic.I | now apply HI]).
Qed.

Lemma ensures_getB Qe : ensures I getB anything Qe.
Proof. intros s Hs. simpl. split; [exact Logic.I | exact Hs]. Qed.

Lemma ensures_the_page (Qe : JsExn -> Prop) :
  Qe (JsError "Page not initialized") -> ensures I the_page anything Qe.
Proof.
  intros He. unfold the_page. apply ensures_bind; [apply ensures_getB |].
  intros b. destruct (page b); [now apply ensures_ret | now apply ensures_throw].
Qed.

Lemma ensures_rethrow_as {A} what (m : P A) Qv (Qe : JsExn -> Prop) :
  (forall x, Qe (JsError (what ++ ": " ++ x))) ->
  ensures I m Qv anything ->
  ensures I (rethrow_as what m) Qv Qe.
Proof.
  intros He Hm. unfold rethrow_as. apply ensures_try_catch; [exact Hm |].
  intros e. apply ensures_throw. apply He.
Qed.

End ControllerFacts.

(** ** The controller's methods *)


Lemma prefixed_nonempty (what x : string) : what ++ ": " ++ x <> EmptyString.
Proof. destruct what; simpl; discriminate. Qed.

Lemma rethrown_has_message what x : has_message (JsError (what ++ ": " ++ x)).
Proof. unfold has_message. simpl. apply prefixed_nonempty. Qed.

Create HintDb humm.

#[local] Hint Resolve rethrown_has_message : humm.

Ltac enter_method :=
  apply ensures_bind;
  [ apply ensures_the_page; unfold has_message; simpl; discriminate
  | intros ?; apply ensures_rethrow_as; [ auto with humm | ] ].

Ltac run_calls HI :=
  repeat first
    [ apply ensures_ret; reflexivity
    | apply ensures_ret; exact Logic.I
    | apply ensures_now; exact HI
    | apply ensures_call; exact HI
    | apply ensures_bind; [ | intros ? ] ].

Section Methods.

Context {W : Type} (E : Env W) (I : Sys W -> Prop).

Hypothesis HI : ignores_world I.

Lemma navigate_ensures url :
  ensures I (navigate E url) succeeded has_message.
Proof. unfold navigate. enter_method. run_calls HI. Qed.

Lemma click_ensures sel :
  ensures I (click E sel) succeeded has_message.
Proof. unfold click. enter_method. run_calls HI. Qed.

Lemma input_ensures sel text :
  ensures I (input E sel text) succeeded has_message.
Proof. unfold input. enter_method. run_calls HI. Qed.

Lemma extractContent_ensures sel :
  ensures I (extractContent E sel) succeeded has_message.
Proof.
  unfold extractContent. enter_method.
  apply ensures_bind; [ | intros ?; run_calls HI ].
  destruct (given sel).
  - apply ensures_bind; [ now apply ensures_call | intros [el | ] ].
    + run_calls HI.
    + now apply ensures_throw.
  - run_calls HI.
Qed.

Lemma scroll_ensures o :
  ensures I (scroll E o) succeeded has_message.
Proof.
  unfold scroll. enter_method.
  apply ensures_bind; [ | intros ?; run_calls HI ].
  destruct (given _); now apply ensures_call.
Qed.

Lemma takeScreenshot_ensures :
  ensures I (takeScreenshot E) succeeded has_message.
Proof. unfold takeScreenshot. enter_method. run_calls HI. Qed.

Lemma waitForElement_ensures sel timeout :
  ensures I (waitForElement E sel timeout) succeeded has_message.
Proof. unfold waitForElement. enter_method. run_calls HI. Qed.

Lemma getViewportInfo_ensures :
  ensures I (getViewportInfo E) succeeded has_message.
Proof. unfold getViewportInfo. enter_method. run_calls HI. Qed.

End Methods.

Section StreamMethods.

Context {W : Type} (E : Env W) (I : Sys W -> Prop).

Hypothesis HI : ignores_stream I.

Lemma ensures_stream_field (f : HummBrowser -> HummBrowser) Qe :
  (forall b, browser (f b) = browser b /\ context (f b) = context b
             /\ page (f b) = page b /\ isInitialized (f b) = isInitialized b) ->
  ensures I (modB f) anything Qe.
Proof.
  intros Hf s Hs. simpl. split; [exact Logic.I |].
  destruct (Hf (hb s)) as (? & ? & ? & ?). apply (HI s); auto.
Qed.

Lemma ensures_setInterval fr Qe : ensures I (@setInterval W fr) anything Qe.
Proof. intros s Hs. simpl. split; [exact Logic.I |]. apply (HI s); auto. Qed.

Lemma ensures_clearInterval id Qe : ensures I (@clearInterval W id) anything Qe.
Proof. intros s Hs. simpl. split; [exact Logic.I |]. apply (HI s); auto. Qed.

Ltac run_stream :=
  repeat first
    [ apply ensures_ret; reflexivity
    | apply ensures_ret; exact Logic.I
    | apply ensures_now; apply ignores_stream_world; exact HI
    | apply ensures_stream_field; intros ?; simpl; auto
    | apply ensures_setInterval
    | apply ensures_clearInterval
    | apply ensures_getB
    | apply ensures_bind; [ | intros ? ] ].

Lemma startStreaming_ensures callback frameRate :
  ensures I (startStreaming E callback frameRate) succeeded has_message.
Proof.
  unfold startStreaming.
  apply ensures_bind;
    [ apply ensures_the_page; unfold has_message; simpl; discriminate | intros _ ].
  apply ensures_rethrow_as; [ auto with humm | ]. run_stream.
Qed.

Lemma stopStreaming_ensures :
  ensures I (stopStreaming E) succeeded has_message.
Proof.
  unfold stopStreaming. apply ensures_rethrow_as; [ auto with humm | ].
  apply ensures_bind; [ run_stream | intros _ ].
  apply ensures_bind; [ run_stream | intros b ].
  apply ensures_bind; [ | intros _; run_stream ].
  destruct (streamInterval b); run_stream.
Qed.

Lemma dispatch_ensures c :
  ensures I (dispatch E c) succeeded has_message.
Proof.
  pose proof (ignores_stream_world I HI) as HW.
  unfold dispatch.
  repeat match goal with
         | |- ensures _ (if ?b then _ else _) _ _ => destruct b
         end;
    auto using navigate_ensures, click_ensures, input_ensures,
      extractContent_ensures, scroll_ensures, takeScreenshot_ensures,
      waitForElement_ensures, startStreaming_ensures, stopStreaming_ensures,
      getViewportInfo_ensures.
  apply ensures_throw. unfold has_message. simpl. discriminate.
Qed.

End StreamMethods.


Section PlainCommands.

Context {W : Type} (E : Env W) (I : Sys W -> Prop).

Hypothesis HI : ignores_world I.

Lemma dispatch_plain_ensures c :
  plain c -> ensures I (dispatch E c) succeeded has_message.
Proof.
  intros [Hstart Hstop]. unfold dispatch.
  repeat match goal with
         | |- ensures _ (if String.eqb ?a ?b then _ else _) _ _ =>
             destruct (String.eqb_spec a b)
         end;
    try contradiction;
    auto using navigate_ensures, click_ensures, input_ensures,
      extractContent_ensures, scroll_ensures, takeScreenshot_ensures,
      waitForElement_ensures, getViewportInfo_ensures.
  apply ensures_throw. unfold has_message. simpl. discriminate.
Qed.

End PlainCommands.

(** ** [executeCommand] on an existing Session *)


Section ExecuteCommand.

Context {W : Type} (E : Env W) (I : Sys W -> Prop).

Hypothesis HI : ignores_world I.
Hypothesis Hsession : forall s, I s -> has_session s.

Lemma executeCommand_from_dispatch c :
  ensures I (dispatch E c) succeeded has_message ->
  ensures I (executeCommand E c) reported nothing.
Proof.
  intros Hd s Hs. unfold executeCommand, bind, getB.
  rewrite (Hsession s Hs). simpl.
  pose proof (ensures_now E I nothing HI s Hs) as Hnow.
  destruct (now E s) as [[e | startTime] s1]; [ destruct Hnow as [[] _] | ].
  destruct Hnow as [_ Hs1]. unfold try_catch.
  specialize (Hd s1 Hs1). destruct (dispatch E c s1) as [[e | o] s2].
  - destruct Hd as [He Hs2]. simpl. split; [ | exact Hs2 ].
    right. split; [ reflexivity | ]. exists (message_of e). split; [ reflexivity | exact He ].
  - destruct Hd as [Ho Hs2]. split; [ left; exact Ho | exact Hs2 ].
Qed.

Lemma executeCommand_plain c :
  plain c -> ensures I (executeCommand E c) reported nothing.
Proof.
  intros Hc. apply executeCommand_from_dispatch.
  now apply dispatch_plain_ensures.
Qed.

End ExecuteCommand.


(** * Streaming *)

Section Streaming.

Context {W : Type} (E : Env W).

Lemma now_run s : now E s = (inr (clock E s), tick E s).
Proof. unfold now, clock, tick. destruct (Date_now E (world s)); reflexivity. Qed.

Lemma session_page (s : Sys W) :
  has_session s -> exists p, page (hb s) = Some p.
Proof.
  unfold has_session, uninitialized, no_page. intros H.
  destruct (page (hb s)) as [p | ]; [ now exists p | ].
  now rewrite orb_true_r in H.
Qed.

Lemma stopStreaming_run s :
  exists o,
    stopStreaming E s = (inr o, tick E (stop_effect s)) /\ stopped_report o.
Proof.
  unfold stopStreaming, rethrow_as, try_catch, bind, modB, getB, stop_effect.
  simpl. destruct (streamInterval (hb s)); simpl; rewrite now_run; simpl;
    (eexists; split; [ reflexivity | split; reflexivity ]).
Qed.

Lemma startStreaming_run callback frameRate s :
  (exists p, page (hb s) = Some p) ->
  exists o,
    startStreaming E callback frameRate s
    = (inr o, tick E (start_effect callback
                        (match frameRate with Some n => n | None => 2 end) s))
    /\ obs_success o = true.
Proof.
  intros [p Hp].
  unfold startStreaming, the_page, rethrow_as, try_catch, bind, modB, getB,
    setInterval, start_effect.
  simpl. rewrite Hp. simpl. rewrite now_run. simpl.
  eexists; split; reflexivity.
Qed.

Lemma executeCommand_run c s :
  has_session s ->
  executeCommand E c s
  = try_catch (dispatch E c)
      (fun error =>
         ret (with_error (Some (message_of error))
                (observation false (clock E s))))
      (tick E s).
Proof.
  intros Hs. unfold executeCommand, bind, getB. rewrite Hs. simpl.
  rewrite now_run. reflexivity.
Qed.

Lemma stop_effect_session (s : Sys W) : has_session s -> has_session (stop_effect s).
Proof.
  unfold has_session, uninitialized, no_page, stop_effect.
  destruct (streamInterval (hb s)); simpl; auto.
Qed.

Lemma stream_stop_run s :
  has_session s ->
  exists o,
    executeCommand E (command "stream_stop") s
    = (inr o, tick E (stop_effect (tick E s)))
    /\ stopped_report o.
Proof.
  intros Hs. rewrite (executeCommand_run _ s Hs).
  change (dispatch E (command "stream_stop")) with (stopStreaming E).
  unfold try_catch.
  destruct (stopStreaming_run (tick E s)) as (o & Ho & Hr).
  rewrite Ho. now exists o.
Qed.

Lemma stream_start_run o s :
  has_session s ->
  exists r,
    executeCommand E (stream_start_with o) s
    = (inr r, tick E (start_effect (callback_of o) (frameRate_of o) (tick E s)))
    /\ obs_success r = true.
Proof.
  intros Hs. rewrite (executeCommand_run _ s Hs).
  change (dispatch E (stream_start_with o))
    with (startStreaming E (callback_of o)
            (match o with Some x => opt_frameRate x | None => None end)).
  unfold try_catch.
  destruct (startStreaming_run (callback_of o)
              (match o with Some x => opt_frameRate x | None => None end)
              (tick E s) (session_page (tick E s) Hs)) as (r & Hr & Hok).
  rewrite Hr. exists r. split; [ | exact Hok ]. unfold frameRate_of.
  destruct o as [x | ]; [ destruct (opt_frameRate x) | ]; reflexivity.
Qed.

Lemma stop_effect_idle (s : Sys W) : idle (hb (stop_effect s)).
Proof.
  unfold idle, stop_effect.
  destruct (streamInterval (hb s)) eqn:Hi; simpl; rewrite ?Hi; repeat split.
Qed.

Lemma stop_effect_of_idle (s : Sys W) :
  idle (hb s) -> stop_effect s = s.
Proof.
  intros (H1 & H2 & H3). unfold stop_effect. rewrite H2.
  destruct s as [b a ts n tr w]. simpl in *. f_equal.
  destruct b. simpl in *. subst. reflexivity.
Qed.

Lemma tick_only_clock (s : Sys W) : only_clock_moved s (tick E s).
Proof. repeat split. Qed.

Lemma stop_after_stop (s : Sys W) :
  only_clock_moved (tick E (stop_effect s))
    (tick E (stop_effect (tick E (stop_effect s)))).
Proof.
  rewrite (stop_effect_of_idle (tick E (stop_effect s)));
    [ apply tick_only_clock | apply stop_effect_idle ].
Qed.

Lemma stop_when_idle (s : Sys W) :
  idle (hb s) -> only_clock_moved s (tick E (stop_effect s)).
Proof.
  intros Hidle. rewrite (stop_effect_of_idle s Hidle). apply tick_only_clock.
Qed.

(** C7. [stopStreaming] always returns a successful Observation reporting
    [isStreaming = false] and leaves no stream active; called with no active
    stream it changes nothing but the clock reading; called twice in a row,
    the second call is such a no-op.  The same holds for the [stream_stop]
    command executed on an existing Session. *)
Theorem stream_stop_idempotent (s : Sys W) :
  (exists o1 s1 o2 s2,
      stopStreaming E s = (inr o1, s1)
      /\ stopStreaming E s1 = (inr o2, s2)
      /\ stopped_report o1 /\ stopped_report o2
      /\ idle (hb s1) /\ only_clock_moved s1 s2
      /\ (idle (hb s) -> only_clock_moved s s1))
  /\ (has_session s ->
      exists o1 s1 o2 s2,
        executeCommand E (command "stream_stop") s = (inr o1, s1)
        /\ executeCommand E (command "stream_stop") s1 = (inr o2, s2)
        /\ stopped_report o1 /\ stopped_report o2
        /\ idle (hb s1) /\ only_clock_moved s1 s2
        /\ (idle (hb s) -> only_clock_moved s s1)).
Proof.
  split.
  - destruct (stopStreaming_run s) as (o1 & H1 & R1).
    destruct (stopStreaming_run (tick E (stop_effect s))) as (o2 & H2 & R2).
    exists o1, (tick E (stop_effect s)), o2,
      (tick E (stop_effect (tick E (stop_effect s)))).
    split; [ exact H1 | ]. split; [ exact H2 | ].
    split; [ exact R1 | ]. split; [ exact R2 | ].
    split; [ apply stop_effect_idle | ].
    split; [ apply stop_after_stop | apply stop_when_idle ].
  - intros Hs.
    destruct (stream_stop_run s Hs) as (o1 & H1 & R1).
    assert (has_session (tick E (stop_effect (tick E s)))) as Hs1
      by (apply (stop_effect_session (tick E s)); exact Hs).
    destruct (stream_stop_run _ Hs1) as (o2 & H2 & R2).
    exists o1, (tick E (stop_effect (tick E s))), o2,
      (tick E (stop_effect (tick E (tick E (stop_effect (tick E s)))))).
    split; [ exact H1 | ]. split; [ exact H2 | ].
    split; [ exact R1 | ]. split; [ exact R2 | ].
    split; [ apply (stop_effect_idle (tick E s)) | ].
    split.
    + rewrite (stop_effect_of_idle (tick E (tick E (stop_effect (tick E s)))));
        [ repeat split | apply (stop_effect_idle (tick E s)) ].
    + intros Hidle. rewrite (stop_effect_of_idle (tick E s) Hidle). repeat split.
Qed.

End Streaming.

Section StreamStart.

Context {W : Type} (E : Env W).

Lemma start_effect_session cb fr (s : Sys W) :
  has_session s -> has_session (start_effect cb fr s).
Proof. unfold has_session, uninitialized, no_page, start_effect. simpl. auto. Qed.

(** C2, as the code behaves.  On an existing Session a second [stream_start]
    schedules a second interval and clears none: both intervals are
    scheduled at once, [streamInterval] holds the second only, and a
    following [stream_stop] clears the second and leaves the first one
    scheduled although the controller reports that no stream is active. *)
Theorem stream_start_twice_leaks (s : Sys W) (o1 o2 : option Options) :
  has_session s ->
  exists r1 s1 r2 s2 r3 s3,
    executeCommand E (stream_start_with o1) s = (inr r1, s1)
    /\ executeCommand E (stream_start_with o2) s1 = (inr r2, s2)
    /\ executeCommand E (command "stream_stop") s2 = (inr r3, s3)
    /\ obs_success r1 = true /\ obs_success r2 = true
    /\ trace s2 = (trace s ++ [SetInterval (next_timer s) (frameRate_of o1);
                               SetInterval (S (next_timer s)) (frameRate_of o2)])%list
    /\ next_timer s ∈ timers s2 /\ S (next_timer s) ∈ timers s2
    /\ streamInterval (hb s2) = Some (S (next_timer s))
    /\ stopped_report r3 /\ idle (hb s3)
    /\ next_timer s ∈ timers s3.
Proof.
  intros Hs.
  destruct (stream_start_run E o1 s Hs) as (r1 & H1 & K1).
  set (s1 := tick E (start_effect (callback_of o1) (frameRate_of o1) (tick E s))) in *.
  assert (has_session s1) as Hs1
    by (apply (start_effect_session (callback_of o1) (frameRate_of o1) (tick E s)); exact Hs).
  destruct (stream_start_run E o2 s1 Hs1) as (r2 & H2 & K2).
  set (s2 := tick E (start_effect (callback_of o2) (frameRate_of o2) (tick E s1))) in *.
  assert (has_session s2) as Hs2
    by (apply (start_effect_session (callback_of o2) (frameRate_of o2) (tick E s1)); exact Hs1).
  destruct (stream_stop_run E s2 Hs2) as (r3 & H3 & K3).
  exists r1, s1, r2, s2, r3, (tick E (stop_effect (tick E s2))).
  split; [ exact H1 | ]. split; [ exact H2 | ]. split; [ exact H3 | ].
  split; [ exact K1 | ]. split; [ exact K2 | ].
  split; [ simpl; rewrite <- app_assoc; reflexivity | ].
  split; [ simpl; set_solver | ].
  split; [ simpl; set_solver | ].
  split; [ reflexivity | ].
  split; [ exact K3 | ].
  split; [ apply (stop_effect_idle (tick E s2)) | ].
  simpl. apply elem_of_difference. split; [ set_solver | ].
  rewrite elem_of_singleton. lia.
Qed.

End StreamStart.

(** * Scrolling *)

Section Scrolling.

Context {W : Type} (E : Env W).



End Scrolling.

(** * The command boundary *)

Section CommandBoundary.

Context {W : Type} (E : Env W).

Lemma no_invariant_ignores_stream : ignores_stream (fun _ : Sys W => True).
Proof. intros s s' _ _ _ _ _ _. exact Logic.I. Qed.

Lemma dispatch_outcome c (s : Sys W) :
  match dispatch E c s with
  | (inr o, _) => obs_success o = true
  | (inl e, _) => message_of e <> EmptyString
  end.
Proof.
  pose proof (dispatch_ensures E (fun _ => True) no_invariant_ignores_stream c s Logic.I) as H.
  destruct (dispatch E c s) as [[e | o] s1]; destruct H as [H _]; exact H.
Qed.

(** C1, amended.  When a Session exists, or the implicit lazy initialization
    succeeds, [executeCommand] returns an Observation.  When the dispatched
    command throws, what it threw is caught and converted: the Observation
    has [success = false], the message of the exception, which is not empty,
    as [error], and the timestamp taken before the dispatch.  When the
    dispatched command returns, its Observation is returned as it is, and it
    is a successful one.  When the lazy initialization fails, its exception
    leaves [executeCommand]. *)
Theorem executeCommand_reports_or_init_fails (c : HummCommand) (s : Sys W) :
  match (if uninitialized (hb s) then HummBrowser_initialize E s
         else (inr tt, s)) with
  | (inl e, s0) => executeCommand E c s = (inl e, s0)
  | (inr _, s0) =>
      exists o s',
        executeCommand E c s = (inr o, s')
        /\ reported o
        /\ match dispatch E c (tick E s0) with
           | (inl error, s1) =>
               s' = s1
               /\ obs_success o = false
               /\ obs_error o = Some (message_of error)
               /\ message_of error <> EmptyString
               /\ obs_timestamp o = clock E s0
               /\ obs_data o = None /\ obs_screenshot o = None
           | (inr returned, s1) =>
               s' = s1 /\ o = returned /\ obs_success o = true
           end
  end.
Proof.
  unfold executeCommand, bind, getB, when_.
  assert (forall s0 : Sys W,
             exists o s',
               (let (r, s1) := now E s0 in
                match r with
                | inl e => (inl e, s1)
                | inr startTime =>
                    try_catch (dispatch E c)
                      (fun error =>
                         ret (with_error (Some (message_of error))
                                (observation false startTime))) s1
                end) = (inr o, s')
               /\ reported o
               /\ match dispatch E c (tick E s0) with
                  | (inl error, s1) =>
                      s' = s1
                      /\ obs_success o = false
                      /\ obs_error o = Some (message_of error)
                      /\ message_of error <> EmptyString
                      /\ obs_timestamp o = clock E s0
                      /\ obs_data o = None /\ obs_screenshot o = None
                  | (inr returned, s1) =>
                      s' = s1 /\ o = returned /\ obs_success o = true
                  end) as Hrest.
  { intros s0. rewrite now_run. unfold try_catch.
    pose proof (dispatch_outcome c (tick E s0)) as Hd.
    destruct (dispatch E c (tick E s0)) as [[e | o] s1].
    - eexists; eexists. split; [ reflexivity | ]. split.
      + right. split; [ reflexivity | ]. exists (message_of e).
        split; [ reflexivity | exact Hd ].
      + repeat split. exact Hd.
    - exists o, s1. split; [ reflexivity | ]. split; [ left; exact Hd | ].
      repeat split. exact Hd. }
  destruct (uninitialized (hb s)).
  - destruct (HummBrowser_initialize E s) as [[e | []] s0].
    + reflexivity.
    + apply Hrest.
  - simpl. apply Hrest.
Qed.

End CommandBoundary.

(** C1, as stated, fails: with browser automation disabled and no Session
    yet, [executeCommand] throws instead of returning an Observation. *)
Lemma lazy_initialization_failure_escapes :
  fst (executeCommand (scripted automation_disabled) (command "screenshot")
         (boot 0 0))
  = inl (JsError "Browser automation is disabled in production")
  /\ ~ (exists o s',
           executeCommand (scripted automation_disabled) (command "screenshot")
             (boot 0 0) = (inr o, s')).
Proof.
  split; [ reflexivity | ].
  intros (o & s' & H).
  apply (f_equal fst) in H. vm_compute in H. discriminate.
Qed.

(** * The task boundary *)

Section TaskBoundary.

Context {W : Type} (E : Env W).

Lemma runTask_run task startTime (s : Sys W) obs :
  runTask E task startTime (s, obs)
  = bind (handler E task) (conclude E task startTime) (entered E task s, obs).
Proof.
  unfold runTask, conclude, entered, bind at 1 2 3, lift at 1 2 3, modA. simpl.
  rewrite now_run. reflexivity.
Qed.

Lemma generateTaskSummary_run task obs result (s : Sys W) :
  generateTaskSummary E task obs result s
  = (inr (summary_of E task obs result s), asked E task obs result s).
Proof.
  unfold generateTaskSummary, try_catch, bind, ask, call, summary_of, asked.
  fold (summary_request E task obs result). fold summary_context.
  destruct (generateResponse E (summary_request E task obs result)
              summary_context (world s)) as [[e | resp] w]; reflexivity.
Qed.

Lemma conclude_run task startTime result (s : Sys W) obs :
  conclude E task startTime result (s, obs)
  = (inr (completion task startTime (clock E (asked E task obs result s)) obs
            result (summary_of E task obs result s)),
     (tick E (asked E task obs result s), obs)).
Proof.
  unfold conclude, bind, lift, pushed. simpl.
  rewrite generateTaskSummary_run. simpl. rewrite now_run. reflexivity.
Qed.

Lemma failTask_run task startTime error (s : Sys W) obs :
  failTask E task startTime error (s, obs)
  = (inr (failure task startTime (clock E s) obs error), (tick E s, obs)).
Proof.
  unfold failTask, bind, lift, pushed. simpl. rewrite now_run. reflexivity.
Qed.

(** [executeTask] in terms of the outcome of the handler *)
Lemma executeTask_run task (s : Sys W) :
  executeTask E task s
  = match handler E task (entered E task (tick E s), []) with
    | (inl error, (s1, obs)) =>
        (inr (failure task (clock E s) (clock E s1) obs error),
         left (tick E s1))
    | (inr result, (s1, obs)) =>
        (inr (completion task (clock E s)
                (clock E (asked E task obs result s1)) obs result
                (summary_of E task obs result s1)),
         left (tick E (asked E task obs result s1)))
    end.
Proof.
  unfold executeTask. unfold bind at 1. rewrite now_run.
  unfold with_observations, try_finally, try_catch.
  rewrite runTask_run. unfold bind at 1.
  destruct (handler E task (entered E task (tick E s), [])) as [[e | result] [s1 obs]].
  - rewrite failTask_run. reflexivity.
  - rewrite conclude_run. reflexivity.
Qed.

(** C3. For every task, whatever its type, [executeTask] returns an
    AgentResult and throws nothing: a successful one, or a failed one whose
    summary is derived from the error; and in the state it returns in,
    [currentTask] is undefined. *)
Theorem executeTask_always_returns (task : AgentTask) (s : Sys W) :
  exists r s',
    executeTask E task s = (inr r, s')
    /\ currentTask (ag s') = None
    /\ res_taskId r = task_id task
    /\ res_timestamp r = clock E s
    /\ (res_success r = true
        \/ (res_success r = false
            /\ exists error,
                res_summary r = "Task failed: " ++ message_of error)).
Proof.
  rewrite executeTask_run.
  destruct (handler E task (entered E task (tick E s), [])) as [[e | result] [s1 obs]].
  - eexists; eexists. split; [ reflexivity | ].
    repeat split. right. split; [ reflexivity | ]. now exists e.
  - eexists; eexists. split; [ reflexivity | ].
    repeat split. now left.
Qed.

End TaskBoundary.

(** * Tasks that lack a target URL *)

Section MissingTargetUrl.

Context {W : Type} (E : Env W).

(** C4. A scrape, navigate or monitor task whose target URL is absent (or
    empty) makes [executeTask] return a failed AgentResult: no data, no
    observation, a summary derived from the missing-URL error; nothing is
    thrown, no call leaves the agent and the browser is untouched. *)
Theorem missing_targetUrl_fails (task : AgentTask) (s : Sys W) :
  task_type task = "scrape" \/ task_type task = "navigate"
  \/ task_type task = "monitor" ->
  given (task_targetUrl task) = false ->
  exists r s',
    executeTask E task s = (inr r, s')
    /\ res_success r = false
    /\ res_data r = None
    /\ res_observations r = []
    /\ res_summary r
       = "Task failed: Target URL required for "
         ++ task_noun (task_type task) ++ " task"
    /\ trace s' = trace s /\ hb s' = hb s /\ timers s' = timers s
    /\ currentTask (ag s') = None.
Proof.
  intros Hty Hurl. rewrite executeTask_run.
  assert (handler E task (entered E task (tick E s), [])
          = (inl (JsError ("Target URL required for "
                           ++ task_noun (task_type task) ++ " task")),
             (entered E task (tick E s), []))) as Hh.
  { unfold handler, performScraping, performNavigation, performMonitoring.
    destruct Hty as [H | [H | H]]; rewrite H; simpl; rewrite Hurl; reflexivity. }
  rewrite Hh. eexists; eexists. split; [ reflexivity | ].
  repeat split.
Qed.

End MissingTargetUrl.

(** * The image request *)

Section ImageRequest.

Context {W : Type} (E : Env W).

Lemma buildImageRequest_unparsable task text :
  JSON_parse E text = None \/ JSON_parse E text = Some VNull ->
  buildImageRequest E task text = fallbackImageRequest task.
Proof.
  unfold buildImageRequest. intros [H | H]; rewrite H; reflexivity.
Qed.

(** an answer that parses to anything but null never reaches the fallback *)
Lemma buildImageRequest_value task text v :
  JSON_parse E text = Some v -> v <> VNull -> v <> VUndef ->
  buildImageRequest E task text
  = {| req_prompt := js_or (assoc "optimizedPrompt" (fields_of v))
                       (VStr (task_userQuery task));
       req_type := js_or (assoc "imageType" (fields_of v)) (VStr "creative");
       req_style := js_or (assoc "style" (fields_of v)) (VStr "professional");
       req_dimensions := js_or (assoc "dimensions" (fields_of v)) square_1024;
       req_data := Some (vopt (task_parameters task));
       req_parameters := {| steps := 25; guidance := 15 # 2 |} |}.
Proof.
  unfold buildImageRequest. intros H Hnull Hundef. rewrite H.
  destruct v; try contradiction; reflexivity.
Qed.

Lemma performImageGeneration_run task aiAnalysis (s : Sys W) obs :
  fst (generateResponse E (imagePrompt (task_userQuery task) (task_description task))
         image_context (world s)) = inr aiAnalysis ->
  exists r s' o rest,
    performImageGeneration E task (s, obs) = (r, (s', (obs ++ o :: rest)%list))
    /\ trace s'
       = (trace s
          ++ [GenerateResponse
                (imagePrompt (task_userQuery task) (task_description task))
                image_context;
              GenerateImage (buildImageRequest E task (resp_text aiAnalysis))])%list
    /\ obs_success o = true
    /\ obs_data o
       = Some (VObj [("aiAnalysis", VStr (resp_text aiAnalysis));
                     ("imageRequest",
                      request_json
                        (buildImageRequest E task (resp_text aiAnalysis)))]).
Proof.
  intros Hans.
  unfold performImageGeneration, try_catch, bind, lift, ask, call, push, now.
  simpl. fold image_context.
  destruct (generateResponse E (imagePrompt (task_userQuery task) (task_description task))
              image_context (world s)) as [[e | resp] w]; simpl in Hans;
    [ discriminate | ].
  injection Hans as ->. simpl.
  destruct (Date_now E w) as [t1 w0]. simpl.
  destruct (generateImage E (buildImageRequest E task (resp_text aiAnalysis)) w0)
    as [[e | imageResult] w1]; simpl.
  - eexists; eexists; eexists; exists [].
    split; [ reflexivity | ]. simpl.
    split; [ rewrite <- app_assoc; reflexivity | split; reflexivity ].
  - destruct (Date_now E w1) as [t2 w2]. simpl.
    destruct (img_success imageResult); simpl;
      (eexists; eexists; eexists; eexists;
       split; [ rewrite <- (app_assoc obs); reflexivity | ]; simpl;
       split; [ rewrite <- app_assoc; reflexivity | split; reflexivity ]).
Qed.

(** C5, amended.  Once the gateway has answered, the handler records the
    analysis and asks the image gateway for one request; it never fails at
    the parsing step.  When the answer is not valid JSON ([JSON.parse]
    throws), or is the JSON text null, the request is the fallback one: the
    raw user query as prompt, type 'creative', style 'professional',
    dimensions 1024 by 1024, no data and a step count of 20.  When the answer
    parses to any other value, an object of whatever keys included, each
    field of the request is the value of its key, or the same default when
    the key is absent or falsy, and the step count is 25. *)
Theorem unparsable_analysis_falls_back (task : AgentTask) (s : Sys W)
    (obs : list HummObservation) (aiAnalysis : ConversationalResponse) :
  fst (generateResponse E (imagePrompt (task_userQuery task) (task_description task))
         image_context (world s)) = inr aiAnalysis ->
  exists request,
    In (GenerateImage request)
       (trace (fst (snd (performImageGeneration E task (s, obs)))))
    /\ (JSON_parse E (resp_text aiAnalysis) = None
        \/ JSON_parse E (resp_text aiAnalysis) = Some VNull ->
        req_prompt request = VStr (task_userQuery task)
        /\ req_type request = VStr "creative"
        /\ req_style request = VStr "professional"
        /\ req_dimensions request
           = VObj [("width", VNum 1024); ("height", VNum 1024)]
        /\ req_data request = None
        /\ steps (req_parameters request) = 20
        /\ guidance (req_parameters request) = (15 # 2)%Q)
    /\ (forall v,
          JSON_parse E (resp_text aiAnalysis) = Some v ->
          v <> VNull -> v <> VUndef ->
          req_prompt request
          = js_or (assoc "optimizedPrompt" (fields_of v))
              (VStr (task_userQuery task))
          /\ req_type request
             = js_or (assoc "imageType" (fields_of v)) (VStr "creative")
          /\ req_style request
             = js_or (assoc "style" (fields_of v)) (VStr "professional")
          /\ req_dimensions request
             = js_or (assoc "dimensions" (fields_of v))
                 (VObj [("width", VNum 1024); ("height", VNum 1024)])
          /\ req_data request = Some (vopt (task_parameters task))
          /\ steps (req_parameters request) = 25
          /\ guidance (req_parameters request) = (15 # 2)%Q).
Proof.
  intros Hans.
  destruct (performImageGeneration_run task aiAnalysis s obs Hans)
    as (r & s' & o & rest & Hrun & Htrace & _).
  exists (buildImageRequest E task (resp_text aiAnalysis)).
  split; [ | split ].
  - rewrite Hrun. simpl. rewrite Htrace. apply in_or_app. right. simpl. auto.
  - intros Hparse. rewrite (buildImageRequest_unparsable task _ Hparse).
    repeat split.
  - intros v Hparse Hnull Hundef.
    rewrite (buildImageRequest_value task _ v Hparse Hnull Hundef).
    repeat split.
Qed.

End ImageRequest.

(** * The summary *)

Section Summary.

Context {W : Type} (E : Env W).

(** C9, amended.  When the handler of a task returns, [executeTask] asks the
    gateway for a summary of the successful observations and of the result,
    and answers with [success = true] whatever the gateway does: with the
    text of the gateway, or, when the gateway throws, with the template
    "Task completed: <description>. Check the detailed results for more
    information." *)
Theorem summary_failure_never_fails_the_task (task : AgentTask) (s : Sys W)
    (result : JsVal) :
  fst (handler E task (entered E task (tick E s), [])) = inr result ->
  let st := snd (handler E task (entered E task (tick E s), [])) in
  let observations := snd st in
  let prompt :=
    summaryPrompt (task_description task) (task_userQuery task)
      (String.concat nl
         (List.map (observation_line E) (List.filter obs_success observations)))
      (JSON_stringify E result) in
  exists r s',
    executeTask E task s = (inr r, s')
    /\ res_success r = true
    /\ res_data r = Some result
    /\ res_observations r = observations
    /\ trace s' = (trace (fst st) ++ [GenerateResponse prompt summary_context])%list
    /\ match fst (generateResponse E prompt summary_context (world (fst st))) with
       | inr aiSummary => res_summary r = resp_text aiSummary
       | inl _ =>
           res_summary r
           = "Task completed: " ++ task_description task
             ++ ". Check the detailed results for more information."
       end.
Proof.
  intros Hh st observations prompt. subst prompt observations st.
  rewrite executeTask_run.
  destruct (handler E task (entered E task (tick E s), [])) as [[e | v] [s1 obs]];
    simpl in Hh; [ discriminate | ].
  injection Hh as ->. simpl.
  eexists; eexists. split; [ reflexivity | ].
  split; [ reflexivity | ]. split; [ reflexivity | ]. split; [ reflexivity | ].
  split; [ reflexivity | ].
  unfold completion, summary_of, summary_request, observationSummary. simpl.
  destruct (fst (generateResponse E _ summary_context (world s1))); reflexivity.
Qed.

End Summary.

(** C9, as stated, fails on the text of the template: with the gateway down,
    a scrape task succeeds with the template of the code, which is not the
    one the claim quotes. *)
Lemma templated_summary_is_not_the_quoted_one :
  exists r,
    fst (executeTask (scripted gateway_down)
           (a_task "scrape" (Some "https://example.com")) (ready gateway_down))
    = inr r
    /\ res_success r = true
    /\ res_summary r
       = "Task completed: demo. Check the detailed results for more information."
    /\ res_summary r <> spec_templated_summary "demo".
Proof.
  eexists. split; [ vm_compute; reflexivity | ].
  split; [ reflexivity | ]. split; [ reflexivity | ].
  vm_compute. discriminate.
Qed.

Lemma summary_failure_never_fails_the_task_witness :
  exists r,
    fst (executeTask (scripted gateway_down)
           (a_task "scrape" (Some "https://example.com")) (ready gateway_down))
    = inr r
    /\ res_success r = true.
Proof.
  destruct (summary_failure_never_fails_the_task (scripted gateway_down)
              (a_task "scrape" (Some "https://example.com"))
              (ready gateway_down)
              (VObj [("url", VStr "https://example.com");
                     ("fullContent",
                      VObj [("title", VStr "Example Domain");
                            ("text", VStr "<html></html>");
                            ("html", VStr "<html></html>");
                            ("url", VStr "https://example.com/")])])
              eq_refl)
    as (r & s' & Hrun & Hok & _).
  exists r. rewrite Hrun. split; [ reflexivity | exact Hok ].
Defined.

(** * Steps of a handler *)

Section Steps.

Context {W : Type} (E : Env W).

Lemma only_calls_made_session (s s' : Sys W) :
  only_calls_made s s' -> has_session s -> has_session s'.
Proof. intros (Hb & _) Hs. unfold has_session in *. now rewrite Hb. Qed.

Lemma executeCommand_plain_run c (s : Sys W) :
  has_session s -> plain c ->
  exists o s',
    executeCommand E c s = (inr o, s') /\ reported o /\ only_calls_made s s'.
Proof.
  intros Hs Hc.
  assert (ignores_world (fun x : Sys W => only_calls_made s x)) as HI
    by (intros x tr w Hx; exact Hx).
  assert (forall x : Sys W, only_calls_made s x -> has_session x) as Hsess
    by (intros x Hx; exact (only_calls_made_session s x Hx Hs)).
  assert (only_calls_made s s) as Hrefl by (repeat split).
  pose proof (executeCommand_plain E _ HI Hsess c Hc s Hrefl) as H.
  destruct (executeCommand E c s) as [[e | o] s'].
  - destruct H as [[] _].
  - exists o, s'. destruct H as [Ho Hs']. auto.
Qed.

Lemma step_returns c (s s' : Sys W) obs o :
  executeCommand E c s = (inr o, s') ->
  step E c (s, obs) = (inr o, (s', (obs ++ [o])%list)).
Proof. intros H. unfold step, bind, lift, push. simpl. rewrite H. reflexivity. Qed.

Lemma plain_navigate u : plain (navigate_to u).
Proof. split; discriminate. Qed.

Lemma plain_extract sel : plain (extract_from sel).
Proof. split; discriminate. Qed.

Lemma plain_command a :
  a <> "stream_start" -> a <> "stream_stop" -> plain (command a).
Proof. intros H1 H2. split; assumption. Qed.


(** the research handler returns only after two successful steps *)
Lemma performResearch_returns task (st st' : Sys W * list HummObservation) result :
  performResearch E task st = (inr result, st') ->
  exists navResult extractResult,
    snd st' = (snd st ++ [navResult; extractResult])%list
    /\ obs_success navResult = true /\ obs_success extractResult = true
    /\ exists targetUrl s1 s2 s3,
         executeCommand E (navigate_to (Some targetUrl)) s1 = (inr navResult, s2)
         /\ executeCommand E (extract_from None) s2 = (inr extractResult, s3)
         /\ (given (task_targetUrl task) = true ->
             targetUrl = show_opt (task_targetUrl task) /\ s1 = fst st).
Proof.
  destruct st as [s obs]. unfold performResearch. unfold bind at 1.
  set (pick := if given (task_targetUrl task) then _ else _).
  assert (snd (snd (pick (s, obs))) = obs
          /\ (given (task_targetUrl task) = true ->
              pick (s, obs) = (inr (show_opt (task_targetUrl task)), (s, obs))))
    as [Hpick Hgiven].
  { subst pick. destruct (given (task_targetUrl task)).
    - split; [ reflexivity | intros _; reflexivity ].
    - split; [ | discriminate ]. unfold bind, lift, modA. simpl.
      destruct (ask E _ _ s) as [[e | a] s1]; reflexivity. }
  destruct (pick (s, obs)) as [[e | targetUrl] [s1 obs1]]; [ discriminate | ].
  simpl in Hpick. subst obs1.
  unfold bind at 1. unfold step at 1, bind at 1, lift at 1. simpl.
  destruct (executeCommand E (navigate_to (Some targetUrl)) s1) as [[e | nav] s2]
    eqn:Hnavigate; [ discriminate | ].
  simpl. destruct (obs_success nav) eqn:Hnav; simpl; [ | discriminate ].
  unfold bind at 1. unfold step at 1, bind at 1, lift at 1. simpl.
  destruct (executeCommand E (extract_from None) s2) as [[e | ext] s3]
    eqn:Hextract; [ discriminate | ].
  simpl. destruct (obs_success ext) eqn:Hext; simpl; [ | discriminate ].
  unfold bind, lift. simpl.
  destruct (ask E _ _ s3) as [[e | a] s4]; [ discriminate | ].
  intros H. injection H as <- <-. simpl.
  exists nav, ext. split; [ rewrite <- app_assoc; reflexivity | ].
  split; [ exact Hnav | ]. split; [ exact Hext | ].
  exists targetUrl, s1, s2, s3. split; [ exact Hnavigate | ].
  split; [ exact Hextract | ].
  intros Hg. specialize (Hgiven Hg). injection Hgiven as -> ->. auto.
Qed.

End Steps.

Section RunRules.

Context {S : Type}.

Lemma bind_inr {A B} (m : Prog S A) (k : A -> Prog S B) s a s' :
  m s = (inr a, s') -> bind m k s = k a s'.
Proof. intros H. unfold bind. now rewrite H. Qed.

Lemma try_catch_inr {A} (m : Prog S A) h s a s' :
  m s = (inr a, s') -> try_catch m h s = (inr a, s').
Proof. intros H. unfold try_catch. now rewrite H. Qed.

Lemma try_catch_inl {A} (m : Prog S A) h s e s' :
  m s = (inl e, s') -> try_catch m h s = h e s'.
Proof. intros H. unfold try_catch. now rewrite H. Qed.

End RunRules.

Section LiveDemo.

Context {W : Type} (E : Env W).

Lemma lift_modA_run f (s : Sys W) obs :
  lift (modA f) (s, obs) = (inr tt, (with_ag f s, obs)).
Proof. reflexivity. Qed.

Lemma performLiveDemo_run task (s : Sys W) obs :
  has_session s -> given (task_targetUrl task) = true -> liveView task = true ->
  exists r s' startResult navResult rest sa sb,
    performLiveDemo E task (s, obs)
    = (r, (s', (obs ++ startResult :: navResult :: rest)%list))
    /\ executeCommand E (stream_start_at 2) s = (inr startResult, sa)
    /\ obs_success startResult = true
    /\ executeCommand E (navigate_to (task_targetUrl task))
         (with_ag (set_isLiveStreaming true) sa) = (inr navResult, sb)
    /\ match r with
       | inl e =>
           obs_success navResult = false /\ rest = []
           /\ e = JsError ("Failed to navigate to " ++ show_opt (task_targetUrl task))
           /\ isLiveStreaming (ag s') = false
           /\ idle (hb s')
           /\ (next_timer s ∉ timers s')
           /\ exists tr, trace s' = (tr ++ [ClearInterval (next_timer s)])%list
       | inr _ =>
           obs_success navResult = true
           /\ (exists viewportResult screenshotResult sc,
                 rest = [viewportResult; screenshotResult]
                 /\ executeCommand E (command "get_viewport")
                      (snd (sleep 2000
                              (with_ag (set_currentUrl (task_targetUrl task)) sb)))
                    = (inr viewportResult, sc)
                 /\ executeCommand E (command "screenshot") sc
                    = (inr screenshotResult, s')
                 /\ reported viewportResult /\ reported screenshotResult)
           /\ isLiveStreaming (ag s') = true
           /\ isStreaming (hb s') = true
           /\ streamInterval (hb s') = Some (next_timer s)
           /\ next_timer s ∈ timers s'
       end.
Proof.
  intros Hs Hurl Hlive. unfold performLiveDemo. rewrite Hurl, Hlive.
  change (negb true) with false. cbv iota.
  destruct (stream_start_run E (cmd_options (stream_start_at 2)) s Hs)
    as (r1 & H1 & K1).
  change (stream_start_with (cmd_options (stream_start_at 2)))
    with (stream_start_at 2) in H1.
  simpl callback_of in H1. simpl frameRate_of in H1.
  set (s1 := tick E (start_effect None 2 (tick E s))) in *.
  assert (has_session s1) as Hs1
    by (apply (start_effect_session None 2 (tick E s)); exact Hs).
  set (s2 := with_ag (set_isLiveStreaming true) s1).
  assert (has_session s2) as Hs2 by exact Hs1.
  destruct (executeCommand_plain_run E (navigate_to (task_targetUrl task)) s2 Hs2
              (plain_navigate _)) as (nav & s3 & H3 & R3 & F3).
  pose proof (only_calls_made_session s2 s3 F3 Hs2) as Hs3.
  set (s4 := with_ag (set_currentUrl (task_targetUrl task)) s3).
  assert (has_session s4) as Hs4 by exact Hs3.
  destruct F3 as (Fhb & Fag & Ftimers & Fnext).
  match goal with
  | |- context [try_catch ?b ?h (s, obs)] => set (body := b); set (catch := h)
  end.
  assert (exists k,
             body (s, obs)
             = k nav (s4, ((obs ++ [r1]) ++ [nav])%list)
             /\ k = (fun navResult =>
                       if negb (obs_success navResult)
                       then throw (JsError ("Failed to navigate to "
                                            ++ show_opt (task_targetUrl task)))
                       else
                         lift (sleep 2000) ;;;
                         viewportResult <- step E (command "get_viewport") ;;
                         screenshotResult <- step E (command "screenshot") ;;
                         a <- lift getA ;;
                         ret (VObj [("url", vstr (task_targetUrl task));
                                    ("pageTitle", vstr (obs_pageTitle navResult));
                                    ("screenshot", vstr (obs_screenshot screenshotResult));
                                    ("viewport", viewport_json (obs_viewport viewportResult));
                                    ("liveStreamActive", VBool (isLiveStreaming a));
                                    ("navigationSuccess", VBool (obs_success navResult));
                                    ("demoCompleted", VBool true)]))) as (k & Hbody & Hk).
  { eexists. split; [ | reflexivity ]. subst body.
    erewrite bind_inr;
      [ | erewrite bind_inr; [ apply lift_modA_run | apply step_returns; exact H1 ] ].
    erewrite bind_inr; [ | apply step_returns; exact H3 ].
    erewrite bind_inr; [ | apply lift_modA_run ].
    reflexivity. }
  subst k. cbv beta in Hbody.
  destruct (obs_success nav) eqn:Hnav; cbn [negb] in Hbody; cbv iota in Hbody.
  - (* the navigation succeeded: the demo runs to its end *)
    set (s5 := snd (sleep 2000 s4)).
    assert (only_calls_made s4 s5) as F5 by (repeat split).
    pose proof (only_calls_made_session s4 s5 F5 Hs4) as Hs5.
    destruct (executeCommand_plain_run E (command "get_viewport") s5 Hs5
                (plain_command "get_viewport" ltac:(discriminate) ltac:(discriminate)))
      as (vp & s6 & H6 & R6 & F6).
    pose proof (only_calls_made_session s5 s6 F6 Hs5) as Hs6.
    destruct (executeCommand_plain_run E (command "screenshot") s6 Hs6
                (plain_command "screenshot" ltac:(discriminate) ltac:(discriminate)))
      as (shot & s7 & H7 & R7 & F7).
    eexists; exists s7, r1, nav, [vp; shot], s1, s3. split.
    + replace (obs ++ [r1; nav; vp; shot])%list
        with ((((obs ++ [r1]) ++ [nav]) ++ [vp]) ++ [shot])%list
        by (rewrite <- !app_assoc; reflexivity).
      erewrite try_catch_inr; [ reflexivity | ]. rewrite Hbody.
      erewrite bind_inr; [ | reflexivity ].
      erewrite bind_inr; [ | apply step_returns; exact H6 ].
      erewrite bind_inr; [ | apply step_returns; exact H7 ].
      reflexivity.
    + split; [ exact H1 | ]. split; [ exact K1 | ]. split; [ exact H3 | ].
      split; [ exact Hnav | ].
      split; [ exists vp, shot, s6; auto | ].
      destruct F6 as (F6hb & F6ag & F6t & F6n), F7 as (F7hb & F7ag & F7t & F7n).
      rewrite F7ag, F6ag, F7hb, F6hb, F7t, F6t. simpl.
      rewrite Fag, Fhb, Ftimers. simpl.
      repeat split. apply elem_of_union_l, elem_of_singleton_2. reflexivity.
  - (* the navigation failed: the stream is stopped, the error goes on *)
    assert (has_session (tick E s4)) as Hs4' by exact Hs4.
    destruct (stream_stop_run E s4 Hs4) as (o & Hstop & _).
    eexists; eexists; exists r1, nav, [], s1, s3. split.
    + replace (obs ++ [r1; nav])%list with ((obs ++ [r1]) ++ [nav])%list
        by (rewrite <- !app_assoc; reflexivity).
      erewrite try_catch_inl; [ | exact Hbody ]. subst catch. cbv beta.
      erewrite bind_inr; [ | reflexivity ].
      assert (isLiveStreaming (ag s4) = true) as Hlive4
        by (simpl; rewrite Fag; reflexivity).
      simpl fst. rewrite Hlive4.
      erewrite bind_inr;
        [ | erewrite bind_inr;
            [ apply lift_modA_run | unfold lift; simpl fst; rewrite Hstop; reflexivity ] ].
      reflexivity.
    + assert (streamInterval (hb (tick E s4)) = Some (next_timer s)) as Hint
        by (simpl; rewrite Fhb; reflexivity).
      split; [ exact H1 | ]. split; [ exact K1 | ]. split; [ exact H3 | ].
      split; [ exact Hnav | ].
      split; [ reflexivity | ]. split; [ reflexivity | ]. split; [ reflexivity | ].
      split; [ apply (stop_effect_idle (tick E s4)) | ].
      unfold stop_effect. rewrite Hint. simpl.
      split; [ | eexists; reflexivity ].
      intros Hin. apply elem_of_difference in Hin. destruct Hin as [_ Hn].
      apply Hn, elem_of_singleton_2. reflexivity.
Qed.

End LiveDemo.

(** * Task handlers at the task boundary *)

Section Handlers.

Context {W : Type} (E : Env W).

Lemma entered_session task (s : Sys W) :
  has_session s -> has_session (entered E task (tick E s)).
Proof. intros H. exact H. Qed.

(** C6, amended.  A live_demo task with a target URL and the live view
    enabled, run on an existing Session, records the observation of its
    stream_start command, then that of its navigate command, and succeeds
    exactly when the navigate command reported success.  When it reported a
    failure the task fails with 'Failed to navigate to <url>' and these two
    observations; the handler has then stopped the stream it started and set
    [isLiveStreaming] to false before [executeTask] answers: the last call
    made is the [clearInterval] of that stream.  When the navigate command
    reported success, the observations of the get_viewport and of the
    screenshot command follow, whatever they report; the task succeeds and
    the stream stays active. *)
Theorem failed_live_demo_stops_its_stream (task : AgentTask) (s : Sys W) :
  has_session s ->
  task_type task = "live_demo" ->
  given (task_targetUrl task) = true ->
  liveView task = true ->
  exists r s' startResult navResult rest sa sb,
    executeTask E task s = (inr r, s')
    /\ res_observations r = startResult :: navResult :: rest
    /\ executeCommand E (stream_start_at 2) (entered E task (tick E s))
       = (inr startResult, sa)
    /\ executeCommand E (navigate_to (task_targetUrl task))
         (with_ag (set_isLiveStreaming true) sa) = (inr navResult, sb)
    /\ res_success r = obs_success navResult
    /\ if obs_success navResult
       then (exists viewportResult screenshotResult sc sd,
               rest = [viewportResult; screenshotResult]
               /\ executeCommand E (command "get_viewport")
                    (snd (sleep 2000
                            (with_ag (set_currentUrl (task_targetUrl task)) sb)))
                  = (inr viewportResult, sc)
               /\ executeCommand E (command "screenshot") sc
                  = (inr screenshotResult, sd)
               /\ reported viewportResult /\ reported screenshotResult)
            /\ isLiveStreaming (ag s') = true
            /\ isStreaming (hb s') = true
            /\ streamInterval (hb s') = Some (next_timer s)
            /\ next_timer s ∈ timers s'
       else rest = []
            /\ res_summary r
               = "Task failed: Failed to navigate to "
                 ++ show_opt (task_targetUrl task)
            /\ isLiveStreaming (ag s') = false
            /\ idle (hb s')
            /\ (next_timer s ∉ timers s')
            /\ exists tr, trace s' = (tr ++ [ClearInterval (next_timer s)])%list.
Proof.
  intros Hs Hty Hurl Hlive. rewrite executeTask_run.
  assert (handler E task = performLiveDemo E task) as Hh
    by (unfold handler; rewrite Hty; reflexivity).
  rewrite Hh.
  destruct (performLiveDemo_run E task (entered E task (tick E s)) []
              (entered_session task s Hs) Hurl Hlive)
    as (r & s1 & start & nav & rest & sa & sb & Hrun & Hstart & _ & Hnav & Hpost).
  rewrite Hrun. destruct r as [e | result].
  - destruct Hpost as (Hfail & -> & -> & Hl & Hidle & Hnot & tr & Htr).
    eexists; eexists; exists start, nav, [], sa, sb.
    split; [ reflexivity | ]. simpl.
    split; [ reflexivity | ]. split; [ exact Hstart | ]. split; [ exact Hnav | ].
    rewrite Hfail. split; [ reflexivity | ].
    split; [ reflexivity | ]. split; [ reflexivity | ].
    split; [ exact Hl | ]. split; [ exact Hidle | ].
    split; [ exact Hnot | ]. exists tr. exact Htr.
  - destruct Hpost as (Hok & (vp & shot & sc & -> & Hvp & Hshot & Rvp & Rshot)
                       & Hl & Hstr & Hint & Hin).
    eexists; eexists; exists start, nav, [vp; shot], sa, sb.
    split; [ reflexivity | ]. simpl.
    split; [ reflexivity | ]. split; [ exact Hstart | ]. split; [ exact Hnav | ].
    rewrite Hok. split; [ reflexivity | ].
    split; [ exists vp, shot, sc, s1; auto | ].
    split; [ exact Hl | ]. split; [ exact Hstr | ]. split; [ exact Hint | exact Hin ].
Qed.


End Handlers.

(** * Runs on scripted environments *)

Example extractUrl_takes_the_first_url :
  extractUrlFromResponse "Try https://finance.yahoo.com/quote first, then http://x.org"
  = "https://finance.yahoo.com/quote".
Proof. reflexivity. Qed.

Example extractUrl_falls_back_on_finance :
  extractUrlFromResponse "Any Finance portal will do" = "https://finance.yahoo.com".
Proof. reflexivity. Qed.

Example extractUrl_falls_back_on_search :
  extractUrlFromResponse "https:// is no address" = "https://google.com".
Proof. reflexivity. Qed.

(** a research task on a reachable site: two observations, then the analysis *)
Example research_on_a_reachable_site :
  exists r,
    fst (executeTask (scripted all_well)
           (a_task "research" (Some "https://example.com/finance"))
           (ready all_well)) = inr r
    /\ res_success r = true
    /\ List.map obs_success (res_observations r) = [true; true]
    /\ List.map obs_timestamp (res_observations r) = [3; 5].
Proof.
  eexists. split; [ vm_compute; reflexivity | ]. repeat split.
Qed.

Lemma ready_has_session sc : sc_disabled sc = false -> has_session (ready sc).
Proof. destruct sc; simpl; intros ->; reflexivity. Qed.

(** C5, as stated, fails: an answer that is valid JSON and lacks every key
    of the expected shape does not reach the fallback.  The request sent to
    the image gateway carries the defaults field by field, the parameters of
    the task as data, and a step count of 25. *)
Lemma misshapen_answer_is_not_the_fallback :
  JSON_parse (scripted (answering misshapen_answer)) misshapen_answer
  = Some (VObj [("note", VStr "no chart can be derived from a request this vague")])
  /\ has_expected_shape
       (VObj [("note", VStr "no chart can be derived from a request this vague")])
     = false
  /\ exists r request,
       fst (executeTask (scripted (answering misshapen_answer))
              (a_task "generate_image" None)
              (ready (answering misshapen_answer))) = inr r
       /\ res_success r = true
       /\ In (GenerateImage request)
            (trace (snd (executeTask (scripted (answering misshapen_answer))
                           (a_task "generate_image" None)
                           (ready (answering misshapen_answer)))))
       /\ steps (req_parameters request) = 25
       /\ request <> fallbackImageRequest (a_task "generate_image" None).
Proof.
  split; [ reflexivity | ]. split; [ reflexivity | ].
  eexists.
  exists {| req_prompt := VStr "latest market trends";
            req_type := VStr "creative";
            req_style := VStr "professional";
            req_dimensions := square_1024;
            req_data := Some VUndef;
            req_parameters := {| steps := 25; guidance := 15 # 2 |} |}.
  split; [ vm_compute; reflexivity | ].
  split; [ reflexivity | ].
  split; [ vm_compute; repeat (first [ left; reflexivity | right ]) | ].
  split; [ reflexivity | ].
  intros H. apply (f_equal (fun x => steps (req_parameters x))) in H.
  vm_compute in H. discriminate.
Qed.

(** C6, as stated, fails: when the screenshot step of a live demo fails, the
    task succeeds, nothing stops the stream, and [isLiveStreaming] stays
    true. *)
Lemma failed_screenshot_leaves_the_stream_running :
  exists r o,
    fst (executeTask (scripted screenshot_times_out)
           (a_task "live_demo" demo_url) (ready screenshot_times_out)) = inr r
    /\ res_success r = true
    /\ nth_error (res_observations r) 3 = Some o
    /\ obs_success o = false
    /\ obs_error o = Some "Screenshot failed: Timeout 30000ms exceeded"
    /\ let s' := snd (executeTask (scripted screenshot_times_out)
                        (a_task "live_demo" demo_url)
                        (ready screenshot_times_out)) in
       isLiveStreaming (ag s') = true
       /\ isStreaming (hb s') = true
       /\ streamInterval (hb s') = Some 0%nat
       /\ size (timers s') = 1%nat.
Proof.
  eexists; eexists.
  split; [ vm_compute; reflexivity | ].
  split; [ reflexivity | ].
  split; [ reflexivity | ].
  split; [ reflexivity | ].
  split; [ reflexivity | ].
  repeat split; vm_compute; reflexivity.
Qed.


Lemma stream_start_twice_leaks_witness :
  has_session (ready all_well)
  /\ exists s2 s3,
       snd (executeCommand (scripted all_well) (stream_start_at 2)
              (snd (executeCommand (scripted all_well) (stream_start_at 2)
                      (ready all_well)))) = s2
       /\ snd (executeCommand (scripted all_well) (command "stream_stop") s2) = s3
       /\ 0%nat ∈ timers s2 /\ 1%nat ∈ timers s2
       /\ idle (hb s3) /\ 0%nat ∈ timers s3.
Proof.
  split; [ reflexivity | ].
  destruct (stream_start_twice_leaks (scripted all_well) (ready all_well)
              (cmd_options (stream_start_at 2)) (cmd_options (stream_start_at 2))
              eq_refl)
    as (r1 & s1 & r2 & s2 & r3 & s3 & H1 & H2 & H3 & _ & _ & _ & I1 & I2 & _ & _ & Hidle & I3).
  exists s2, s3.
  change (stream_start_with (cmd_options (stream_start_at 2)))
    with (stream_start_at 2) in H1, H2.
  rewrite H1. simpl snd. rewrite H2. simpl snd. rewrite H3.
  split; [ reflexivity | ]. split; [ reflexivity | ].
  split; [ exact I1 | ]. split; [ exact I2 | ]. split; [ exact Hidle | exact I3 ].
Defined.

Lemma missing_targetUrl_fails_witness :
  given (task_targetUrl (a_task "scrape" None)) = false
  /\ exists r,
       fst (executeTask (scripted all_well) (a_task "scrape" None)
              (ready all_well)) = inr r
       /\ res_success r = false
       /\ res_observations r = []
       /\ res_summary r = "Task failed: Target URL required for scraping task".
Proof.
  split; [ reflexivity | ].
  destruct (missing_targetUrl_fails (scripted all_well) (a_task "scrape" None)
              (ready all_well) (or_introl eq_refl) eq_refl)
    as (r & s' & Hrun & Hfail & _ & Hobs & Hsum & _).
  exists r. rewrite Hrun.
  split; [ reflexivity | ]. split; [ exact Hfail | ]. split; [ exact Hobs | exact Hsum ].
Defined.

Lemma unparsable_analysis_falls_back_witness :
  JSON_parse (scripted (answering "Sure! Here is a chart of the latest market trends."))
    "Sure! Here is a chart of the latest market trends." = None
  /\ exists request,
       In (GenerateImage request)
          (trace (fst (snd (performImageGeneration
                              (scripted (answering "Sure! Here is a chart of the latest market trends."))
                              (a_task "generate_image" None)
                              (ready (answering "Sure! Here is a chart of the latest market trends."), [])))))
       /\ req_prompt request = VStr "latest market trends"
       /\ steps (req_parameters request) = 20.
Proof.
  split; [ reflexivity | ].
  destruct (unparsable_analysis_falls_back
              (scripted (answering "Sure! Here is a chart of the latest market trends."))
              (a_task "generate_image" None)
              (ready (answering "Sure! Here is a chart of the latest market trends.")) []
              {| resp_text := "Sure! Here is a chart of the latest market trends.";
                 resp_confidence := 90; resp_model_used := "Groq Llama3" |}
              eq_refl)
    as (request & Hin & Hfallback & _).
  destruct (Hfallback (or_introl eq_refl)) as (Hp & _ & _ & _ & _ & Hsteps & _).
  exists request. split; [ exact Hin | ]. split; [ exact Hp | exact Hsteps ].
Defined.

Lemma failed_live_demo_stops_its_stream_witness :
  has_session (ready unreachable_site)
  /\ exists r s',
       executeTask (scripted unreachable_site) (a_task "live_demo" demo_url)
         (ready unreachable_site) = (inr r, s')
       /\ res_success r = false
       /\ isLiveStreaming (ag s') = false
       /\ idle (hb s')
       /\ (0%nat ∉ timers s').
Proof.
  split; [ reflexivity | ].
  destruct (failed_live_demo_stops_its_stream (scripted unreachable_site)
              (a_task "live_demo" demo_url) (ready unreachable_site)
              eq_refl eq_refl eq_refl eq_refl)
    as (r & s' & start & nav & rest & sa & sb & Hrun & _ & _ & _ & Hsame & Hpost).
  exists r, s'. split; [ exact Hrun | ].
  assert (res_success r = false) as Hfail.
  { assert (match fst (executeTask (scripted unreachable_site)
                         (a_task "live_demo" demo_url) (ready unreachable_site)) with
            | inr x => res_success x
            | inl _ => true
            end = false) as Hc by (vm_compute; reflexivity).
    rewrite Hrun in Hc. exact Hc. }
  rewrite <- Hsame, Hfail in Hpost.
  destruct Hpost as (_ & _ & Hl & Hidle & Hnot & _).
  split; [ exact Hfail | ]. split; [ exact Hl | ]. split; [ exact Hidle | exact Hnot ].
Defined.

Lemma stream_stop_idempotent_witness :
  has_session (ready all_well) /\ idle (hb (ready all_well))
  /\ exists o1 s1 o2 s2,
       executeCommand (scripted all_well) (command "stream_stop") (ready all_well)
       = (inr o1, s1)
       /\ executeCommand (scripted all_well) (command "stream_stop") s1
          = (inr o2, s2)
       /\ stopped_report o1 /\ stopped_report o2
       /\ only_clock_moved (ready all_well) s1 /\ only_clock_moved s1 s2.
Proof.
  split; [ reflexivity | ].
  split; [ repeat split | ].
  destruct (stream_stop_idempotent (scripted all_well) (ready all_well))
    as [_ Hcmd].
  destruct (Hcmd eq_refl)
    as (o1 & s1 & o2 & s2 & H1 & H2 & R1 & R2 & _ & M2 & M1).
  exists o1, s1, o2, s2.
  split; [ exact H1 | ]. split; [ exact H2 | ].
  split; [ exact R1 | ]. split; [ exact R2 | ].
  split; [ apply M1; repeat split | exact M2 ].
Defined.



(** * More of the code: vocabulary *)

(** An invariant that depends on the Session fields of the controller only:
    kept by every method but [initialize] and [close]. *)
Definition session_only {W} (I : Sys W -> Prop) : Prop :=
  forall s s', I s ->
    browser (hb s') = browser (hb s) -> context (hb s') = context (hb s) ->
    page (hb s') = page (hb s) -> isInitialized (hb s') = isInitialized (hb s) ->
    I s'.

(** An invariant that does not depend on the Session fields, the trace or the
    world: kept by [initialize] and by every method that does not stream. *)
Definition ignores_session {W} (I : Sys W -> Prop) : Prop :=
  forall s s', I s ->
    isStreaming (hb s') = isStreaming (hb s) ->
    streamInterval (hb s') = streamInterval (hb s) ->
    streamCallback (hb s') = streamCallback (hb s) ->
    ag s' = ag s -> timers s' = timers s -> next_timer s' = next_timer s ->
    I s'.

(** an invariant of the system state, seen from a handler *)
Definition on_sys {W} (I : Sys W -> Prop) (st : Sys W * list HummObservation)
  : Prop := I (fst st).

(** The bookkeeping of the stream: [isStreaming] tells whether an interval
    handle is stored, a callback is stored only while streaming, and the
    stored handle is a scheduled interval. *)
Definition stream_consistent {W} (s : Sys W) : Prop :=
  (isStreaming (hb s) = true <-> streamInterval (hb s) <> None)
  /\ (streamCallback (hb s) <> None -> isStreaming (hb s) = true)
  /\ (forall id, streamInterval (hb s) = Some id -> id ∈ timers s).

(** the actions [executeCommand] dispatches on *)
Definition known_actions : list string :=
  ["navigate"; "click"; "input"; "extract"; "scroll"; "screenshot"; "wait";
   "stream_start"; "stream_stop"; "get_viewport"].

(** the task types [executeTask] has a handler for *)
Definition handled_types : list string :=
  ["research"; "scrape"; "navigate"; "monitor"; "live_demo"; "generate_image"].

(** the four calls of [initialize], in their order *)
Definition launch_calls : list Call :=
  [Launch; NewContext; NewPage; SetDefaultTimeout 30000].

(** no character of [s] is matched by [\s] *)
Fixpoint spaceless (s : string) : bool :=
  match s with
  | EmptyString => true
  | String c r => negb (is_space c) && spaceless r
  end.

(** an absolute http or https URL without white space *)
Definition well_formed_url (u : string) : Prop :=
  exists rest,
    (u = "https://" ++ rest \/ u = "http://" ++ rest)
    /\ rest <> EmptyString /\ spaceless rest = true.

(** the handles of the Session are those of [s0] *)
Definition same_session {W} (s0 s : Sys W) : Prop :=
  browser (hb s) = browser (hb s0) /\ context (hb s) = context (hb s0)
  /\ page (hb s) = page (hb s0) /\ isInitialized (hb s) = isInitialized (hb s0).

(** the question [performResearch] asks when the task names no site *)
Definition site_question (task : AgentTask) : string :=
  "What is the best website to research: " ++ task_userQuery task
  ++ "? Return just the URL.".

Definition site_context : GatewayContext :=
  {| user_style := None; analysis_type := Some "strategy" |}.

Definition research_context : GatewayContext :=
  {| user_style := Some "professional"; analysis_type := Some "fundamental" |}.

(** the state in which [performResearch], having asked which site to use
    in [s] and been answered [u] in the world [w], goes on *)
Definition site_chosen {W} (task : AgentTask) (u : string) (w : W) (s : Sys W)
  : Sys W :=
  {| hb := hb s;
     ag := set_currentTask (option_map (set_targetUrl u) (currentTask (ag s)))
             (ag s);
     timers := timers s; next_timer := next_timer s;
     trace := (trace s ++ [GenerateResponse (site_question task) site_context])%list;
     world := w |}.

(** how a research on the site [u] fails: at the navigation, at the
    extraction, or at the analysis, the gateway having thrown [e] *)
Definition research_failed_at {W} (E : Env W) (userQuery u : string)
    (nav : HummObservation) (rest : list HummObservation) (e : JsExn) : Prop :=
  (obs_success nav = false /\ rest = []
   /\ e = JsError ("Failed to navigate to " ++ u))
  \/ (exists ext,
        rest = [ext] /\ obs_success nav = true /\ obs_success ext = false
        /\ e = JsError "Failed to extract page content")
  \/ (exists ext w,
        rest = [ext] /\ obs_success nav = true /\ obs_success ext = true
        /\ fst (generateResponse E (researchPrompt userQuery (obs_content ext))
                  research_context w) = inl e).

(** what the four calls of [initialize] come to, started in the world [w]:
    the exception of the first that throws, if one does *)
Definition launch_outcome {W} (E : Env W) (w : W) : JsExn + unit :=
  match chromium_launch E w with
  | (inl e, _) => inl e
  | (inr b, w1) =>
      match browser_newContext E b w1 with
      | (inl e, _) => inl e
      | (inr c, w2) =>
          match context_newPage E c w2 with
          | (inl e, _) => inl e
          | (inr p, w3) =>
              match page_setDefaultTimeout E p 30000 w3 with
              | (inl e, _) => inl e
              | (inr _, _) => inr tt
              end
          end
      end
  end.

(** whether [context.close()] or [browser.close()] throws when [close] is
    called in [s]: they are called, on the handles that are stored, in the
    world that stopping an active stream leaves, and the second only when
    the first did not throw *)
Definition teardown_throws {W} (E : Env W) (s : Sys W) : bool :=
  let w0 := world (if isStreaming (hb s) then tick E (stop_effect s) else s) in
  match context (hb s) with
  | Some c =>
      match context_close E c w0 with
      | (inl _, _) => true
      | (inr _, w1) =>
          match browser (hb s) with
          | Some b =>
              match browser_close E b w1 with
              | (inl _, _) => true
              | (inr _, _) => false
              end
          | None => false
          end
      end
  | None =>
      match browser (hb s) with
      | Some b =>
          match browser_close E b w0 with
          | (inl _, _) => true
          | (inr _, _) => false
          end
      | None => false
      end
  end.

(** * More of the controller *)

Section Initialize.

Context {W : Type} (E : Env W).

Lemma session_only_ignores_stream (I : Sys W -> Prop) :
  session_only I -> ignores_stream I.
Proof. intros H s s' Hs Hb Hc Hp Hi _. apply (H s); assumption. Qed.

Lemma has_session_session_only : session_only (@has_session W).
Proof.
  intros s s' Hs _ _ Hp Hi. unfold has_session, uninitialized, no_page in *.
  rewrite Hp, Hi. exact Hs.
Qed.

(** [initialize], call by call *)
Lemma initialize_run (s : Sys W) :
  match HummBrowser_initialize E s with
  | (inr _, s') =>
      DISABLE_BROWSER_AUTOMATION E (world s) = false
      /\ isInitialized (hb s') = true /\ page (hb s') <> None
      /\ trace s' = (trace s ++ launch_calls)%list
      /\ isStreaming (hb s') = isStreaming (hb s)
      /\ streamInterval (hb s') = streamInterval (hb s)
      /\ streamCallback (hb s') = streamCallback (hb s)
      /\ ag s' = ag s /\ timers s' = timers s /\ next_timer s' = next_timer s
  | (inl e, s') =>
      isInitialized (hb s') = isInitialized (hb s)
      /\ isStreaming (hb s') = isStreaming (hb s)
      /\ streamInterval (hb s') = streamInterval (hb s)
      /\ streamCallback (hb s') = streamCallback (hb s)
      /\ ag s' = ag s /\ timers s' = timers s /\ next_timer s' = next_timer s
      /\ (DISABLE_BROWSER_AUTOMATION E (world s) = true ->
          s' = s /\ e = JsError "Browser automation is disabled in production")
      /\ (DISABLE_BROWSER_AUTOMATION E (world s) = false ->
          exists made, trace s' = (trace s ++ Launch :: made)%list)
  end.
Proof.
  unfold HummBrowser_initialize.
  destruct (DISABLE_BROWSER_AUTOMATION E (world s)) eqn:Hd.
  - simpl. repeat split; try reflexivity. congruence.
  - unfold try_catch, bind, call, modB, throw, launch_calls. simpl.
    destruct (chromium_launch E (world s)) as [[e | b] w1]; simpl.
    { repeat split; try reflexivity; try congruence.
      intros _. exists []. reflexivity. }
    destruct (browser_newContext E b w1) as [[e | c] w2]; simpl.
    { repeat split; try reflexivity; try congruence.
      intros _. exists [NewContext]. rewrite <- app_assoc. reflexivity. }
    destruct (context_newPage E c w2) as [[e | p] w3]; simpl.
    { repeat split; try reflexivity; try congruence.
      intros _. exists [NewContext; NewPage]. rewrite <- !app_assoc. reflexivity. }
    destruct (page_setDefaultTimeout E p 30000 w3) as [[e | []] w4]; simpl.
    { repeat split; try reflexivity; try congruence.
      intros _. exists [NewContext; NewPage; SetDefaultTimeout 30000].
      rewrite <- !app_assoc. reflexivity. }
    repeat split; try reflexivity; try congruence.
    rewrite <- !app_assoc. reflexivity.
Qed.

End Initialize.

Section Controller.

Context {W : Type} (E : Env W).

Lemma initialize_session (s s0 : Sys W) :
  HummBrowser_initialize E s = (inr tt, s0) -> has_session s0.
Proof.
  intros H. pose proof (initialize_run E s) as Hr. rewrite H in Hr.
  destruct Hr as (_ & Hi & Hp & _).
  unfold has_session, uninitialized, no_page. rewrite Hi.
  destruct (page (hb s0)); [ reflexivity | contradiction ].
Qed.

Lemma executeCommand_keeps (I : Sys W -> Prop) c :
  ignores_stream I -> (forall s, I s -> has_session s) ->
  ensures I (executeCommand E c) reported nothing.
Proof.
  intros HI Hs. apply executeCommand_from_dispatch;
    [ now apply ignores_stream_world | exact Hs | now apply dispatch_ensures ].
Qed.

Lemma executeCommand_on_session c (s : Sys W) :
  has_session s ->
  exists o s',
    executeCommand E c s = (inr o, s')
    /\ reported o /\ has_session s' /\ ag s' = ag s.
Proof.
  intros Hs.
  assert (ignores_stream (fun x : Sys W => has_session x /\ ag x = ag s)) as HI.
  { intros x x' [Hx Ha] Hb Hc Hp Hi Hag. split; [ | congruence ].
    apply (has_session_session_only x); assumption. }
  pose proof (executeCommand_keeps _ c HI (fun x Hx => proj1 Hx) s (conj Hs eq_refl)) as H.
  destruct (executeCommand E c s) as [[e | o] s'].
  - destruct H as [[] _].
  - exists o, s'. destruct H as (Ho & Hs' & Ha). auto.
Qed.

(** the lazy initialization, when it succeeds, is followed by the command
    as on the Session it made *)
Lemma executeCommand_after_init c (s s0 : Sys W) :
  uninitialized (hb s) = true ->
  HummBrowser_initialize E s = (inr tt, s0) ->
  executeCommand E c s = executeCommand E c s0.
Proof.
  intros Hu Hinit. pose proof (initialize_session s s0 Hinit) as Hs0.
  unfold has_session in Hs0.
  unfold executeCommand, bind, getB, when_. rewrite Hu, Hinit, Hs0. reflexivity.
Qed.

(** X1. [initialize] either establishes a Session, having made exactly the
    calls launch, newContext, newPage and setDefaultTimeout(30000) in this
    order, none of which threw, or rethrows what failed and leaves
    [isInitialized] as it was: with automation disabled it makes no call,
    changes nothing and throws 'Browser automation is disabled in
    production'; otherwise it throws the exception of the first of the four
    calls that threw, unchanged.  In both cases it keeps the three stream
    fields, the timers and the agent. *)
Theorem initialize_all_or_nothing (s : Sys W) :
  match HummBrowser_initialize E s with
  | (inr _, s') =>
      has_session s'
      /\ DISABLE_BROWSER_AUTOMATION E (world s) = false
      /\ launch_outcome E (world s) = inr tt
      /\ trace s' = (trace s ++ [Launch; NewContext; NewPage;
                                 SetDefaultTimeout 30000])%list
      /\ ag s' = ag s /\ timers s' = timers s
      /\ isStreaming (hb s') = isStreaming (hb s)
      /\ streamInterval (hb s') = streamInterval (hb s)
      /\ streamCallback (hb s') = streamCallback (hb s)
  | (inl e, s') =>
      isInitialized (hb s') = isInitialized (hb s)
      /\ ag s' = ag s /\ timers s' = timers s
      /\ isStreaming (hb s') = isStreaming (hb s)
      /\ streamInterval (hb s') = streamInterval (hb s)
      /\ streamCallback (hb s') = streamCallback (hb s)
      /\ if DISABLE_BROWSER_AUTOMATION E (world s)
         then s' = s
              /\ e = JsError "Browser automation is disabled in production"
         else launch_outcome E (world s) = inl e
              /\ exists made, trace s' = (trace s ++ Launch :: made)%list
  end.
Proof.
  assert (match HummBrowser_initialize E s with
          | (inr _, _) =>
              DISABLE_BROWSER_AUTOMATION E (world s) = false
              /\ launch_outcome E (world s) = inr tt
          | (inl e, _) =>
              DISABLE_BROWSER_AUTOMATION E (world s) = false ->
              launch_outcome E (world s) = inl e
          end) as Hfirst.
  { unfold HummBrowser_initialize, launch_outcome.
    destruct (DISABLE_BROWSER_AUTOMATION E (world s)); [ discriminate | ].
    unfold try_catch, bind, call, modB, throw. simpl.
    destruct (chromium_launch E (world s)) as [[e | b] w1]; simpl; [ auto | ].
    destruct (browser_newContext E b w1) as [[e | c] w2]; simpl; [ auto | ].
    destruct (context_newPage E c w2) as [[e | p] w3]; simpl; [ auto | ].
    destruct (page_setDefaultTimeout E p 30000 w3) as [[e | []] w4]; simpl; auto. }
  pose proof (initialize_run E s) as Hr.
  destruct (HummBrowser_initialize E s) as [[e | []] s'] eqn:Hinit.
  - destruct Hr as (Hi & Hst & Hint & Hcb & Ha & Ht & _ & Hd & Hmade).
    repeat (split; [ assumption | ]).
    destruct (DISABLE_BROWSER_AUTOMATION E (world s)); auto.
  - destruct Hr as (_ & _ & _ & Htr & Hst & Hint & Hcb & Ha & Ht & _).
    destruct Hfirst as [Hd Hlaunch].
    split; [ exact (initialize_session s s' Hinit) | ]. auto 10.
Qed.

(** X2. Whenever [executeCommand] returns an Observation, a Session exists
    afterwards: the command either found one or made one. *)
Theorem executeCommand_leaves_a_session (c : HummCommand) (s s' : Sys W)
    (o : HummObservation) :
  executeCommand E c s = (inr o, s') -> has_session s'.
Proof.
  intros H. destruct (uninitialized (hb s)) eqn:Hu.
  - destruct (HummBrowser_initialize E s) as [[e | []] s0] eqn:Hinit.
    + unfold executeCommand, bind, getB, when_ in H. rewrite Hu, Hinit in H.
      discriminate.
    + rewrite (executeCommand_after_init c s s0 Hu Hinit) in H.
      destruct (executeCommand_on_session c s0 (initialize_session s s0 Hinit))
        as (o' & s'' & H' & _ & Hs'' & _).
      rewrite H' in H. injection H as _ <-. exact Hs''.
  - destruct (executeCommand_on_session c s Hu) as (o' & s'' & H' & _ & Hs'' & _).
    rewrite H' in H. injection H as _ <-. exact Hs''.
Qed.

End Controller.

Section Teardown.

Context {W : Type} (E : Env W).

(** X3. [close] never throws.  Afterwards no stream is active: a stream
    that was active has been stopped and its timer cleared.  The browser,
    context and page handles stay stored.  [isInitialized] is false
    afterwards, unless [context.close()] or [browser.close()] threw: it is
    then as it was before. *)
Theorem close_always_completes (s : Sys W) :
  exists s',
    close E s = (inr tt, s')
    /\ isStreaming (hb s') = false
    /\ browser (hb s') = browser (hb s) /\ context (hb s') = context (hb s)
    /\ page (hb s') = page (hb s) /\ ag s' = ag s
    /\ (isStreaming (hb s) = true ->
        idle (hb s')
        /\ forall id, streamInterval (hb s) = Some id -> id ∉ timers s')
    /\ isInitialized (hb s')
       = (if teardown_throws E s then isInitialized (hb s) else false).
Proof.
  unfold close, try_catch, bind, getB, when_, teardown_throws.
  destruct (isStreaming (hb s)) eqn:Hstr.
  - destruct (stopStreaming_run E s) as (o & Ho & _). rewrite Ho. simpl.
    assert (forall id, streamInterval (hb s) = Some id ->
                       id ∉ timers (stop_effect s)) as Hgone.
    { intros id Hid. unfold stop_effect. rewrite Hid. simpl.
      intros Hin. apply elem_of_difference in Hin. destruct Hin as [_ Hn].
      apply Hn, elem_of_singleton_2. reflexivity. }
    pose proof (stop_effect_idle s) as Hidle.
    assert (browser (hb (stop_effect s)) = browser (hb s)
            /\ context (hb (stop_effect s)) = context (hb s)
            /\ page (hb (stop_effect s)) = page (hb s)
            /\ isInitialized (hb (stop_effect s)) = isInitialized (hb s)
            /\ ag (stop_effect s) = ag s) as (Eb & Ec & Ep & Ei & Ea).
    { unfold stop_effect. destruct (streamInterval (hb s)); simpl; auto. }
    destruct Hidle as (I1 & I2 & I3).
    destruct (context (hb s)) as [c | ] eqn:Hc;
      [ unfold call; simpl;
        destruct (context_close E c _) as [[e | []] w1]; simpl | simpl ];
      try (destruct (browser (hb s)) as [b | ] eqn:Hb;
           [ unfold call; simpl;
             destruct (browser_close E b _) as [[e | []] w2]; simpl | simpl ]);
      eexists; (split; [ reflexivity | ]); simpl;
      repeat split; try assumption; try congruence; auto;
      try (intros; discriminate).
  - simpl.
    destruct (context (hb s)) as [c | ] eqn:Hc;
      [ unfold call; simpl;
        destruct (context_close E c _) as [[e | []] w1]; simpl | simpl ];
      try (destruct (browser (hb s)) as [b | ] eqn:Hb;
           [ unfold call; simpl;
             destruct (browser_close E b _) as [[e | []] w2]; simpl | simpl ]);
      eexists; (split; [ reflexivity | ]); simpl;
      repeat split; try assumption; try congruence; auto;
      try (intros; discriminate).
Qed.

End Teardown.

Section Observing.

Context {W : Type} (E : Env W).

(** X4. [getCurrentState] never throws and changes nothing of the
    controller, the agent or the timers.  Without a page it makes no call and
    reports 'Browser not initialized'.  A successful snapshot reports
    [isStreaming] as stored, quality 60, and a frame rate of 2 whenever an
    interval handle is stored, 0 otherwise: the rate the stream was started
    with is not kept. *)
Theorem getCurrentState_is_a_snapshot (s : Sys W) :
  exists o s',
    getCurrentState E s = (inr o, s')
    /\ only_calls_made s s'
    /\ (page (hb s) = None ->
        trace s' = trace s /\ obs_success o = false
        /\ obs_error o = Some "Browser not initialized")
    /\ (obs_success o = true ->
        obs_streamData o
        = Some {| sd_isStreaming := isStreaming (hb s);
                  sd_frameRate := match streamInterval (hb s) with
                                  | Some _ => 2
                                  | None => 0
                                  end;
                  sd_quality := 60 |}).
Proof.
  unfold getCurrentState, bind, getB. destruct (page (hb s)) as [p | ] eqn:Hp.
  - unfold try_catch, bind, call, getB. simpl.
    destruct (page_title E p (world s)) as [[e | title] w1]; simpl;
      [ | destruct (page_url E p w1) as [[e | u] w2]; simpl;
          [ | destruct (page_viewportSize E p w2) as [[e | v] w3]; simpl ] ];
      rewrite now_run; simpl;
      (eexists; eexists; split; [ reflexivity | ]);
      (split; [ repeat split | ]);
      (split; [ intros; discriminate | ]);
      simpl; intros H; try discriminate H; reflexivity.
  - rewrite now_run. simpl. eexists; eexists. split; [ reflexivity | ].
    split; [ repeat split | ]. split; [ intros _; repeat split | ].
    simpl. intros H; discriminate H.
Qed.

End Observing.

Section CommandOutcomes.

Context {W : Type} (E : Env W).

(** X5. A [navigate] command on an existing Session asks the page to go to
    the URL, then for its title and its URL.  The first of these calls that
    throws ends the command with a failed Observation whose error is
    'Navigation failed: ' followed by the message thrown, no later call being
    made; otherwise the Observation is successful and carries the title and
    the URL that the page reports, not the URL that was asked for. *)
Theorem navigate_reports_the_page (s : Sys W) (p : Handle) (u : option string) :
  has_session s -> page (hb s) = Some p ->
  exists o s',
    executeCommand E (navigate_to u) s = (inr o, s')
    /\ match page_goto E p u (world (tick E s)) with
       | (inl e, _) =>
           obs_success o = false
           /\ obs_error o = Some ("Navigation failed: " ++ message_of e)
           /\ obs_timestamp o = clock E s
           /\ trace s' = (trace s ++ [Goto u])%list
       | (inr _, w1) =>
           match page_title E p w1 with
           | (inl e, _) =>
               obs_success o = false
               /\ obs_error o = Some ("Navigation failed: " ++ message_of e)
               /\ trace s' = (trace s ++ [Goto u; Title])%list
           | (inr title, w2) =>
               match page_url E p w2 with
               | (inl e, _) =>
                   obs_success o = false
                   /\ obs_error o = Some ("Navigation failed: " ++ message_of e)
                   /\ trace s' = (trace s ++ [Goto u; Title; Url])%list
               | (inr current, _) =>
                   obs_success o = true
                   /\ obs_pageTitle o = Some title
                   /\ obs_url o = Some current
                   /\ obs_error o = None
                   /\ trace s' = (trace s ++ [Goto u; Title; Url])%list
               end
           end
       end.
Proof.
  intros Hs Hp. rewrite (executeCommand_run E _ s Hs).
  change (dispatch E (navigate_to u)) with (navigate E u).
  unfold try_catch, navigate, the_page, rethrow_as, try_catch, bind, getB, call.
  simpl. rewrite Hp. simpl.
  destruct (page_goto E p u (Date_now E (world s)).2) as [[e | []] w1]; simpl;
    [ | destruct (page_title E p w1) as [[e | title] w2]; simpl;
        [ | destruct (page_url E p w2) as [[e | current] w3]; simpl;
            [ | rewrite now_run; simpl ] ] ];
    (eexists; eexists; split; [ reflexivity | ]);
    simpl; rewrite <- ?app_assoc; repeat split.
Qed.

(** X6. An [extract] command with a selector, on an existing Session, looks
    the element up.  When there is none the Observation fails with 'Content
    extraction failed: Element not found: <selector>'.  When there is one,
    the Observation carries its text both as content and as data; an element
    whose text content is null yields the data null and, as content, what
    [JSON.stringify] makes of null. *)
Theorem extract_by_selector (s : Sys W) (p : Handle) (sel : string) :
  has_session s -> page (hb s) = Some p -> sel <> EmptyString ->
  exists o s',
    executeCommand E (extract_from (Some sel)) s = (inr o, s')
    /\ match page_query E p sel (world (tick E s)) with
       | (inl e, _) =>
           obs_success o = false
           /\ obs_error o = Some ("Content extraction failed: " ++ message_of e)
       | (inr None, _) =>
           obs_success o = false
           /\ obs_error o
              = Some ("Content extraction failed: Element not found: " ++ sel)
           /\ trace s' = (trace s ++ [Query sel])%list
       | (inr (Some element), w1) =>
           match element_textContent E element w1 with
           | (inl e, _) =>
               obs_success o = false
               /\ obs_error o
                  = Some ("Content extraction failed: " ++ message_of e)
           | (inr (Some text), _) =>
               obs_success o = true
               /\ obs_content o = Some text /\ obs_data o = Some (VStr text)
               /\ trace s' = (trace s ++ [Query sel; TextContent])%list
           | (inr None, _) =>
               obs_success o = true
               /\ obs_content o = Some (JSON_stringify E VNull)
               /\ obs_data o = Some VNull
               /\ trace s' = (trace s ++ [Query sel; TextContent])%list
           end
       end.
Proof.
  intros Hs Hp Hsel. rewrite (executeCommand_run E _ s Hs).
  change (dispatch E (extract_from (Some sel))) with (extractContent E (Some sel)).
  assert (given (Some sel) = true) as Hg.
  { unfold given. destruct (String.eqb_spec sel EmptyString);
      [ contradiction | reflexivity ]. }
  unfold try_catch, extractContent, the_page, rethrow_as, try_catch, bind, getB, call.
  rewrite Hg. simpl. rewrite Hp. simpl.
  destruct (page_query E p sel (Date_now E (world s)).2) as [[e | [el | ]] w1];
    simpl;
    [ | destruct (element_textContent E el w1) as [[e | [text | ]] w2]; simpl;
        try (rewrite now_run; simpl) | ];
    (eexists; eexists; split; [ reflexivity | ]);
    simpl; rewrite <- ?app_assoc; repeat split.
Qed.

(** X7. A command whose action is none of the ten known ones, executed on
    an existing Session, makes no call and changes nothing but the clock
    reading; its Observation fails with 'Unknown command action: <action>'. *)
Theorem unknown_action_is_reported (c : HummCommand) (s : Sys W) :
  has_session s -> ~ In (cmd_action c) known_actions ->
  exists o s',
    executeCommand E c s = (inr o, s')
    /\ obs_success o = false
    /\ obs_error o = Some ("Unknown command action: " ++ cmd_action c)
    /\ obs_timestamp o = clock E s
    /\ only_clock_moved s s'.
Proof.
  intros Hs Hun. rewrite (executeCommand_run E _ s Hs).
  assert (dispatch E c
          = throw (JsError ("Unknown command action: " ++ cmd_action c))) as Hd.
  { unfold dispatch.
    repeat match goal with
           | |- context [String.eqb (cmd_action c) ?k] =>
               destruct (String.eqb_spec (cmd_action c) k) as [Heq | _];
               [ exfalso; apply Hun; rewrite Heq; simpl; tauto | ]
           end.
    reflexivity. }
  rewrite Hd. unfold try_catch, throw, ret. simpl.
  eexists; eexists. split; [ reflexivity | ]. repeat split.
Qed.

End CommandOutcomes.

Section StreamBookkeeping.

Context {W : Type} (E : Env W).

Lemma stream_consistent_ignores_world : ignores_world (@stream_consistent W).
Proof. intros s tr w H. exact H. Qed.

Lemma stream_consistent_ignores_session : ignores_session (@stream_consistent W).
Proof.
  intros s s' H Hs Hi Hc _ Ht _. unfold stream_consistent in *.
  rewrite Hs, Hi, Hc, Ht. exact H.
Qed.

Lemma start_effect_consistent cb fr (s : Sys W) :
  stream_consistent (start_effect cb fr s).
Proof.
  unfold stream_consistent, start_effect. simpl. split; [ | split ].
  - split; [ discriminate | reflexivity ].
  - reflexivity.
  - intros id H. injection H as <-. apply elem_of_union_l, elem_of_singleton_2.
    reflexivity.
Qed.

Lemma stop_effect_consistent (s : Sys W) : stream_consistent (stop_effect s).
Proof.
  destruct (stop_effect_idle s) as (H1 & H2 & H3).
  unfold stream_consistent. rewrite H1, H2, H3.
  split; [ split; [ discriminate | congruence ] | ].
  split; [ congruence | discriminate ].
Qed.

Lemma dispatch_keeps_stream_consistent c (s : Sys W) :
  stream_consistent s -> stream_consistent (snd (dispatch E c s)).
Proof.
  intros Hs.
  destruct (String.eqb_spec (cmd_action c) "stream_start") as [Hstart | Hstart].
  - assert (dispatch E c
            = startStreaming E (callback_of (cmd_options c))
                (match cmd_options c with
                 | Some x => opt_frameRate x
                 | None => None
                 end)) as Hd
      by (unfold dispatch, callback_of; rewrite Hstart; reflexivity).
    rewrite Hd. destruct (page (hb s)) as [p | ] eqn:Hp.
    + destruct (startStreaming_run E (callback_of (cmd_options c))
                  (match cmd_options c with
                   | Some x => opt_frameRate x
                   | None => None
                   end) s (ex_intro _ p Hp)) as (o & Ho & _).
      rewrite Ho. simpl. apply start_effect_consistent.
    + unfold startStreaming, the_page, bind, getB. rewrite Hp. exact Hs.
  - destruct (String.eqb_spec (cmd_action c) "stream_stop") as [Hstop | Hstop].
    + assert (dispatch E c = stopStreaming E) as Hd
        by (unfold dispatch; rewrite Hstop; reflexivity).
      rewrite Hd. destruct (stopStreaming_run E s) as (o & Ho & _).
      rewrite Ho. simpl. apply stop_effect_consistent.
    + pose proof (dispatch_plain_ensures E _ stream_consistent_ignores_world c
                    (conj Hstart Hstop) s Hs) as H.
      destruct (dispatch E c s) as [[e | o] s']; destruct H as [_ H]; exact H.
Qed.

(** the stream fields and the timers after [close] *)
Lemma close_stream_fields (s : Sys W) :
  let s' := snd (close E s) in
  let base := if isStreaming (hb s) then stop_effect s else s in
  isStreaming (hb s') = isStreaming (hb base)
  /\ streamInterval (hb s') = streamInterval (hb base)
  /\ streamCallback (hb s') = streamCallback (hb base)
  /\ ag s' = ag base /\ timers s' = timers base
  /\ next_timer s' = next_timer base.
Proof.
  unfold close, try_catch, bind, getB, when_.
  destruct (isStreaming (hb s)) eqn:Hstr.
  - destruct (stopStreaming_run E s) as (o & Ho & _). rewrite Ho. simpl.
    assert (context (hb (stop_effect s)) = context (hb s)
            /\ browser (hb (stop_effect s)) = browser (hb s)) as (Ec & Eb)
      by (unfold stop_effect; destruct (streamInterval (hb s)); simpl; auto).
    destruct (context (hb s)) as [c | ];
      [ unfold call; simpl;
        destruct (context_close E c _) as [[e | []] w1]; simpl | simpl ];
      try (destruct (browser (hb s)) as [b | ];
           [ unfold call; simpl;
             destruct (browser_close E b _) as [[e | []] w2]; simpl | simpl ]);
      repeat split.
  - simpl.
    destruct (context (hb s)) as [c | ];
      [ unfold call; simpl;
        destruct (context_close E c _) as [[e | []] w1]; simpl | simpl ];
      try (destruct (browser (hb s)) as [b | ];
           [ unfold call; simpl;
             destruct (browser_close E b _) as [[e | []] w2]; simpl | simpl ]);
      repeat split.
Qed.

Lemma executeCommand_stream_consistent c (s : Sys W) :
  stream_consistent s -> stream_consistent (snd (executeCommand E c s)).
Proof.
  intros Hs. unfold executeCommand, bind, getB, when_.
  assert (forall s0 : Sys W, stream_consistent s0 ->
            stream_consistent
              (snd (let (r, s1) := now E s0 in
                    match r with
                    | inl e => (inl e, s1)
                    | inr startTime =>
                        try_catch (dispatch E c)
                          (fun error =>
                             ret (with_error (Some (message_of error))
                                    (observation false startTime))) s1
                    end))) as Hrest.
  { intros s0 H0. rewrite now_run. unfold try_catch.
    pose proof (dispatch_keeps_stream_consistent c (tick E s0) H0) as Hd.
    destruct (dispatch E c (tick E s0)) as [[e | o] s1]; exact Hd. }
  destruct (uninitialized (hb s)).
  - pose proof (initialize_run E s) as Hr.
    destruct (HummBrowser_initialize E s) as [[e | []] s0].
    + destruct Hr as (_ & H1 & H2 & H3 & H4 & H5 & H6 & _).
      simpl. apply (stream_consistent_ignores_session s); assumption.
    + destruct Hr as (_ & _ & _ & _ & H1 & H2 & H3 & H4 & H5 & H6).
      apply Hrest. apply (stream_consistent_ignores_session s); assumption.
  - simpl. apply Hrest. exact Hs.
Qed.

Lemma close_stream_consistent (s : Sys W) :
  stream_consistent s -> stream_consistent (snd (close E s)).
Proof.
  intros Hs. destruct (close_stream_fields s) as (H1 & H2 & H3 & H4 & H5 & H6).
  destruct (isStreaming (hb s));
    [ apply (stream_consistent_ignores_session (stop_effect s));
      [ apply stop_effect_consistent | assumption.. ]
    | apply (stream_consistent_ignores_session s); assumption ].
Qed.

(** X8. The bookkeeping of the stream is an invariant of the controller:
    if [isStreaming] tells whether an interval handle is stored, a callback
    is stored only while streaming, and the stored handle is a scheduled
    interval, then the same holds after any command, whatever its outcome,
    and after [close]. *)
Theorem stream_bookkeeping_is_kept (s : Sys W) :
  stream_consistent s ->
  (forall c, stream_consistent (snd (executeCommand E c s)))
  /\ stream_consistent (snd (close E s)).
Proof.
  intros Hs. split.
  - intros c. now apply executeCommand_stream_consistent.
  - now apply close_stream_consistent.
Qed.

End StreamBookkeeping.

(** * More of the orchestrator *)

Section AgentLifecycle.

Context {W : Type} (E : Env W).

(** no command touches the state of the agent *)
Lemma executeCommand_keeps_agent c (s : Sys W) :
  ag (snd (executeCommand E c s)) = ag s.
Proof.
  assert (forall s0 : Sys W, has_session s0 ->
            ag (snd (executeCommand E c s0)) = ag s0) as Hon.
  { intros s0 H0.
    destruct (executeCommand_on_session E c s0 H0) as (o & s' & H & _ & _ & Ha).
    rewrite H. exact Ha. }
  destruct (uninitialized (hb s)) eqn:Hu.
  - pose proof (initialize_run E s) as Hr.
    destruct (HummBrowser_initialize E s) as [[e | []] s0] eqn:Hinit.
    + unfold executeCommand, bind, getB, when_. rewrite Hu, Hinit. simpl.
      destruct Hr as (_ & _ & _ & _ & Ha & _). exact Ha.
    + rewrite (executeCommand_after_init E c s s0 Hu Hinit).
      rewrite (Hon s0 (initialize_session E s s0 Hinit)).
      destruct Hr as (_ & _ & _ & _ & _ & _ & _ & Ha & _). exact Ha.
  - apply Hon. exact Hu.
Qed.

(** X9. A task whose type has no handler, 'automation' included, makes
    [executeTask] return a failed AgentResult with the summary 'Task failed:
    Unknown task type: <type>', no data and no observation; no call is made
    and the browser is untouched. *)
Theorem unhandled_task_type_fails (task : AgentTask) (s : Sys W) :
  ~ In (task_type task) handled_types ->
  exists r s',
    executeTask E task s = (inr r, s')
    /\ res_success r = false
    /\ res_data r = None
    /\ res_observations r = []
    /\ res_summary r = "Task failed: Unknown task type: " ++ task_type task
    /\ trace s' = trace s /\ hb s' = hb s /\ timers s' = timers s
    /\ currentTask (ag s') = None.
Proof.
  intros Hun. rewrite executeTask_run.
  assert (handler E task
          = throw (JsError ("Unknown task type: " ++ task_type task))) as Hh.
  { unfold handler.
    repeat match goal with
           | |- context [String.eqb (task_type task) ?k] =>
               destruct (String.eqb_spec (task_type task) k) as [Heq | _];
               [ exfalso; apply Hun; rewrite Heq; simpl; tauto | ]
           end.
    reflexivity. }
  rewrite Hh. unfold throw. eexists; eexists. split; [ reflexivity | ].
  repeat split.
Qed.

(** X10. The agent's [initialize] either succeeds, and then a Session
    exists and the state of the agent is as before but for [browserReady]
    and [isActive], which are true; or it rethrows what the browser's
    [initialize] threw and leaves the state of the agent as it was. *)
Theorem agent_initialize_all_or_nothing (s : Sys W) :
  match Agent_initialize E s with
  | (inr _, s') =>
      has_session s'
      /\ fst (HummBrowser_initialize E s) = inr tt
      /\ ag s'
         = {| isActive := true;
              currentTask := currentTask (ag s);
              browserReady := true;
              lastActivity := lastActivity (ag s);
              isLiveStreaming := isLiveStreaming (ag s);
              currentUrl := currentUrl (ag s) |}
  | (inl e, s') =>
      ag s' = ag s
      /\ fst (HummBrowser_initialize E s) = inl e
  end.
Proof.
  unfold Agent_initialize, try_catch, bind, modA.
  pose proof (initialize_run E s) as Hr.
  destruct (HummBrowser_initialize E s) as [[e | []] s0] eqn:Hinit.
  - simpl. destruct Hr as (_ & _ & _ & _ & Ha & _). auto.
  - simpl. pose proof (initialize_session E s s0 Hinit) as Hs0.
    destruct Hr as (_ & _ & _ & _ & _ & _ & _ & Ha & _).
    split; [ exact Hs0 | ]. split; [ reflexivity | ]. rewrite Ha. reflexivity.
Qed.

(** [stopLiveStream], by cases *)
Lemma stopLiveStream_run (s : Sys W) :
  exists s',
    stopLiveStream E s = (inr tt, s')
    /\ (isLiveStreaming (ag s) = false -> s' = s)
    /\ (isLiveStreaming (ag s) = true ->
        match executeCommand E (command "stream_stop") s with
        | (inr _, s1) => s' = with_ag (set_isLiveStreaming false) s1
        | (inl _, s1) => s' = s1
        end).
Proof.
  unfold stopLiveStream, bind, getA, when_.
  destruct (isLiveStreaming (ag s)) eqn:Hl.
  - unfold try_catch, bind.
    destruct (executeCommand E (command "stream_stop") s) as [[e | o] s1];
      simpl; eexists; (split; [ reflexivity | ]);
      (split; [ discriminate | intros _; reflexivity ]).
  - simpl. exists s. split; [ reflexivity | ].
    split; [ reflexivity | discriminate ].
Qed.

(** X11. [stopLiveStream] never throws.  When [isLiveStreaming] is false it
    does nothing at all.  When it is true and a Session exists, it stops the
    stream: afterwards [isLiveStreaming] is false, no stream is active in the
    controller and the stored interval is no longer scheduled. *)
Theorem stopLiveStream_stops_or_does_nothing (s : Sys W) :
  exists s',
    stopLiveStream E s = (inr tt, s')
    /\ (isLiveStreaming (ag s) = false -> s' = s)
    /\ (isLiveStreaming (ag s) = true -> has_session s ->
        isLiveStreaming (ag s') = false
        /\ idle (hb s')
        /\ (forall id, streamInterval (hb s) = Some id -> id ∉ timers s')
        /\ currentTask (ag s') = currentTask (ag s)
        /\ has_session s').
Proof.
  destruct (stopLiveStream_run s) as (s' & Hrun & Hoff & Hon).
  exists s'. split; [ exact Hrun | ]. split; [ exact Hoff | ].
  intros Hl Hs. specialize (Hon Hl).
  destruct (stream_stop_run E s Hs) as (o & Hstop & _).
  rewrite Hstop in Hon. subst s'. simpl.
  split; [ reflexivity | ].
  split; [ apply (stop_effect_idle (tick E s)) | ].
  split.
  - intros id Hid. unfold stop_effect. simpl. rewrite Hid. simpl.
    intros Hin. apply elem_of_difference in Hin. destruct Hin as [_ Hn].
    apply Hn, elem_of_singleton_2. reflexivity.
  - split.
    + unfold stop_effect. simpl. destruct (streamInterval (hb s)); reflexivity.
    + apply (stop_effect_session (tick E s)). exact Hs.
Qed.

Lemma close_returns (s : Sys W) :
  exists s', close E s = (inr tt, s').
Proof.
  unfold close, try_catch.
  match goal with
  | |- context [match ?m s with _ => _ end] =>
      destruct (m s) as [[e | []] s1]
  end; eexists; reflexivity.
Qed.

(** X12. [shutdown] never throws, and afterwards [isActive], [browserReady]
    and [isLiveStreaming] are false, [currentUrl] is undefined and the
    controller has no active stream; [currentTask] is as before. *)
Theorem shutdown_zeroes_the_state (s : Sys W) :
  exists s',
    shutdown E s = (inr tt, s')
    /\ isActive (ag s') = false
    /\ browserReady (ag s') = false
    /\ isLiveStreaming (ag s') = false
    /\ currentUrl (ag s') = None
    /\ currentTask (ag s') = currentTask (ag s)
    /\ isStreaming (hb s') = false.
Proof.
  unfold shutdown, try_catch. unfold bind at 1.
  destruct (stopLiveStream_run s) as (s1 & H1 & Hoff & Hon). rewrite H1.
  assert (currentTask (ag s1) = currentTask (ag s)) as Htask.
  { destruct (isLiveStreaming (ag s)) eqn:Hl.
    - specialize (Hon eq_refl).
      pose proof (executeCommand_keeps_agent (command "stream_stop") s) as Ha.
      destruct (executeCommand E (command "stream_stop") s) as [[e | o] s0];
        subst s1; simpl in *; rewrite Ha; reflexivity.
    - rewrite (Hoff eq_refl). reflexivity. }
  unfold bind at 1.
  destruct (close_returns s1) as (s2 & H2).
  pose proof (close_stream_fields E s1) as Hf. rewrite H2 in Hf. simpl in Hf.
  destruct Hf as (Hstr & _ & _ & Hag & _).
  rewrite H2. unfold bind, modA. simpl.
  eexists. split; [ reflexivity | ]. simpl.
  repeat split.
  - rewrite Hag, <- Htask. destruct (isStreaming (hb s1)); [ | reflexivity ].
    unfold stop_effect. destruct (streamInterval (hb s1)); reflexivity.
  - rewrite Hstr. destruct (isStreaming (hb s1)) eqn:Hs1; [ | exact Hs1 ].
    destruct (stop_effect_idle s1) as (Hi & _). exact Hi.
Qed.

End AgentLifecycle.

(** * Invariants of the handlers *)

Section HandlerRules.

Context {W : Type} (E : Env W) (J : Sys W -> Prop).

Local Abbreviation T := (Prog (Sys W * list HummObservation)).

Lemma ensures_weaken {S A} (I : S -> Prop) (m : Prog S A)
    (Qv Qv' : A -> Prop) (Qe Qe' : JsExn -> Prop) :
  (forall a, Qv a -> Qv' a) -> (forall e, Qe e -> Qe' e) ->
  ensures I m Qv Qe -> ensures I m Qv' Qe'.
Proof.
  intros Hv He H s Hs. specialize (H s Hs).
  destruct (m s) as [[e | a] s']; destruct H as [H1 H2]; auto.
Qed.

Lemma ensures_lift {A} (m : Prog (Sys W) A) Qv Qe :
  ensures J m Qv Qe -> ensures (on_sys J) (lift m) Qv Qe.
Proof.
  intros H [s obs] Hs. unfold lift. simpl. specialize (H s Hs).
  destruct (m s) as [[e | a] s']; exact H.
Qed.

Lemma ensures_push o Qe : ensures (on_sys J) (@push W o) anything Qe.
Proof. intros [s obs] Hs. split; [ exact I | exact Hs ]. Qed.

Lemma ensures_pushed Qe : ensures (on_sys J) (@pushed W) anything Qe.
Proof. intros [s obs] Hs. split; [ exact I | exact Hs ]. Qed.

Hypothesis HW : ignores_world J.
Hypothesis HA : forall f s, J s -> J (with_ag f s).
Hypothesis Hcmd : forall c, ensures J (executeCommand E c) anything anything.

Lemma ensures_modA f Qe : ensures J (@modA W f) anything Qe.
Proof. intros s Hs. split; [ exact I | exact (HA f s Hs) ]. Qed.

Lemma ensures_getA Qe : ensures J (@getA W) anything Qe.
Proof. intros s Hs. split; [ exact I | exact Hs ]. Qed.

Lemma ensures_step c : ensures (on_sys J) (step E c) anything anything.
Proof.
  unfold step. apply ensures_bind; [ apply ensures_lift, Hcmd | intros o ].
  apply ensures_bind; [ apply ensures_push | intros _ ].
  now apply ensures_ret.
Qed.

Ltac run_handler :=
  repeat first
    [ apply ensures_ret; exact I
    | apply ensures_throw; exact I
    | apply ensures_step
    | apply ensures_push
    | apply ensures_lift, ensures_modA
    | apply ensures_lift, ensures_getA
    | apply ensures_lift, ensures_now; exact HW
    | apply ensures_lift, ensures_call; exact HW
    | apply ensures_lift, Hcmd
    | apply ensures_bind; [ | intros ? ]
    | apply ensures_try_catch; [ | intros ? ]
    | match goal with
      | |- ensures _ (if ?b then _ else _) _ _ => destruct b
      end ].

Lemma performResearch_keeps task :
  ensures (on_sys J) (performResearch E task) anything anything.
Proof. unfold performResearch, ask. run_handler. Qed.

Lemma performScraping_keeps task :
  ensures (on_sys J) (performScraping E task) anything anything.
Proof. unfold performScraping. run_handler. Qed.

Lemma performNavigation_keeps task :
  ensures (on_sys J) (performNavigation E task) anything anything.
Proof. unfold performNavigation. run_handler. Qed.

Lemma performMonitoring_keeps task :
  ensures (on_sys J) (performMonitoring E task) anything anything.
Proof. unfold performMonitoring. run_handler. Qed.

Lemma performImageGeneration_keeps task :
  ensures (on_sys J) (performImageGeneration E task) anything anything.
Proof. unfold performImageGeneration, ask. run_handler. Qed.

Lemma performLiveDemo_keeps task :
  ensures (on_sys J) (performLiveDemo E task) anything anything.
Proof. unfold performLiveDemo, sleep. run_handler. Qed.

Lemma handler_keeps task :
  ensures (on_sys J) (handler E task) anything anything.
Proof.
  unfold handler.
  repeat match goal with
         | |- ensures _ (if ?b then _ else _) _ _ => destruct b
         end;
    auto using performResearch_keeps, performScraping_keeps,
      performNavigation_keeps, performMonitoring_keeps,
      performImageGeneration_keeps, performLiveDemo_keeps.
  now apply ensures_throw.
Qed.

Lemma executeTask_keeps task (s : Sys W) :
  J s -> J (snd (executeTask E task s)).
Proof.
  intros Hs. rewrite executeTask_run.
  assert (J (entered E task (tick E s))) as Hin.
  { exact (HW _ (trace s) (snd (Date_now E (world (tick E s))))
             (HA (fun a => set_lastActivity (clock E (tick E s))
                             (set_currentTask (Some task) a)) s Hs)). }
  pose proof (handler_keeps task (entered E task (tick E s), []) Hin) as H.
  destruct (handler E task (entered E task (tick E s), []))
    as [[e | result] [s1 obs]]; destruct H as [_ H1]; simpl.
  - exact (HA (set_currentTask None) _ (HW s1 (trace s1) _ H1)).
  - exact (HA (set_currentTask None) _
             (HW _ (trace (asked E task obs result s1)) _
                (HW s1 _ (snd (generateResponse E
                                 (summary_request E task obs result)
                                 summary_context (world s1))) H1))).
Qed.

Lemma stopLiveStream_keeps (s : Sys W) :
  J s -> J (snd (stopLiveStream E s)).
Proof.
  intros Hs. unfold stopLiveStream, bind, getA, when_. simpl.
  destruct (isLiveStreaming (ag s)); [ | exact Hs ].
  unfold try_catch, bind. pose proof (Hcmd (command "stream_stop") s Hs) as H.
  destruct (executeCommand E (command "stream_stop") s) as [[e | o] s1];
    destruct H as [_ H1]; simpl; [ exact H1 | exact (HA _ s1 H1) ].
Qed.

End HandlerRules.

(** * The URL taken from an answer *)

Section ExtractUrl.

Lemma take_nonspace_spaceless s : spaceless (take_nonspace s) = true.
Proof.
  induction s as [ | c r IH]; [ reflexivity | ]. simpl.
  destruct (is_space c) eqn:Hc; [ reflexivity | ]. simpl. now rewrite Hc.
Qed.


Lemma scheme_then_nonspace_well_formed scheme s u :
  scheme = "https://" \/ scheme = "http://" ->
  scheme_then_nonspace scheme s = Some u -> well_formed_url u.
Proof.
  intros Hscheme. unfold scheme_then_nonspace.
  destruct (strip_prefix scheme s) as [r | ]; [ | discriminate ].
  destruct (String.eqb_spec (take_nonspace r) EmptyString) as [ | Hne];
    [ discriminate | ].
  intros H. injection H as <-. exists (take_nonspace r).
  split; [ destruct Hscheme as [-> | ->]; auto | ].
  split; [ exact Hne | apply take_nonspace_spaceless ].
Qed.

Lemma first_url_well_formed s u : first_url s = Some u -> well_formed_url u.
Proof.
  induction s as [ | c r IH]; simpl.
  - unfold url_at, scheme_then_nonspace. simpl. discriminate.
  - destruct (url_at (String c r)) as [v | ] eqn:Hat.
    + intros H. injection H as <-. unfold url_at in Hat.
      destruct (scheme_then_nonspace "https://" (String c r)) as [w | ] eqn:Hs.
      * injection Hat as <-.
        apply (scheme_then_nonspace_well_formed "https://" (String c r)); auto.
      * apply (scheme_then_nonspace_well_formed "http://" (String c r)); auto.
    + exact IH.
Qed.



Lemma extractUrl_well_formed response :
  well_formed_url (extractUrlFromResponse response).
Proof.
  unfold extractUrlFromResponse.
  destruct (first_url response) as [u | ] eqn:Hf.
  - exact (first_url_well_formed response u Hf).
  - destruct (_ || _)%bool.
    + exists "finance.yahoo.com". split; [ now left | ].
      split; [ discriminate | reflexivity ].
    + exists "google.com". split; [ now left | ].
      split; [ discriminate | reflexivity ].
Qed.

Lemma well_formed_url_given u : well_formed_url u -> given (Some u) = true.
Proof.
  intros (rest & Hu & _). unfold given.
  destruct (String.eqb_spec u EmptyString) as [Heq | ]; [ | reflexivity ].
  destruct Hu as [H | H]; rewrite H in Heq; discriminate.
Qed.



End ExtractUrl.

(** * What a task leaves of the controller *)

Section AgentInvariants.

Context {W : Type} (E : Env W).

Lemma shutdown_run (s : Sys W) :
  shutdown E s
  = (inr tt,
     with_ag (fun a => set_currentUrl None
                         (set_isLiveStreaming false
                            (set_browserReady false (set_isActive false a))))
       (snd (close E (snd (stopLiveStream E s))))).
Proof.
  unfold shutdown, try_catch. unfold bind at 1.
  destruct (stopLiveStream_run E s) as (s1 & H1 & _). rewrite H1.
  cbn [snd]. unfold bind at 1.
  destruct (close_returns E s1) as (s2 & H2). rewrite H2.
  reflexivity.
Qed.

(** the invariant of the handlers that a Session with given handles exists *)
Lemma session_invariant (s : Sys W) :
  has_session s ->
  let J := fun x : Sys W => has_session x /\ same_session s x in
  J s /\ ignores_world J /\ (forall f x, J x -> J (with_ag f x))
  /\ (forall c, ensures J (executeCommand E c) anything anything).
Proof.
  intros Hs J.
  assert (ignores_stream J) as Hstream.
  { intros x x' [Hx (Hb & Hc & Hp & Hi)] Eb Ec Ep Ei _. split.
    - apply (has_session_session_only x); assumption.
    - unfold same_session. rewrite Eb, Ec, Ep, Ei. auto. }
  split; [ split; [ exact Hs | repeat split ] | ].
  split; [ now apply ignores_stream_world | ].
  split; [ intros f x Hx; exact Hx | ].
  intros c.
  apply (ensures_weaken J _ reported anything nothing anything);
    [ intros; exact I | intros e []
    | exact (executeCommand_keeps E J c Hstream (fun x Hx => proj1 Hx)) ].
Qed.

Lemma executeTask_same_session task (s : Sys W) :
  has_session s ->
  has_session (snd (executeTask E task s))
  /\ same_session s (snd (executeTask E task s)).
Proof.
  intros Hs. destruct (session_invariant s Hs) as (HJ & HW & HA & Hcmd).
  exact (executeTask_keeps E _ HW HA Hcmd task s HJ).
Qed.

Lemma stopLiveStream_same_session (s : Sys W) :
  has_session s ->
  has_session (snd (stopLiveStream E s))
  /\ same_session s (snd (stopLiveStream E s)).
Proof.
  intros Hs. destruct (session_invariant s Hs) as (HJ & HW & HA & Hcmd).
  exact (stopLiveStream_keeps E _ HA Hcmd s HJ).
Qed.

(** X14. A task run on an existing Session keeps it: whatever the task and
    however it ends, the browser, context and page handles are the same
    afterwards and the controller is still initialized; so does
    [stopLiveStream]. *)
Theorem tasks_keep_the_session (s : Sys W) :
  has_session s ->
  (forall task,
     has_session (snd (executeTask E task s))
     /\ same_session s (snd (executeTask E task s)))
  /\ has_session (snd (stopLiveStream E s))
  /\ same_session s (snd (stopLiveStream E s)).
Proof.
  intros Hs. split.
  - intros task. now apply executeTask_same_session.
  - now apply stopLiveStream_same_session.
Qed.

(** X15. The bookkeeping of the stream is an invariant of the orchestrator
    too: it holds after any task, after [stopLiveStream], after the agent's
    [initialize] and after [shutdown] when it held before, with or without a
    Session. *)
Theorem agent_keeps_the_stream_bookkeeping (s : Sys W) :
  stream_consistent s ->
  (forall task, stream_consistent (snd (executeTask E task s)))
  /\ stream_consistent (snd (stopLiveStream E s))
  /\ stream_consistent (snd (Agent_initialize E s))
  /\ stream_consistent (snd (shutdown E s)).
Proof.
  intros Hs.
  assert (forall f (x : Sys W), stream_consistent x ->
            stream_consistent (with_ag f x)) as HA by (intros f x Hx; exact Hx).
  assert (forall c, ensures (@stream_consistent W) (executeCommand E c)
                      anything anything) as Hcmd.
  { intros c x Hx. pose proof (executeCommand_stream_consistent E c x Hx) as H.
    destruct (executeCommand E c x) as [[e | o] x']; split; solve [ exact I | exact H ]. }
  pose proof (stopLiveStream_keeps E _ HA Hcmd s Hs) as Hstop.
  split; [ | split; [ exact Hstop | split ] ].
  - intros task.
    exact (executeTask_keeps E _ stream_consistent_ignores_world HA Hcmd task s Hs).
  - unfold Agent_initialize, try_catch, bind, modA.
    pose proof (initialize_run E s) as Hr.
    destruct (HummBrowser_initialize E s) as [[e | []] s0]; simpl.
    + destruct Hr as (_ & H1 & H2 & H3 & H4 & H5 & H6 & _).
      apply (stream_consistent_ignores_session s); assumption.
    + destruct Hr as (_ & _ & _ & _ & H1 & H2 & H3 & H4 & H5 & H6).
      apply (HA _ (with_ag (set_browserReady true) s0)), HA.
      apply (stream_consistent_ignores_session s); assumption.
  - rewrite shutdown_run. simpl. apply HA.
    apply close_stream_consistent. exact Hstop.
Qed.

End AgentInvariants.

(** * The steps of the other handlers *)

Section CommandCalls.

Context {W : Type} (E : Env W).

(** a plain command on a Session, with the calls it made *)
Lemma plain_step_run c (s : Sys W) obs :
  has_session s -> plain c ->
  exists o s',
    step E c (s, obs) = (inr o, (s', (obs ++ [o])%list))
    /\ executeCommand E c s = (inr o, s')
    /\ reported o /\ only_calls_made s s' /\ has_session s'.
Proof.
  intros Hs Hc.
  destruct (executeCommand_plain_run E c s Hs Hc) as (o & s' & H & R & F).
  exists o, s'. split; [ exact (step_returns E c s s' obs o H) | ].
  split; [ exact H | ]. split; [ exact R | ]. split; [ exact F | ].
  exact (only_calls_made_session s s' F Hs).
Qed.

Lemma navigate_calls u (s : Sys W) :
  has_session s ->
  exists calls,
    trace (snd (executeCommand E (navigate_to u) s))
    = (trace s ++ Goto u :: calls)%list
    /\ (calls = [] \/ calls = [Title] \/ calls = [Title; Url]).
Proof.
  intros Hs. destruct (session_page s Hs) as [p Hp].
  rewrite (executeCommand_run E _ s Hs).
  change (dispatch E (navigate_to u)) with (navigate E u).
  unfold try_catch, navigate, the_page, rethrow_as, try_catch, bind, getB, call.
  simpl. rewrite Hp. simpl.
  destruct (page_goto E p u (Date_now E (world s)).2) as [[e | []] w1]; simpl;
    [ | destruct (page_title E p w1) as [[e | title] w2]; simpl;
        [ | destruct (page_url E p w2) as [[e | current] w3]; simpl;
            [ | rewrite now_run; simpl ] ] ];
    eexists; (split; [ rewrite <- ?app_assoc; reflexivity | auto ]).
Qed.

Lemma screenshot_calls (s : Sys W) :
  has_session s ->
  trace (snd (executeCommand E (command "screenshot") s))
  = (trace s ++ [Screenshot])%list.
Proof.
  intros Hs. destruct (session_page s Hs) as [p Hp].
  rewrite (executeCommand_run E _ s Hs).
  change (dispatch E (command "screenshot")) with (takeScreenshot E).
  unfold try_catch, takeScreenshot, the_page, rethrow_as, try_catch, bind, getB,
    call.
  simpl. rewrite Hp. simpl.
  destruct (page_screenshot E p (Date_now E (world s)).2) as [[e | shot] w1];
    simpl; [ | rewrite now_run ]; reflexivity.
Qed.

Lemma extract_calls sel (s : Sys W) :
  has_session s ->
  exists calls,
    trace (snd (executeCommand E (extract_from sel) s))
    = (trace s
       ++ (if given sel then Query (show_opt sel) else Content) :: calls)%list
    /\ ~ In Content calls
    /\ forall x, ~ In (Query x) calls.
Proof.
  intros Hs. destruct (session_page s Hs) as [p Hp].
  rewrite (executeCommand_run E _ s Hs).
  change (dispatch E (extract_from sel)) with (extractContent E sel).
  unfold try_catch, extractContent, the_page, rethrow_as, try_catch, bind, getB,
    call.
  simpl. rewrite Hp. simpl.
  destruct (given sel); simpl.
  - destruct (page_query E p (show_opt sel) (Date_now E (world s)).2)
      as [[e | [el | ]] w1]; simpl;
      [ | destruct (element_textContent E el w1) as [[e | txt] w2]; simpl;
          [ | rewrite now_run; simpl ] | ];
      eexists; (split; [ rewrite <- ?app_assoc; reflexivity | ]);
      (split; [ | intros x ]); simpl; intuition discriminate.
  - destruct (page_content E p (Date_now E (world s)).2) as [[e | html] w1];
      simpl;
      [ | destruct (page_title E p w1) as [[e | title] w2]; simpl;
          [ | destruct (page_url E p w2) as [[e | u] w3]; simpl;
              [ | rewrite now_run; simpl ] ] ];
      eexists; (split; [ rewrite <- ?app_assoc; reflexivity | ]);
      (split; [ | intros x ]); simpl; intuition discriminate.
Qed.

End CommandCalls.

Section MoreHandlers.

Context {W : Type} (E : Env W).

(** X16. On an existing Session a navigate task with a target URL always
    succeeds and records two observations, of the navigate and of the
    screenshot command: the screenshot is taken whatever the navigation
    reported, and the result carries the title of the one, the image of the
    other and the success of the navigation as [navigationSuccess]. *)
Theorem navigate_task_takes_the_screenshot_anyway (task : AgentTask) (s : Sys W) :
  has_session s ->
  task_type task = "navigate" ->
  given (task_targetUrl task) = true ->
  exists r s' navResult screenshotResult calls last,
    executeTask E task s = (inr r, s')
    /\ res_success r = true
    /\ res_observations r = [navResult; screenshotResult]
    /\ reported navResult /\ reported screenshotResult
    /\ res_data r
       = Some (VObj [("url", vstr (task_targetUrl task));
                     ("pageTitle", vstr (obs_pageTitle navResult));
                     ("screenshot", vstr (obs_screenshot screenshotResult));
                     ("navigationSuccess", VBool (obs_success navResult))])
    /\ trace s'
       = (trace s ++ Goto (task_targetUrl task) :: calls
          ++ [Screenshot; last])%list
    /\ (calls = [] \/ calls = [Title] \/ calls = [Title; Url]).
Proof.
  intros Hs Hty Hurl. rewrite executeTask_run.
  assert (handler E task = performNavigation E task) as Hh
    by (unfold handler; rewrite Hty; reflexivity).
  rewrite Hh. unfold performNavigation. rewrite Hurl. simpl.
  set (s0 := entered E task (tick E s)).
  assert (has_session s0) as Hs0 by exact Hs.
  destruct (plain_step_run E (navigate_to (task_targetUrl task)) s0 [] Hs0
              (plain_navigate _)) as (nav & s1 & H1 & C1 & R1 & _ & Hs1).
  destruct (navigate_calls E (task_targetUrl task) s0 Hs0) as (calls & T1 & Hcalls).
  rewrite C1 in T1. simpl in T1.
  destruct (plain_step_run E (command "screenshot") s1 ([] ++ [nav])%list Hs1
              (plain_command "screenshot" ltac:(discriminate) ltac:(discriminate)))
    as (shot & s2 & H2 & C2 & R2 & _ & _).
  pose proof (screenshot_calls E s1 Hs1) as T2. rewrite C2 in T2. simpl in T2.
  unfold bind at 1. rewrite H1. unfold bind at 1. rewrite H2. simpl.
  eexists; eexists; exists nav, shot, calls; eexists.
  split; [ reflexivity | ]. simpl.
  repeat (split; [ first [ reflexivity | assumption ] | ]).
  split; [ | exact Hcalls ].
  rewrite T2, T1. rewrite <- !app_assoc. reflexivity.
Qed.

(** X17. On an existing Session a monitor task with a target URL always
    succeeds with two observations: what the navigate command returned, and
    then, whatever that was, what the extract command returned, by the
    selector of the task when it has one and of the whole page when it has
    none.  The result carries the data of that extraction, absent when the
    extraction failed, under [monitoredData], and as [timestamp] the reading
    of the clock taken after the extraction. *)
Theorem monitor_task_extracts_what_it_watches (task : AgentTask) (s : Sys W) :
  has_session s ->
  task_type task = "monitor" ->
  given (task_targetUrl task) = true ->
  exists r s' navResult extractResult s1 s2 before after,
    executeTask E task s = (inr r, s')
    /\ res_success r = true
    /\ res_observations r = [navResult; extractResult]
    /\ executeCommand E (navigate_to (task_targetUrl task))
         (entered E task (tick E s)) = (inr navResult, s1)
    /\ executeCommand E (extract_from (task_selector task)) s1
       = (inr extractResult, s2)
    /\ reported navResult /\ reported extractResult
    /\ res_data r
       = Some (VObj [("url", vstr (task_targetUrl task));
                     ("monitoredData", vopt (obs_data extractResult));
                     ("timestamp", VNum (clock E s2))])
    /\ trace s'
       = (trace s ++ Goto (task_targetUrl task) :: before
          ++ (if given (task_selector task)
              then Query (show_opt (task_selector task))
              else Content) :: after)%list
    /\ ~ In Content before /\ (forall x, ~ In (Query x) before).
Proof.
  intros Hs Hty Hurl. rewrite executeTask_run.
  assert (handler E task = performMonitoring E task) as Hh
    by (unfold handler; rewrite Hty; reflexivity).
  rewrite Hh. unfold performMonitoring. rewrite Hurl. simpl.
  set (s0 := entered E task (tick E s)).
  assert (has_session s0) as Hs0 by exact Hs.
  destruct (plain_step_run E (navigate_to (task_targetUrl task)) s0 [] Hs0
              (plain_navigate _)) as (nav & s1 & H1 & C1 & R1 & _ & Hs1).
  destruct (navigate_calls E (task_targetUrl task) s0 Hs0) as (calls & T1 & Hcalls).
  rewrite C1 in T1. simpl in T1.
  destruct (plain_step_run E (extract_from (task_selector task)) s1
              ([] ++ [nav])%list Hs1
              (plain_extract _)) as (ext & s2 & H2 & C2 & R2 & _ & _).
  destruct (extract_calls E (task_selector task) s1 Hs1) as (more & T2 & _).
  rewrite C2 in T2. simpl in T2.
  unfold bind at 1. rewrite H1. unfold bind at 1. rewrite H2.
  unfold bind at 1, lift. simpl. rewrite now_run. simpl.
  eexists; eexists; exists nav, ext, s1, s2, calls; eexists.
  split; [ reflexivity | ]. simpl.
  repeat (split; [ first [ reflexivity | assumption ] | ]).
  split.
  - rewrite T2, T1. rewrite <- !app_assoc. reflexivity.
  - destruct Hcalls as [-> | [-> | ->]]; (split; [ | intros x ]); simpl;
      intuition discriminate.
Qed.

End MoreHandlers.

(** * Research *)

Section Research.

Context {W : Type} (E : Env W).

(** a research on the site the task names *)
Lemma performResearch_with_url task (s : Sys W) obs :
  has_session s -> given (task_targetUrl task) = true ->
  exists r s' nav rest calls,
    performResearch E task (s, obs) = (r, (s', (obs ++ nav :: rest)%list))
    /\ trace s' = (trace s ++ Goto (task_targetUrl task) :: calls)%list
    /\ reported nav
    /\ match r with
       | inr result =>
           assoc "url" (fields_of result) = vstr (task_targetUrl task)
       | inl e =>
           research_failed_at E (task_userQuery task)
             (show_opt (task_targetUrl task)) nav rest e
       end.
Proof.
  intros Hs Hurl. unfold performResearch. rewrite Hurl.
  assert (Some (show_opt (task_targetUrl task)) = task_targetUrl task) as Hu
    by (destruct (task_targetUrl task); [ reflexivity | discriminate ]).
  unfold bind at 1. unfold ret at 1. rewrite Hu.
  destruct (plain_step_run E (navigate_to (task_targetUrl task)) s obs Hs
              (plain_navigate _)) as (nav & s1 & H1 & C1 & R1 & _ & Hs1).
  destruct (navigate_calls E (task_targetUrl task) s Hs) as (calls & T1 & _).
  rewrite C1 in T1. simpl in T1.
  unfold bind at 1. rewrite H1.
  destruct (obs_success nav) eqn:Hnav; simpl.
  2:{ exists (inl (JsError ("Failed to navigate to "
                            ++ show_opt (task_targetUrl task)))), s1, nav, [], calls.
      split; [ reflexivity | ]. split; [ exact T1 | ]. split; [ exact R1 | ].
      left. auto. }
  destruct (plain_step_run E (extract_from None) s1 (obs ++ [nav])%list Hs1
              (plain_extract _)) as (ext & s2 & H2 & C2 & R2 & _ & _).
  destruct (extract_calls E None s1 Hs1) as (more & T2 & _).
  rewrite C2 in T2. simpl in T2.
  unfold bind at 1. rewrite H2.
  destruct (obs_success ext) eqn:Hext; simpl.
  2:{ exists (inl (JsError "Failed to extract page content")), s2, nav, [ext].
      eexists.
      split; [ rewrite <- app_assoc; reflexivity | ].
      split; [ rewrite T2, T1, <- app_assoc; reflexivity | ].
      split; [ exact R1 | ]. right. left. exists ext. auto. }
  unfold bind, lift, ask, call. simpl. fold research_context.
  destruct (generateResponse E
              (researchPrompt (task_userQuery task) (obs_content ext))
              research_context (world s2)) as [[e | answer] w] eqn:Hask; simpl.
  - exists (inl e); eexists; exists nav, [ext]; eexists.
    split; [ rewrite <- app_assoc; reflexivity | ]. simpl.
    split; [ rewrite T2, T1, <- !app_assoc; reflexivity | ].
    split; [ exact R1 | ]. right. right. exists ext, (world s2).
    rewrite Hask. auto.
  - eexists (inr _); eexists; exists nav, [ext]; eexists.
    split; [ rewrite <- app_assoc; reflexivity | ]. simpl.
    split; [ rewrite T2, T1, <- !app_assoc; reflexivity | ].
    split; [ exact R1 | ].
    destruct (task_targetUrl task); [ reflexivity | discriminate ].
Qed.

(** a research on no named site asks for one, and goes on as on that one *)
Lemma performResearch_without_url task (s : Sys W) obs answer w :
  given (task_targetUrl task) = false ->
  generateResponse E (site_question task) site_context (world s)
  = (inr answer, w) ->
  performResearch E task (s, obs)
  = performResearch E
      (set_targetUrl (extractUrlFromResponse (resp_text answer)) task)
      (site_chosen task (extractUrlFromResponse (resp_text answer)) w s, obs).
Proof.
  intros Hurl Hask.
  pose proof (well_formed_url_given _ (extractUrl_well_formed (resp_text answer)))
    as Hgiven.
  unfold performResearch at 2. simpl task_targetUrl. rewrite Hgiven.
  unfold performResearch. rewrite Hurl.
  unfold bind at 1. unfold bind at 1. unfold lift at 1, ask, call.
  simpl fst. fold (site_question task). fold site_context. rewrite Hask.
  reflexivity.
Qed.

(** X18. A research task that names no site first asks the language model
    which site to use, with or without a Session.  When that request fails,
    the task fails with the message of the failure and no observation,
    nothing having been asked of the browser.  When it is answered and a
    Session exists, the next call sends the browser to the URL that
    [extractUrlFromResponse] takes from the answer: the first http or https
    URL in it, or else one of two fixed sites; and a navigation that reports
    a failure fails the task with 'Failed to navigate to' and that URL. *)
Theorem research_asks_which_site (task : AgentTask) (s : Sys W) :
  task_type task = "research" ->
  given (task_targetUrl task) = false ->
  exists r s',
    executeTask E task s = (inr r, s')
    /\ match generateResponse E (site_question task) site_context
               (world (entered E task (tick E s))) with
       | (inl e, _) =>
           res_success r = false
           /\ res_summary r = "Task failed: " ++ message_of e
           /\ res_observations r = []
           /\ trace s'
              = (trace s ++ [GenerateResponse (site_question task) site_context])%list
       | (inr answer, _) =>
           has_session s ->
           exists nav rest calls,
             res_observations r = nav :: rest
             /\ trace s'
                = (trace s
                   ++ GenerateResponse (site_question task) site_context
                   :: Goto (Some (extractUrlFromResponse (resp_text answer)))
                   :: calls)%list
             /\ (obs_success nav = false ->
                 res_success r = false
                 /\ res_summary r
                    = "Task failed: Failed to navigate to "
                      ++ extractUrlFromResponse (resp_text answer))
       end.
Proof.
  intros Hty Hurl. rewrite executeTask_run.
  assert (handler E task = performResearch E task) as Hh
    by (unfold handler; rewrite Hty; reflexivity).
  rewrite Hh. set (s0 := entered E task (tick E s)).
  destruct (generateResponse E (site_question task) site_context (world s0))
    as [[e | answer] w] eqn:Hask.
  - assert (performResearch E task (s0, [])
            = (inl e,
               ({| hb := hb s0; ag := ag s0; timers := timers s0;
                   next_timer := next_timer s0;
                   trace := (trace s0
                             ++ [GenerateResponse (site_question task)
                                   site_context])%list;
                   world := w |}, []))) as Hrun.
    { unfold performResearch. rewrite Hurl.
      unfold bind at 1. unfold bind at 1. unfold lift at 1, ask, call.
      simpl fst. fold (site_question task). fold site_context. rewrite Hask.
      reflexivity. }
    rewrite Hrun. eexists; eexists. split; [ reflexivity | ]. simpl.
    repeat split.
  - rewrite (performResearch_without_url task s0 [] answer w Hurl Hask).
    set (u := extractUrlFromResponse (resp_text answer)).
    assert (given (task_targetUrl (set_targetUrl u task)) = true) as Hgiven
      by exact (well_formed_url_given _ (extractUrl_well_formed (resp_text answer))).
    destruct (performResearch E (set_targetUrl u task)
                (site_chosen task u w s0, [])) as [out [s2 obs2]] eqn:Hrun.
    assert (has_session s ->
            exists nav rest calls,
              obs2 = nav :: rest
              /\ trace s2
                 = (trace s
                    ++ GenerateResponse (site_question task) site_context
                    :: Goto (Some u) :: calls)%list
              /\ (obs_success nav = false ->
                  out = inl (JsError ("Failed to navigate to " ++ u)))) as Hpost.
    { intros Hs.
      assert (has_session (site_chosen task u w s0)) as Hs1 by exact Hs.
      destruct (performResearch_with_url (set_targetUrl u task)
                  (site_chosen task u w s0) [] Hs1 Hgiven)
        as (r & s2' & nav & rest & calls & Hrun' & Htr & _ & Hr).
      rewrite Hrun in Hrun'. injection Hrun' as -> -> ->. simpl in Htr.
      exists nav, rest, calls. split; [ reflexivity | ].
      split; [ rewrite Htr, <- app_assoc; reflexivity | ].
      intros Hnav. destruct r as [e | result].
      - destruct Hr as [(_ & _ & ->) | [(ext & _ & Hok & _) | (ext & w' & _ & Hok & _)]];
          [ reflexivity | congruence | congruence ].
      - destruct (performResearch_returns E _ _ _ result Hrun)
          as (nav' & ext' & Hobs & Hn & _).
        simpl in Hobs. injection Hobs as <- _. congruence. }
    destruct out as [e | result].
    + eexists; eexists. split; [ reflexivity | ]. intros Hs.
      destruct (Hpost Hs) as (nav & rest & calls & -> & Htr & Hfail).
      exists nav, rest, calls. simpl. split; [ reflexivity | ].
      split; [ exact Htr | ].
      intros Hnav. pose proof (Hfail Hnav) as Heq. injection Heq as ->.
      split; reflexivity.
    + eexists; eexists. split; [ reflexivity | ]. intros Hs.
      destruct (Hpost Hs) as (nav & rest & calls & -> & Htr & Hfail).
      exists nav, rest; eexists. simpl. split; [ reflexivity | ].
      split; [ rewrite Htr, <- !app_assoc; reflexivity | ].
      intros Hnav. discriminate (Hfail Hnav).
Qed.

(** X19. A research task on a named site, on an existing Session, records
    the observation of its navigation whatever happens next.  When it fails
    it does so at one of three steps, and the observations made up to that
    step are returned with the result: a failed navigation ('Failed to
    navigate to <url>', one observation), a failed extraction ('Failed to
    extract page content', two observations) or an analysis that the
    gateway did not answer (the message of that error, two observations). *)
Theorem failed_research_keeps_its_observations (task : AgentTask) (s : Sys W) :
  has_session s ->
  task_type task = "research" ->
  given (task_targetUrl task) = true ->
  exists r s' nav rest,
    executeTask E task s = (inr r, s')
    /\ res_observations r = nav :: rest
    /\ reported nav
    /\ (res_success r = false ->
        exists e,
          res_summary r = "Task failed: " ++ message_of e
          /\ res_data r = None
          /\ research_failed_at E (task_userQuery task)
               (show_opt (task_targetUrl task)) nav rest e).
Proof.
  intros Hs Hty Hurl. rewrite executeTask_run.
  assert (handler E task = performResearch E task) as Hh
    by (unfold handler; rewrite Hty; reflexivity).
  rewrite Hh.
  destruct (performResearch_with_url task (entered E task (tick E s)) []
              (entered_session E task s Hs) Hurl)
    as (r & s1 & nav & rest & calls & Hrun & _ & Rnav & Hr).
  rewrite Hrun. destruct r as [e | result].
  - eexists; eexists; exists nav, rest. split; [ reflexivity | ]. simpl.
    split; [ reflexivity | ]. split; [ exact Rnav | ].
    intros _. exists e. auto.
  - eexists; eexists; exists nav, rest. split; [ reflexivity | ]. simpl.
    split; [ reflexivity | ]. split; [ exact Rnav | ]. discriminate.
Qed.

End Research.

(** * Image tasks *)

Section ImageTasks.

Context {W : Type} (E : Env W).

Lemma performImageGeneration_outcome task (s : Sys W) obs :
  exists r s' rest,
    performImageGeneration E task (s, obs) = (r, (s', (obs ++ rest)%list))
    /\ only_calls_made s s'
    /\ match r with
       | inr _ =>
           exists o1 o2,
             rest = [o1; o2] /\ obs_success o1 = true /\ obs_success o2 = true
       | inl e =>
           rest = []
           \/ (exists o1, rest = [o1] /\ obs_success o1 = true)
           \/ (exists o1 o2,
                 rest = [o1; o2] /\ obs_success o1 = true
                 /\ obs_success o2 = false
                 /\ e = JsError ("Image generation failed: "
                                 ++ show_opt (obs_error o2)))
       end.
Proof.
  unfold performImageGeneration, try_catch, bind, lift, ask, call, push, now.
  simpl.
  destruct (generateResponse E _ _ (world s)) as [[e | resp] w]; simpl.
  { exists (inl e); eexists; exists [].
    split; [ rewrite app_nil_r; reflexivity | ].
    split; [ repeat split | now left ]. }
  destruct (Date_now E w) as [t1 w0]. simpl.
  destruct (generateImage E (buildImageRequest E task (resp_text resp)) w0)
    as [[e | imageResult] w1]; simpl.
  { exists (inl e); eexists; eexists [_].
    split; [ reflexivity | ].
    split; [ repeat split | right; left; eexists; split; reflexivity ]. }
  destruct (Date_now E w1) as [t2 w2]. simpl.
  destruct (img_success imageResult) eqn:Hok; simpl.
  - eexists (inr _); eexists; eexists [_; _].
    split; [ rewrite <- (app_assoc obs); reflexivity | ].
    split; [ repeat split | ].
    eexists; eexists. split; [ reflexivity | split; reflexivity ].
  - eexists (inl _); eexists; eexists [_; _].
    split; [ rewrite <- (app_assoc obs); reflexivity | ].
    split; [ repeat split | ].
    right; right. eexists; eexists.
    split; [ reflexivity | ]. split; [ reflexivity | ].
    split; reflexivity.
Qed.

(** X20. An image task asks nothing of the browser: with or without a
    Session, the controller, its stream and its timers are as before.  It
    succeeds with two successful observations, of the analysis and of the
    generation.  It fails with no observation when the analysis request
    throws, with the one of the analysis when the image request throws, and
    with both when the image generator reports a failure, the summary being
    then 'Task failed: Image generation failed: ' and the reported error. *)
Theorem image_task_leaves_the_browser_alone (task : AgentTask) (s : Sys W) :
  task_type task = "generate_image" ->
  exists r s',
    executeTask E task s = (inr r, s')
    /\ hb s' = hb s /\ timers s' = timers s /\ next_timer s' = next_timer s
    /\ (res_success r = true ->
        exists o1 o2,
          res_observations r = [o1; o2]
          /\ obs_success o1 = true /\ obs_success o2 = true)
    /\ (res_success r = false ->
        res_observations r = []
        \/ (exists o1, res_observations r = [o1] /\ obs_success o1 = true)
        \/ (exists o1 o2,
              res_observations r = [o1; o2]
              /\ obs_success o1 = true /\ obs_success o2 = false
              /\ res_summary r
                 = "Task failed: Image generation failed: "
                   ++ show_opt (obs_error o2))).
Proof.
  intros Hty. rewrite executeTask_run.
  assert (handler E task = performImageGeneration E task) as Hh
    by (unfold handler; rewrite Hty; reflexivity).
  rewrite Hh.
  destruct (performImageGeneration_outcome task (entered E task (tick E s)) [])
    as (r & s1 & rest & Hrun & (Hb & _ & Ht & Hn) & Hr).
  rewrite Hrun. simpl app. destruct r as [e | result].
  - eexists; eexists. split; [ reflexivity | ]. simpl.
    split; [ exact Hb | ]. split; [ exact Ht | ]. split; [ exact Hn | ].
    split; [ discriminate | ]. intros _.
    destruct Hr as [-> | [(o1 & -> & H1) | (o1 & o2 & -> & H1 & H2 & ->)]].
    + now left.
    + right; left. exists o1. auto.
    + right; right. exists o1, o2. auto.
  - eexists; eexists. split; [ reflexivity | ]. simpl.
    split; [ exact Hb | ]. split; [ exact Ht | ]. split; [ exact Hn | ].
    split; [ intros _; exact Hr | discriminate ].
Qed.

End ImageTasks.

(** * The agent API route (app/api/agent/route.ts)

    The route keeps one module-level flag, [agentInitialized], beside the
    agent.  A request is the outcome of [await request.json()] followed by
    the destructuring of [action] and [task]: a body that cannot be read is
    an exception.  The body is any JSON text, so that [action] is any value,
    [VUndef] when the body has no such key; [task] is absent or an object of
    the interface.  [suffix] stands for the value of
    [Math.random().toString(36).substr(2, 9)]. *)

Record TaskInput : Type := {
  in_type : string;
  in_description : string;
  in_userQuery : string;
  in_targetUrl : option string;
  in_selector : option string;
  in_parameters : option JsVal;
  in_enableLiveView : option bool
}.

Record AgentRequest : Type := {
  rq_action : JsVal;
  rq_task : option TaskInput
}.

(** what [NextResponse.json(body, { status })] answers; an absent key is
    [None] *)
Record ApiResponse : Type := {
  api_status : Z;
  api_success : bool;
  api_error : option string;
  api_details : option string;
  api_message : option string;
  api_state : option AgentState;
  api_agentState : option AgentState;
  api_browserState : option HummObservation;
  api_result : option AgentResult;
  api_agentInitialized : option bool
}.

Record Server (W : Type) : Type := {
  sys : Sys W;
  agentInitialized : bool
}.

Arguments sys {W}.
Arguments agentInitialized {W}.

Definition api_failure (status : Z) (error : string) (details : option string)
  : ApiResponse :=
  {| api_status := status; api_success := false; api_error := Some error;
     api_details := details; api_message := None; api_state := None;
     api_agentState := None; api_browserState := None; api_result := None;
     api_agentInitialized := None |}.

Definition api_ok : ApiResponse :=
  {| api_status := 200; api_success := true; api_error := None;
     api_details := None; api_message := None; api_state := None;
     api_agentState := None; api_browserState := None; api_result := None;
     api_agentInitialized := None |}.

Definition api_said (message : string) (state : option AgentState) : ApiResponse :=
  {| api_status := 200; api_success := true; api_error := None;
     api_details := None; api_message := Some message; api_state := state;
     api_agentState := None; api_browserState := None; api_result := None;
     api_agentInitialized := None |}.

Definition api_status_report (initialized : option bool) (state : AgentState)
    (browserState : HummObservation) : ApiResponse :=
  {| api_status := 200; api_success := true; api_error := None;
     api_details := None; api_message := None; api_state := None;
     api_agentState := Some state; api_browserState := Some browserState;
     api_result := None; api_agentInitialized := initialized |}.

Definition api_executed (result : AgentResult) : ApiResponse :=
  {| api_status := 200; api_success := true; api_error := None;
     api_details := None; api_message := None; api_state := None;
     api_agentState := None; api_browserState := None;
     api_result := Some result; api_agentInitialized := None |}.

Definition api_not_initialized : ApiResponse :=
  {| api_status := 200; api_success := true; api_error := None;
     api_details := None; api_message := Some "AI Agent not initialized";
     api_state := None; api_agentState := None; api_browserState := None;
     api_result := None; api_agentInitialized := Some false |}.

(** [action === a], for a string [a] *)
Definition is_action (action : JsVal) (a : string) : bool :=
  match action with
  | VStr x => String.eqb x a
  | _ => false
  end.

(** [`${v}`] *)
Definition template {W} (E : Env W) (v : JsVal) : JsExn + string :=
  match v with
  | VStr x => inr x
  | other => String_of E other
  end.

(** the five actions that the route serves *)
Definition served_actions : list string :=
  ["initialize"; "status"; "execute"; "stop_stream"; "shutdown"].

Definition is_served (action : JsVal) : bool :=
  existsb (is_action action) served_actions.

(** the task the route hands to the agent *)
Definition agentTask_of (id : string) (task : TaskInput) : AgentTask :=
  {| task_id := id;
     task_type := in_type task;
     task_description := in_description task;
     task_userQuery := in_userQuery task;
     task_targetUrl := in_targetUrl task;
     task_selector := in_selector task;
     task_parameters := in_parameters task;
     task_enableLiveView := in_enableLiveView task |}.

Definition task_id_of (t : Z) (suffix : string) : string :=
  "task_" ++ show_num t ++ "_" ++ suffix.

Section Route.

Context {W : Type} (E : Env W).

Local Abbreviation R := (Prog (Server W)).

Definition onAgent {A} (m : Prog (Sys W) A) : R A :=
  fun v => let (r, s') := m (sys v) in
           (r, {| sys := s'; agentInitialized := agentInitialized v |}).

Definition getFlag : R bool := fun v => (inr (agentInitialized v), v).

Definition setFlag (b : bool) : R unit :=
  fun v => (inr tt, {| sys := sys v; agentInitialized := b |}).

(** the [switch (action)] of [POST] *)
Definition serve (rq : AgentRequest) (suffix : string) : R ApiResponse :=
  let action := rq_action rq in
  if is_action action "initialize" then
    flag <- getFlag ;;
    when_ (negb flag) (onAgent (Agent_initialize E) ;;; setFlag true) ;;;
    initState <- onAgent (@getState W) ;;
    ret (api_said "AI Agent initialized successfully" (Some initState))
  else if is_action action "status" then
    state <- onAgent (@getState W) ;;
    browserState <- onAgent (getBrowserState E) ;;
    ret (api_status_report None state browserState)
  else if is_action action "execute" then
    match rq_task rq with
    | None => ret (api_failure 400 "Task is required for execute action" None)
    | Some task =>
        t <- onAgent (now E) ;;
        result <- onAgent (executeTask E
                             (agentTask_of (task_id_of t suffix) task)) ;;
        ret (api_executed result)
    end
  else if is_action action "stop_stream" then
    onAgent (stopLiveStream E) ;;;
    ret (api_said "Live stream stopped successfully" None)
  else if is_action action "shutdown" then
    onAgent (shutdown E) ;;;
    setFlag false ;;;
    ret (api_said "AI Agent shutdown successfully" None)
  else
    match template E action with
    | inl error => throw error
    | inr text => ret (api_failure 400 ("Unknown action: " ++ text) None)
    end.

Definition POST (request : JsExn + AgentRequest) (suffix : string)
  : R ApiResponse :=
  try_catch
    (rq <- match request with
           | inl e => throw e
           | inr rq => ret rq
           end ;;
     flag <- getFlag ;;
     refused <-
       (if (negb flag && negb (is_action (rq_action rq) "shutdown"))%bool then
          try_catch
            (onAgent (Agent_initialize E) ;;;
             setFlag true ;;;
             ret None)
            (fun error =>
               ret (Some (api_failure 500 "Failed to initialize AI Agent"
                            (Some (message_of error)))))
        else ret None) ;;
     match refused with
     | Some response => ret response
     | None => serve rq suffix
     end)
    (fun error =>
       ret (api_failure 500 "Internal server error" (Some (message_of error)))).

Definition GET : R ApiResponse :=
  try_catch
    (flag <- getFlag ;;
     if negb flag then ret api_not_initialized
     else
       state <- onAgent (@getState W) ;;
       browserState <- onAgent (getBrowserState E) ;;
       ret (api_status_report (Some true) state browserState))
    (fun error =>
       ret (api_failure 500 "Failed to get agent status"
              (Some (message_of error)))).

End Route.

(** a response whose HTTP status and [success] key agree *)
Definition sound_answer (resp : ApiResponse) : Prop :=
  (api_status resp = 200 /\ api_success resp = true /\ api_error resp = None)
  \/ ((api_status resp = 400 \/ api_status resp = 500)
      /\ api_success resp = false /\ api_error resp <> None).

(** the flag of the route tells the truth *)
Definition flag_means_session {W} (v : Server W) : Prop :=
  agentInitialized v = true -> has_session (sys v).

(** the lazy initialization at the head of [POST]: the server on which the
    action is served, or the error that refuses the request *)
Definition gate {W} (E : Env W) (rq : AgentRequest) (v : Server W)
  : JsExn + Server W :=
  if (negb (agentInitialized v)
      && negb (is_action (rq_action rq) "shutdown"))%bool
  then
    match Agent_initialize E (sys v) with
    | (inl e, _) => inl e
    | (inr _, s1) => inr {| sys := s1; agentInitialized := true |}
    end
  else inr v.

Section RouteFacts.

Context {W : Type} (E : Env W).

Lemma POST_run rq suffix (v : Server W) :
  POST E (inr rq) suffix v
  = match gate E rq v with
    | inl e =>
        (inr (api_failure 500 "Failed to initialize AI Agent"
                (Some (message_of e))),
         {| sys := snd (Agent_initialize E (sys v)); agentInitialized := false |})
    | inr v1 =>
        try_catch (serve E rq suffix)
          (fun error =>
             ret (api_failure 500 "Internal server error"
                    (Some (message_of error)))) v1
    end.
Proof.
  destruct v as [s flag]. unfold POST, gate, try_catch at 1. unfold bind at 1.
  unfold ret at 1. unfold bind at 1. unfold getFlag at 1. simpl.
  destruct flag; simpl.
  - unfold bind, ret. unfold try_catch. reflexivity.
  - destruct (is_action (rq_action rq) "shutdown"); simpl.
    + unfold bind, ret. unfold try_catch. reflexivity.
    + unfold bind at 1. unfold try_catch at 1. unfold bind at 1.
      unfold onAgent at 1. simpl.
      destruct (Agent_initialize E s) as [[e | []] s1]; simpl.
      * reflexivity.
      * unfold try_catch. reflexivity.
Qed.

Lemma gate_flag rq (v v1 : Server W) :
  gate E rq v = inr v1 ->
  is_action (rq_action rq) "shutdown" = false ->
  agentInitialized v1 = true.
Proof.
  unfold gate. intros H Hsh. rewrite Hsh in H.
  destruct (agentInitialized v) eqn:Hflag; simpl in H.
  - injection H as <-. exact Hflag.
  - destruct (Agent_initialize E (sys v)) as [[e | []] s1]; [ discriminate | ].
    injection H as <-. reflexivity.
Qed.

Lemma Agent_initialize_session (s s1 : Sys W) u :
  Agent_initialize E s = (inr u, s1) -> has_session s1.
Proof.
  unfold Agent_initialize, try_catch, bind, modA.
  destruct (HummBrowser_initialize E s) as [[e | []] s0] eqn:Hinit; simpl;
    [ discriminate | ].
  intros H. injection H as _ <-. exact (initialize_session E s s0 Hinit).
Qed.

Lemma gate_keeps_flag_meaning rq (v v1 : Server W) :
  flag_means_session v -> gate E rq v = inr v1 -> flag_means_session v1.
Proof.
  unfold gate, flag_means_session. intros Hv H.
  destruct (negb (agentInitialized v)
            && negb (is_action (rq_action rq) "shutdown"))%bool.
  - destruct (Agent_initialize E (sys v)) as [[e | []] s1] eqn:Hinit;
      [ discriminate | ].
    injection H as <-. intros _. exact (Agent_initialize_session _ _ _ Hinit).
  - injection H as <-. exact Hv.
Qed.

Lemma getCurrentState_returns (s : Sys W) :
  exists o s', getCurrentState E s = (inr o, s') /\ only_calls_made s s'.
Proof.
  unfold getCurrentState, bind, getB. destruct (page (hb s)) as [p | ].
  - unfold try_catch, bind, call, getB. simpl.
    destruct (page_title E p (world s)) as [[e | title] w1]; simpl;
      [ | destruct (page_url E p w1) as [[e | u] w2]; simpl;
          [ | destruct (page_viewportSize E p w2) as [[e | vp] w3]; simpl ] ];
      rewrite now_run; simpl;
      (eexists; eexists; split; [ reflexivity | repeat split ]).
  - rewrite now_run. simpl. eexists; eexists. split; [ reflexivity | repeat split ].
Qed.

Lemma is_action_served action a :
  In a served_actions -> is_action action a = true -> is_served action = true.
Proof.
  intros Hin Ha. unfold is_served. apply existsb_exists. exists a. auto.
Qed.

Lemma is_action_only action a b :
  is_action action a = true -> a <> b -> is_action action b = false.
Proof.
  destruct action; try discriminate. simpl. intros Ha Hab.
  apply String.eqb_eq in Ha. subst. now apply String.eqb_neq.
Qed.

(** what the [switch] of [POST] comes to once the agent is initialized: an
    answer, or the exception of the template of the default branch *)
Lemma serve_run rq suffix (v : Server W) :
  (is_action (rq_action rq) "shutdown" = false -> agentInitialized v = true) ->
  exists outcome v',
    serve E rq suffix v = (outcome, v')
    /\ (flag_means_session v -> flag_means_session v')
    /\ (is_action (rq_action rq) "shutdown" = true ->
        agentInitialized v' = false)
    /\ match outcome with
       | inr resp =>
           sound_answer resp
           /\ api_error resp <> Some "Internal server error"
           /\ (api_status resp = 400 ->
               v' = v
               /\ (is_action (rq_action rq) "execute" = true /\ rq_task rq = None
                   \/ is_served (rq_action rq) = false
                      /\ exists text,
                           template E (rq_action rq) = inr text
                           /\ api_error resp = Some ("Unknown action: " ++ text)))
       | inl e =>
           v' = v /\ is_served (rq_action rq) = false
           /\ template E (rq_action rq) = inl e
       end.
Proof.
  intros Hflag. destruct v as [s flag]. simpl in Hflag. unfold serve.
  destruct (is_action (rq_action rq) "initialize") eqn:Hinit.
  { assert (is_action (rq_action rq) "shutdown" = false) as Hsh
      by (apply (is_action_only _ _ _ Hinit); discriminate).
    rewrite (Hflag Hsh). unfold bind, getFlag, when_, onAgent, getState, getA.
    simpl. eexists; eexists. split; [ reflexivity | ].
    split; [ auto | ]. split; [ congruence | ].
    split; [ left; repeat split | ]. split; discriminate. }
  destruct (is_action (rq_action rq) "status") eqn:Hstatus.
  { destruct (getCurrentState_returns s) as (o & s' & Hrun & Hsame).
    unfold bind, onAgent, getState, getBrowserState, getA. simpl. rewrite Hrun.
    simpl. eexists; eexists. split; [ reflexivity | ].
    split; [ | split ].
    - unfold flag_means_session. simpl. intros Hv Hf.
      exact (only_calls_made_session s s' Hsame (Hv Hf)).
    - intros Hsh.
      rewrite (is_action_only _ "status" "shutdown" Hstatus) in Hsh;
        discriminate.
    - split; [ left; repeat split | ]. split; discriminate. }
  destruct (is_action (rq_action rq) "execute") eqn:Hexec.
  { assert (is_action (rq_action rq) "shutdown" = false) as Hsh
      by (apply (is_action_only _ _ _ Hexec); discriminate).
    destruct (rq_task rq) as [task | ].
    - unfold bind at 1. unfold onAgent at 1. simpl. rewrite now_run.
      unfold bind, onAgent. simpl. rewrite executeTask_run.
      destruct (handler E _ _) as [[e | result] [s1 obs]] eqn:Hh; simpl;
        (eexists; eexists; split; [ reflexivity | ]);
        (split; [ | split; [ congruence | ] ]);
        try (split; [ left; repeat split | split; discriminate ]);
        unfold flag_means_session; simpl; intros Hv Hf;
        pose proof (executeTask_same_session E
                      (agentTask_of (task_id_of (clock E s) suffix) task)
                      (tick E s) (Hv Hf)) as [Hs' _];
        rewrite executeTask_run, Hh in Hs'; exact Hs'.
    - simpl. eexists; eexists. split; [ reflexivity | ].
      split; [ auto | ]. split; [ congruence | ].
      split; [ right; repeat split; [ now left | discriminate ] | ].
      split; [ discriminate | ]. intros _. split; [ reflexivity | now left ]. }
  destruct (is_action (rq_action rq) "stop_stream") eqn:Hstop.
  { destruct (stopLiveStream_run E s) as (s' & Hrun & _).
    unfold bind, onAgent. simpl. rewrite Hrun. simpl.
    eexists; eexists. split; [ reflexivity | ].
    split; [ | split ].
    - unfold flag_means_session. simpl. intros Hv Hf.
      pose proof (stopLiveStream_same_session E s (Hv Hf)) as [Hs' _].
      rewrite Hrun in Hs'. exact Hs'.
    - intros Hsh.
      rewrite (is_action_only _ "stop_stream" "shutdown" Hstop) in Hsh;
        discriminate.
    - split; [ left; repeat split | ]. split; discriminate. }
  destruct (is_action (rq_action rq) "shutdown") eqn:Hsh.
  { unfold bind, onAgent, setFlag. simpl. rewrite shutdown_run. simpl.
    eexists; eexists. split; [ reflexivity | ].
    split; [ unfold flag_means_session; simpl; discriminate | ].
    split; [ reflexivity | ].
    split; [ left; repeat split | ]. split; discriminate. }
  assert (is_served (rq_action rq) = false) as Hnone
    by (unfold is_served; simpl; rewrite Hinit, Hstatus, Hexec, Hstop, Hsh;
        reflexivity).
  destruct (template E (rq_action rq)) as [e | text] eqn:Htext; simpl.
  - eexists; eexists. split; [ reflexivity | ].
    split; [ auto | ]. split; [ discriminate | ]. auto.
  - eexists; eexists. split; [ reflexivity | ].
    split; [ auto | ]. split; [ discriminate | ].
    split; [ right; repeat split; [ now left | discriminate ] | ].
    split; [ simpl; intros H; injection H as H; discriminate | ].
    intros _. split; [ reflexivity | ]. right. split; [ exact Hnone | ].
    exists text. auto.
Qed.

End RouteFacts.

Section RouteTheorems.

Context {W : Type} (E : Env W).

(** X21. [POST] always answers.  The answer is 200 with [success] true, or
    400 or 500 with [success] false and an error.  It is the 500 'Internal
    server error' in two cases only: the body of the request could not be
    read; or the agent is initialized, the action is none of the five that
    the route serves, and the conversion of the action to a string, for the
    message 'Unknown action: ...', throws.  Once the agent is initialized,
    nothing else that the route calls throws.  A 400 leaves the server as
    the lazy initialization left it. *)
Theorem POST_always_answers (request : JsExn + AgentRequest) (suffix : string)
    (v : Server W) :
  exists resp v',
    POST E request suffix v = (inr resp, v')
    /\ sound_answer resp
    /\ (api_error resp = Some "Internal server error"
        <-> (exists e, request = inl e)
            \/ (exists rq e,
                  request = inr rq
                  /\ gate E rq v = inr v'
                  /\ is_served (rq_action rq) = false
                  /\ template E (rq_action rq) = inl e
                  /\ api_details resp = Some (message_of e)))
    /\ (api_status resp = 400 ->
        exists rq, request = inr rq /\ gate E rq v = inr v').
Proof.
  destruct request as [e | rq].
  - eexists; eexists. split; [ reflexivity | ].
    split; [ right; repeat split; [ now right | discriminate ] | ].
    split; [ split; [ intros _; left; now exists e | reflexivity ]
           | discriminate ].
  - rewrite POST_run. destruct (gate E rq v) as [e | v1] eqn:Hgate.
    + eexists; eexists. split; [ reflexivity | ].
      split; [ right; repeat split; [ now right | discriminate ] | ].
      split; [ | discriminate ].
      split; [ discriminate | ].
      intros [[x Hx] | (rq' & x & Hrq & Hg & _)]; [ discriminate | ].
      injection Hrq as <-. rewrite Hgate in Hg. discriminate.
    + destruct (serve_run E rq suffix v1 (gate_flag E rq v v1 Hgate))
        as (outcome & v' & Hrun & _ & _ & Hout).
      unfold try_catch. rewrite Hrun. destruct outcome as [e | resp].
      * destruct Hout as (-> & Hnone & Htext).
        eexists; eexists. split; [ reflexivity | ].
        split; [ right; repeat split; [ now right | discriminate ] | ].
        split; [ | discriminate ].
        split; [ | reflexivity ].
        intros _. right. exists rq, e. auto.
      * destruct Hout as (Hsound & Hint & Hbad).
        exists resp, v'. split; [ reflexivity | ]. split; [ exact Hsound | ].
        split.
        -- split; [ contradiction | ].
           intros [[x Hx] | (rq' & x & Hrq & Hg & Hnone & Htext & _)];
             [ discriminate | ].
           injection Hrq as <-.
           exfalso. revert Hrun Hnone Htext. clear. intros Hrun Hnone Htext.
           unfold serve in Hrun. unfold is_served in Hnone. simpl in Hnone.
           repeat match type of Hnone with
                  | (?a || _)%bool = false =>
                      let H := fresh in
                      apply orb_false_elim in Hnone; destruct Hnone as [H Hnone];
                      rewrite H in Hrun
                  end.
           rewrite Htext in Hrun. discriminate.
        -- intros H400. exists rq. destruct (Hbad H400) as [-> _]. auto.
Qed.

(** X22. While [DISABLE_BROWSER_AUTOMATION] is 'true' and the agent is not
    initialized, every request but a shutdown, whatever its action, is
    answered 500 'Failed to initialize AI Agent' with the details 'Browser
    automation is disabled in production'; nothing is run and the server is
    left as it was. *)
Theorem POST_refuses_when_automation_is_disabled (rq : AgentRequest)
    (suffix : string) (v : Server W) :
  DISABLE_BROWSER_AUTOMATION E (world (sys v)) = true ->
  agentInitialized v = false ->
  is_action (rq_action rq) "shutdown" = false ->
  POST E (inr rq) suffix v
  = (inr (api_failure 500 "Failed to initialize AI Agent"
            (Some "Browser automation is disabled in production")), v).
Proof.
  intros Hd Hflag Hsh. rewrite POST_run. unfold gate. rewrite Hflag, Hsh. simpl.
  assert (Agent_initialize E (sys v)
          = (inl (JsError "Browser automation is disabled in production"), sys v))
    as Hinit.
  { unfold Agent_initialize, try_catch, bind, HummBrowser_initialize.
    rewrite Hd. reflexivity. }
  rewrite Hinit. destruct v as [s flag]. simpl in *. subst flag. reflexivity.
Qed.

(** X23. The flag of the route tells the truth: if a Session exists
    whenever [agentInitialized] is true, then the same holds after any
    [POST] and after [GET]. *)
Theorem route_flag_means_session (v : Server W) :
  flag_means_session v ->
  (forall request suffix,
     flag_means_session (snd (POST E request suffix v)))
  /\ flag_means_session (snd (GET E v)).
Proof.
  intros Hv. split.
  - intros [e | rq] suffix; [ exact Hv | ]. rewrite POST_run.
    destruct (gate E rq v) as [e | v1] eqn:Hgate.
    + unfold flag_means_session. simpl. discriminate.
    + destruct (serve_run E rq suffix v1 (gate_flag E rq v v1 Hgate))
        as (outcome & v' & Hrun & Hkeep & _).
      unfold try_catch. rewrite Hrun.
      destruct outcome; simpl;
        exact (Hkeep (gate_keeps_flag_meaning E rq v v1 Hv Hgate)).
  - destruct v as [s flag]. unfold GET, try_catch, bind, getFlag. simpl.
    destruct flag; simpl; [ | exact Hv ].
    destruct (getCurrentState_returns E s) as (o & s' & Hrun & Hsame).
    unfold onAgent, getState, getBrowserState, getA. simpl. rewrite Hrun. simpl.
    intros _. exact (only_calls_made_session s s' Hsame (Hv eq_refl)).
Qed.

(** X24. An 'execute' request on an initialized agent is answered 400
    'Task is required for execute action' when it carries no task, the
    server being untouched.  When it carries one, the agent runs it under the
    id task_<clock reading>_<suffix> and the answer is 200 with [success]
    true and the AgentResult, whether the task succeeded or failed. *)
Theorem POST_execute_answers_200_whatever_the_task_did (rq : AgentRequest)
    (suffix : string) (v : Server W) :
  agentInitialized v = true ->
  rq_action rq = VStr "execute" ->
  match rq_task rq with
  | None =>
      POST E (inr rq) suffix v
      = (inr (api_failure 400 "Task is required for execute action" None), v)
  | Some task =>
      exists result s',
        executeTask E (agentTask_of (task_id_of (clock E (sys v)) suffix) task)
          (tick E (sys v)) = (inr result, s')
        /\ POST E (inr rq) suffix v
           = (inr (api_executed result),
              {| sys := s'; agentInitialized := true |})
        /\ res_taskId result = task_id_of (clock E (sys v)) suffix
        /\ currentTask (ag s') = None
  end.
Proof.
  intros Hflag Haction. rewrite POST_run. unfold gate. rewrite Hflag. simpl.
  unfold try_catch, serve. rewrite Haction. simpl.
  destruct v as [s flag]. simpl in *. subst flag.
  destruct (rq_task rq) as [task | ]; [ | reflexivity ].
  unfold bind at 1. unfold onAgent at 1. simpl. rewrite now_run.
  unfold bind, onAgent. simpl. rewrite executeTask_run.
  destruct (handler E _ _) as [[e | result] [s1 obs]]; simpl;
    (eexists; eexists; split; [ reflexivity | ]);
    (split; [ reflexivity | split; reflexivity ]).
Qed.

(** X25. A 'shutdown' request is always answered 200 'AI Agent shutdown
    successfully', initialized or not, and no initialization is attempted
    for it by the route.  Afterwards the flag is false, the agent is
    inactive, no stream is active in the controller, and [GET] answers 'AI
    Agent not initialized' without touching anything. *)
Theorem POST_shutdown_resets_the_route (rq : AgentRequest) (suffix : string)
    (v : Server W) :
  rq_action rq = VStr "shutdown" ->
  exists v',
    POST E (inr rq) suffix v
    = (inr (api_said "AI Agent shutdown successfully" None), v')
    /\ sys v' = snd (shutdown E (sys v))
    /\ agentInitialized v' = false
    /\ isActive (ag (sys v')) = false
    /\ browserReady (ag (sys v')) = false
    /\ isStreaming (hb (sys v')) = false
    /\ GET E v' = (inr api_not_initialized, v').
Proof.
  intros Haction. rewrite POST_run. unfold gate. rewrite Haction. simpl.
  rewrite andb_false_r. unfold try_catch, serve. rewrite Haction. simpl.
  unfold bind, onAgent, setFlag. simpl.
  pose proof (close_stream_fields E (snd (stopLiveStream E (sys v)))) as Hf.
  simpl in Hf. destruct Hf as (Hstr & _).
  rewrite shutdown_run. simpl.
  eexists. split; [ reflexivity | ]. simpl.
  repeat (split; [ reflexivity | ]).
  split; [ | reflexivity ].
  rewrite Hstr. destruct (isStreaming (hb (snd (stopLiveStream E (sys v))))) eqn:Hs;
    [ | exact Hs ].
  destruct (stop_effect_idle (snd (stopLiveStream E (sys v)))) as (Hi & _).
  exact Hi.
Qed.

(** X26. [GET] always answers 200: its 500 'Failed to get agent status' is
    never produced, since neither [getState] nor [getBrowserState] throws.
    On an initialized agent the answer carries the state of the agent and a
    snapshot of the browser, and only calls are made; otherwise it says 'AI
    Agent not initialized' and nothing is touched. *)
Theorem GET_always_answers_200 (v : Server W) :
  exists resp v',
    GET E v = (inr resp, v')
    /\ api_status resp = 200 /\ api_success resp = true
    /\ agentInitialized v' = agentInitialized v
    /\ only_calls_made (sys v) (sys v')
    /\ if agentInitialized v
       then api_agentInitialized resp = Some true
            /\ api_agentState resp = Some (ag (sys v))
            /\ exists o,
                 api_browserState resp = Some o
                 /\ getCurrentState E (sys v) = (inr o, sys v')
       else resp = api_not_initialized /\ v' = v.
Proof.
  destruct v as [s flag]. unfold GET, try_catch, bind, getFlag. simpl.
  destruct flag; simpl.
  - destruct (getCurrentState_returns E s) as (o & s' & Hrun & Hsame).
    unfold onAgent, getState, getBrowserState, getA. simpl. rewrite Hrun. simpl.
    eexists; eexists. split; [ reflexivity | ]. simpl.
    repeat (split; [ first [ reflexivity | exact Hsame ] | ]).
    exists o. split; reflexivity.
  - eexists; eexists. split; [ reflexivity | ]. simpl.
    repeat split.
Qed.

End RouteTheorems.

(** * The style the gateway adopts (groq-ai.ts)

    [generateResponse] answers in the style [context.user_style ||
    detectCommunicationStyle(message)].  Strings are taken on 8-bit
    characters, as for [extractUrlFromResponse]. *)

Definition technicalTerms : list string :=
  ["rsi"; "macd"; "fibonacci"; "bollinger"; "volatility"; "correlation";
   "algorithm"].

Definition casualIndicators : list string :=
  ["hey"; "yo"; "sup"; "gonna"; "wanna"; "?"; "lol"; "btw"; "thx"].

Definition professionalTerms : list string :=
  ["analyze"; "assessment"; "evaluation"; "recommendation"; "portfolio";
   "strategy"].

Definition friendlyIndicators : list string :=
  ["please"; "thanks"; "help"; "explain"; "understand"; "learn"].

(** [terms.some(term => lowerMessage.includes(term))] *)
Definition some_included (terms : list string) (lowerMessage : string) : bool :=
  existsb (fun term => includes lowerMessage term) terms.

Definition detectCommunicationStyle (message : string) : string :=
  let lowerMessage := toLowerCase message in
  let hasTechnicalTerms := some_included technicalTerms lowerMessage in
  let hasCasualTerms := some_included casualIndicators lowerMessage in
  let hasProfessionalTerms := some_included professionalTerms lowerMessage in
  let hasFriendlyTerms := some_included friendlyIndicators lowerMessage in
  if hasTechnicalTerms then "technical"
  else if hasCasualTerms then "casual"
  else if hasProfessionalTerms then "professional"
  else if hasFriendlyTerms then "friendly"
  else "professional".

(** [const adaptedStyle = context.user_style || detectedStyle] *)
Definition adaptedStyle (message : string) (context : GatewayContext) : string :=
  if given (user_style context) then show_opt (user_style context)
  else detectCommunicationStyle message.

Section Style.

Lemma includes_app_r a b sub : includes b sub = true -> includes (a ++ b) sub = true.
Proof.
  intros H. induction a as [ | c a IH]; [ exact H | ].
  change (includes (String c a ++ b) sub)
    with (match strip_prefix sub (String c (a ++ b)) with
          | Some _ => true
          | None => includes (a ++ b) sub
          end).
  destruct (strip_prefix sub (String c (a ++ b))); [ reflexivity | exact IH ].
Qed.

Lemma includes_question_lower m :
  includes m "?" = true -> includes (toLowerCase m) "?" = true.
Proof.
  induction m as [ | c r IH]; [ discriminate | ].
  change (includes (String c r) "?")
    with (match (if Ascii.eqb "?" c then Some r else None) with
          | Some _ => true
          | None => includes r "?"
          end).
  change (includes (toLowerCase (String c r)) "?")
    with (match (if Ascii.eqb "?" (lower c) then Some (toLowerCase r) else None) with
          | Some _ => true
          | None => includes (toLowerCase r) "?"
          end).
  destruct (Ascii.eqb_spec "?"%char c) as [<- | _].
  - intros _. reflexivity.
  - intros H. rewrite (IH H). destruct (Ascii.eqb "?" (lower c)); reflexivity.
Qed.

Lemma some_included_In terms lowerMessage term :
  In term terms -> includes lowerMessage term = true ->
  some_included terms lowerMessage = true.
Proof.
  intros Hin Hinc. unfold some_included. apply existsb_exists.
  exists term. auto.
Qed.

Lemma site_question_asks task : includes (site_question task) "?" = true.
Proof.
  unfold site_question. apply includes_app_r, includes_app_r. reflexivity.
Qed.

(** X27. For the gateway a casual indicator wins over every professional
    or friendly term: a message whose lower-cased text contains one of the
    casual indicators anywhere, inside a word included, is answered in the
    technical or in the casual style.  The question mark is one of them, so
    every question that the agent asks without naming a style, the one of
    [performResearch] about the site to use among them, is answered in the
    technical or in the casual style, never in the professional one. *)
Theorem casual_indicators_win (task : AgentTask) :
  (forall message term,
     In term casualIndicators ->
     includes (toLowerCase message) term = true ->
     detectCommunicationStyle message = "technical"
     \/ detectCommunicationStyle message = "casual")
  /\ (forall message context,
        includes message "?" = true -> user_style context = None ->
        adaptedStyle message context = "technical"
        \/ adaptedStyle message context = "casual")
  /\ (adaptedStyle (site_question task) site_context = "technical"
      \/ adaptedStyle (site_question task) site_context = "casual").
Proof.
  assert (forall message term,
            In term casualIndicators ->
            includes (toLowerCase message) term = true ->
            detectCommunicationStyle message = "technical"
            \/ detectCommunicationStyle message = "casual") as Hcasual.
  { intros message term Hin Hinc. unfold detectCommunicationStyle.
    rewrite (some_included_In casualIndicators _ term Hin Hinc).
    destruct (some_included technicalTerms (toLowerCase message)); auto. }
  assert (forall message context,
            includes message "?" = true -> user_style context = None ->
            adaptedStyle message context = "technical"
            \/ adaptedStyle message context = "casual") as Hquestion.
  { intros message context Hq Hstyle. unfold adaptedStyle. rewrite Hstyle. simpl.
    apply (Hcasual message "?"); [ simpl; tauto | ].
    now apply includes_question_lower. }
  split; [ exact Hcasual | ]. split; [ exact Hquestion | ].
  apply Hquestion; [ apply site_question_asks | reflexivity ].
Qed.

End Style.

(** * Commands that act on an element, and commands that only look *)

(** the time a click, input or wait command waits for its element *)
Definition wait_timeout (c : HummCommand) : Z :=
  if String.eqb (cmd_action c) "wait" then
    match
      match cmd_options c with
      | Some x => opt_timeout x
      | None => None
      end
    with
    | Some n => n
    | None => 10000
    end
  else 10000.

(** how the failure of such a command starts *)
Definition failure_prefix (c : HummCommand) : string :=
  if String.eqb (cmd_action c) "click"
  then "Click failed on " ++ show_opt (cmd_selector c)
  else if String.eqb (cmd_action c) "input"
  then "Input failed on " ++ show_opt (cmd_selector c)
  else "Wait failed for " ++ show_opt (cmd_selector c).

(** what it asks of the page once the element is there *)
Definition interaction_calls (c : HummCommand) : list Call :=
  if String.eqb (cmd_action c) "click"
  then [Click (cmd_selector c); WaitForTimeout 1000; Url]
  else if String.eqb (cmd_action c) "input"
  then [Fill (cmd_selector c) (cmd_text c)]
  else [].

Section ElementCommands.

Context {W : Type} (E : Env W).

(** X28. A click, input or wait command on an existing Session first waits
    for its selector, for 10 seconds or, for a wait command, for the timeout
    of its options.  When that wait throws, nothing else is asked of the
    page and the Observation fails with 'Click failed on', 'Input failed on'
    or 'Wait failed for', the selector and the message thrown.  A successful
    Observation means that the command went on to click, pause one second
    and read the URL, or to fill in the text, in this order. *)
Theorem interactions_wait_for_their_element (c : HummCommand) (s : Sys W)
    (p : Handle) :
  has_session s -> page (hb s) = Some p ->
  In (cmd_action c) ["click"; "input"; "wait"] ->
  exists o s' calls,
    executeCommand E c s = (inr o, s')
    /\ trace s'
       = (trace s ++ WaitForSelector (cmd_selector c) (wait_timeout c) :: calls)%list
    /\ (obs_success o = true -> calls = interaction_calls c)
    /\ match page_waitForSelector E p (cmd_selector c) (wait_timeout c)
               (world (tick E s)) with
       | (inl e, _) =>
           calls = [] /\ obs_success o = false
           /\ obs_error o = Some (failure_prefix c ++ ": " ++ message_of e)
       | (inr _, _) =>
           obs_success o = true
           \/ exists m, obs_error o = Some (failure_prefix c ++ ": " ++ m)
       end.
Proof.
  intros Hs Hp Hin. rewrite (executeCommand_run E _ s Hs).
  unfold wait_timeout, failure_prefix, interaction_calls, dispatch.
  simpl in Hin. destruct Hin as [Ha | [Ha | [Ha | []]]]; rewrite <- Ha; simpl.
  - unfold try_catch, click, the_page, rethrow_as, try_catch, bind, getB, call.
    simpl. rewrite Hp. simpl.
    destruct (page_waitForSelector E p (cmd_selector c) 10000
                (Date_now E (world s)).2) as [[e | []] w1]; simpl;
      [ | destruct (page_click E p (cmd_selector c) w1) as [[e | []] w2]; simpl;
          [ | destruct (page_waitForTimeout E p 1000 w2) as [[e | []] w3]; simpl;
              [ | destruct (page_url E p w3) as [[e | u] w4]; simpl;
                  [ | rewrite now_run; simpl ] ] ] ];
      (eexists; eexists; eexists; split; [ reflexivity | ]);
      simpl; rewrite <- ?app_assoc;
      (split; [ reflexivity | ]);
      (split; [ first [ discriminate | reflexivity ] | ]);
      eauto.
  - unfold try_catch, input, the_page, rethrow_as, try_catch, bind, getB, call.
    simpl. rewrite Hp. simpl.
    destruct (page_waitForSelector E p (cmd_selector c) 10000
                (Date_now E (world s)).2) as [[e | []] w1]; simpl;
      [ | destruct (page_fill E p (cmd_selector c) (cmd_text c) w1)
            as [[e | []] w2]; simpl; [ | rewrite now_run; simpl ] ];
      (eexists; eexists; eexists; split; [ reflexivity | ]);
      simpl; rewrite <- ?app_assoc;
      (split; [ reflexivity | ]);
      (split; [ first [ discriminate | reflexivity ] | ]);
      eauto.
  - unfold try_catch, waitForElement, the_page, rethrow_as, try_catch, bind, getB,
      call.
    simpl. rewrite Hp. simpl.
    destruct (page_waitForSelector E p (cmd_selector c) _
                (Date_now E (world s)).2) as [[e | []] w1]; simpl;
      [ | rewrite now_run; simpl ];
      (eexists; eexists; eexists; split; [ reflexivity | ]);
      simpl; rewrite <- ?app_assoc;
      (split; [ reflexivity | ]);
      (split; [ first [ discriminate | reflexivity ] | ]);
      eauto.
Qed.

(** X29. The two commands that only look at the page, on an existing
    Session.  A screenshot command asks for one screenshot and returns it as
    a PNG data URL, or fails with 'Screenshot failed: ' and the message
    thrown, carrying no image.  A get_viewport command reads the viewport
    size, the URL and the title, in this order; its successful Observation
    carries them, the viewport with a device scale factor of 1, or no
    viewport when the page has none. *)
Theorem looking_commands_report_what_they_saw (s : Sys W) (p : Handle) :
  has_session s -> page (hb s) = Some p ->
  (exists o s',
     executeCommand E (command "screenshot") s = (inr o, s')
     /\ trace s' = (trace s ++ [Screenshot])%list
     /\ match page_screenshot E p (world (tick E s)) with
        | (inl e, _) =>
            obs_success o = false /\ obs_screenshot o = None
            /\ obs_error o = Some ("Screenshot failed: " ++ message_of e)
        | (inr base64Screenshot, _) =>
            obs_success o = true
            /\ obs_screenshot o
               = Some ("data:image/png;base64," ++ base64Screenshot)
        end)
  /\ (exists o s' calls,
        executeCommand E (command "get_viewport") s = (inr o, s')
        /\ trace s' = (trace s ++ ViewportSize :: calls)%list
        /\ (obs_success o = true ->
            calls = [Url; Title]
            /\ exists viewport,
                 fst (page_viewportSize E p (world (tick E s))) = inr viewport
                 /\ obs_viewport o
                    = match viewport with
                      | Some (w, h) =>
                          Some {| vp_width := w; vp_height := h;
                                  vp_deviceScaleFactor := 1 |}
                      | None => None
                      end)
        /\ (obs_success o = false ->
            exists m,
              obs_error o = Some ("Failed to get viewport info: " ++ m))).
Proof.
  intros Hs Hp. split.
  - rewrite (executeCommand_run E _ s Hs).
    change (dispatch E (command "screenshot")) with (takeScreenshot E).
    unfold try_catch, takeScreenshot, the_page, rethrow_as, try_catch, bind, getB,
      call.
    simpl. rewrite Hp. simpl.
    destruct (page_screenshot E p (Date_now E (world s)).2) as [[e | shot] w1];
      simpl; [ | rewrite now_run; simpl ];
      (eexists; eexists; split; [ reflexivity | ]); simpl; repeat split.
  - rewrite (executeCommand_run E _ s Hs).
    change (dispatch E (command "get_viewport")) with (getViewportInfo E).
    unfold try_catch, getViewportInfo, the_page, rethrow_as, try_catch, bind,
      getB, call.
    simpl. rewrite Hp. simpl.
    destruct (page_viewportSize E p (Date_now E (world s)).2)
      as [[e | viewport] w1]; simpl;
      [ | destruct (page_url E p w1) as [[e | u] w2]; simpl;
          [ | destruct (page_title E p w2) as [[e | title] w3]; simpl;
              [ | rewrite now_run; simpl ] ] ];
      (eexists; eexists; eexists; split; [ reflexivity | ]);
      simpl; rewrite <- ?app_assoc;
      (split; [ reflexivity | ]);
      (split; [ intros H; try discriminate H | intros H; try discriminate H;
                eexists; reflexivity ]).
    split; [ reflexivity | ]. exists viewport. split; [ reflexivity | ].
    destruct viewport as [[w h] | ]; reflexivity.
Qed.

End ElementCommands.

(** * More runs on scripted environments *)

(** the first command of a controller that was never initialized *)
Lemma executeCommand_leaves_a_session_witness :
  uninitialized (hb (boot 0 0)) = true
  /\ has_session
       (snd (executeCommand (scripted all_well) (command "screenshot")
               (boot 0 0))).
Proof.
  split; [ reflexivity | ].
  apply (executeCommand_leaves_a_session (scripted all_well)
           (command "screenshot") (boot 0 0) _
           (match fst (executeCommand (scripted all_well) (command "screenshot")
                         (boot 0 0)) with
            | inr o => o
            | inl _ => observation false 0
            end)).
  vm_compute. reflexivity.
Defined.

Lemma navigate_reports_the_page_witness :
  has_session (ready all_well)
  /\ page (hb (ready all_well)) = Some 3%nat
  /\ exists o s',
       executeCommand (scripted all_well) (navigate_to demo_url) (ready all_well)
       = (inr o, s')
       /\ obs_success o = true
       /\ obs_pageTitle o = Some "Example Domain"
       /\ obs_url o = Some "https://example.com/".
Proof.
  split; [ reflexivity | ]. split; [ reflexivity | ].
  destruct (navigate_reports_the_page (scripted all_well) (ready all_well)
              3%nat demo_url eq_refl eq_refl) as (o & s' & Hrun & Hpost).
  exists o, s'. split; [ exact Hrun | ].
  vm_compute in Hpost. destruct Hpost as (H1 & H2 & H3 & _).
  split; [ exact H1 | ]. split; [ exact H2 | exact H3 ].
Defined.

Lemma extract_by_selector_witness :
  has_session (ready all_well)
  /\ exists o s',
       executeCommand (scripted all_well) (extract_from (Some "h1"))
         (ready all_well) = (inr o, s')
       /\ obs_success o = true
       /\ obs_content o = Some "text"
       /\ obs_data o = Some (VStr "text").
Proof.
  split; [ reflexivity | ].
  destruct (extract_by_selector (scripted all_well) (ready all_well) 3%nat "h1"
              eq_refl eq_refl ltac:(discriminate))
    as (o & s' & Hrun & Hpost).
  exists o, s'. split; [ exact Hrun | ].
  vm_compute in Hpost. destruct Hpost as (H1 & H2 & H3 & _).
  split; [ exact H1 | ]. split; [ exact H2 | exact H3 ].
Defined.

Lemma unknown_action_is_reported_witness :
  has_session (ready all_well)
  /\ exists o s',
       executeCommand (scripted all_well) (command "hover") (ready all_well)
       = (inr o, s')
       /\ obs_success o = false
       /\ obs_error o = Some "Unknown command action: hover"
       /\ trace s' = trace (ready all_well).
Proof.
  split; [ reflexivity | ].
  destruct (unknown_action_is_reported (scripted all_well) (command "hover")
              (ready all_well) eq_refl
              ltac:(simpl; intuition discriminate))
    as (o & s' & Hrun & Hfail & Herr & _ & (_ & _ & _ & _ & Htr)).
  exists o, s'. split; [ exact Hrun | ]. split; [ exact Hfail | ].
  split; [ exact Herr | exact Htr ].
Defined.

Lemma idle_is_consistent {W} (s : Sys W) :
  isStreaming (hb s) = false -> streamInterval (hb s) = None ->
  streamCallback (hb s) = None -> stream_consistent s.
Proof.
  intros H1 H2 H3. unfold stream_consistent. rewrite H1, H2, H3.
  split; [ split; [ discriminate | congruence ] | ].
  split; [ congruence | discriminate ].
Qed.

Lemma stream_bookkeeping_is_kept_witness :
  stream_consistent (ready all_well)
  /\ stream_consistent
       (snd (executeCommand (scripted all_well) (stream_start_at 2)
               (ready all_well)))
  /\ stream_consistent (snd (close (scripted all_well) (ready all_well))).
Proof.
  assert (stream_consistent (ready all_well)) as H
    by (apply idle_is_consistent; reflexivity).
  split; [ exact H | ].
  destruct (stream_bookkeeping_is_kept (scripted all_well) (ready all_well) H)
    as [Hcmd Hclose].
  split; [ exact (Hcmd (stream_start_at 2)) | exact Hclose ].
Defined.

(** a task of the type 'automation', which the interface allows *)
Lemma unhandled_task_type_fails_witness :
  exists r s',
    executeTask (scripted all_well) (a_task "automation" demo_url)
      (ready all_well) = (inr r, s')
    /\ res_success r = false
    /\ res_summary r = "Task failed: Unknown task type: automation"
    /\ trace s' = trace (ready all_well).
Proof.
  destruct (unhandled_task_type_fails (scripted all_well)
              (a_task "automation" demo_url) (ready all_well)
              ltac:(simpl; intuition discriminate))
    as (r & s' & Hrun & Hfail & _ & _ & Hsum & Htr & _).
  exists r, s'. split; [ exact Hrun | ]. split; [ exact Hfail | ].
  split; [ exact Hsum | exact Htr ].
Defined.

Lemma tasks_keep_the_session_witness :
  has_session (ready unreachable_site)
  /\ has_session
       (snd (executeTask (scripted unreachable_site)
               (a_task "live_demo" demo_url) (ready unreachable_site)))
  /\ page (hb (snd (executeTask (scripted unreachable_site)
                      (a_task "live_demo" demo_url) (ready unreachable_site))))
     = Some 3%nat.
Proof.
  split; [ reflexivity | ].
  destruct (tasks_keep_the_session (scripted unreachable_site)
              (ready unreachable_site) eq_refl) as [Htask _].
  destruct (Htask (a_task "live_demo" demo_url)) as (Hs & _ & _ & Hp & _).
  split; [ exact Hs | ]. rewrite Hp. reflexivity.
Defined.

Lemma agent_keeps_the_stream_bookkeeping_witness :
  stream_consistent (boot 0 0 : Sys Z)
  /\ stream_consistent
       (snd (executeTask (scripted all_well) (a_task "live_demo" demo_url)
               (boot 0 0)))
  /\ stream_consistent (snd (shutdown (scripted all_well) (boot 0 0))).
Proof.
  assert (stream_consistent (boot 0 0 : Sys Z)) as H
    by (apply idle_is_consistent; reflexivity).
  split; [ exact H | ].
  destruct (agent_keeps_the_stream_bookkeeping (scripted all_well) (boot 0 0) H)
    as (Htask & _ & _ & Hshut).
  split; [ exact (Htask (a_task "live_demo" demo_url)) | exact Hshut ].
Defined.

(** a navigation that fails: the screenshot is taken and the task succeeds *)
Lemma navigate_task_takes_the_screenshot_anyway_witness :
  has_session (ready unreachable_site)
  /\ exists r s' navResult screenshotResult,
       executeTask (scripted unreachable_site) (a_task "navigate" demo_url)
         (ready unreachable_site) = (inr r, s')
       /\ res_success r = true
       /\ res_observations r = [navResult; screenshotResult]
       /\ obs_success navResult = false
       /\ In Screenshot (trace s').
Proof.
  split; [ reflexivity | ].
  destruct (navigate_task_takes_the_screenshot_anyway (scripted unreachable_site)
              (a_task "navigate" demo_url) (ready unreachable_site)
              eq_refl eq_refl eq_refl)
    as (r & s' & nav & shot & calls & last & Hrun & Hok & Hobs & _ & _ & _ & Htr & _).
  exists r, s', nav, shot.
  split; [ exact Hrun | ]. split; [ exact Hok | ]. split; [ exact Hobs | ].
  split.
  - assert (match fst (executeTask (scripted unreachable_site)
                         (a_task "navigate" demo_url) (ready unreachable_site)) with
            | inr x => match res_observations x with
                       | o :: _ => obs_success o
                       | [] => true
                       end
            | inl _ => true
            end = false) as Hc by (vm_compute; reflexivity).
    rewrite Hrun in Hc. simpl in Hc. rewrite Hobs in Hc. exact Hc.
  - rewrite Htr. apply in_or_app. right. right. apply in_or_app. right.
    left. reflexivity.
Defined.

Lemma monitor_task_extracts_what_it_watches_witness :
  has_session (ready all_well)
  /\ exists r s',
       executeTask (scripted all_well) (a_task "monitor" demo_url)
         (ready all_well) = (inr r, s')
       /\ res_success r = true
       /\ In Content (trace s').
Proof.
  split; [ reflexivity | ].
  destruct (monitor_task_extracts_what_it_watches (scripted all_well)
              (a_task "monitor" demo_url) (ready all_well)
              eq_refl eq_refl eq_refl)
    as (r & s' & nav & ext & s1 & s2 & before & after & Hrun & Hok & _ & _ & _
        & _ & _ & _ & Htr & _).
  exists r, s'. split; [ exact Hrun | ]. split; [ exact Hok | ].
  rewrite Htr. apply in_or_app. right. right. apply in_or_app. right.
  left. reflexivity.
Defined.

(** the gateway names a site in the middle of a sentence *)
Lemma research_asks_which_site_witness :
  has_session (ready (answering "Try https://finance.yahoo.com/quote first."))
  /\ exists r s',
       executeTask (scripted (answering "Try https://finance.yahoo.com/quote first."))
         (a_task "research" None)
         (ready (answering "Try https://finance.yahoo.com/quote first."))
       = (inr r, s')
       /\ In (Goto (Some "https://finance.yahoo.com/quote")) (trace s').
Proof.
  split; [ reflexivity | ].
  destruct (research_asks_which_site
              (scripted (answering "Try https://finance.yahoo.com/quote first."))
              (a_task "research" None)
              (ready (answering "Try https://finance.yahoo.com/quote first."))
              eq_refl eq_refl)
    as (r & s' & Hrun & Hpost).
  exists r, s'. split; [ exact Hrun | ].
  change (has_session
            (ready (answering "Try https://finance.yahoo.com/quote first.")) ->
          exists nav rest calls,
            res_observations r = nav :: rest
            /\ trace s'
               = (trace (ready (answering "Try https://finance.yahoo.com/quote first."))
                  ++ GenerateResponse
                       (site_question (a_task "research" None)) site_context
                  :: Goto (Some "https://finance.yahoo.com/quote") :: calls)%list
            /\ (obs_success nav = false ->
                res_success r = false
                /\ res_summary r
                   = "Task failed: Failed to navigate to "
                     ++ "https://finance.yahoo.com/quote")) in Hpost.
  destruct (Hpost eq_refl) as (nav & rest & calls & _ & Htr & _).
  rewrite Htr. apply in_or_app. right. right. left. reflexivity.
Defined.

Lemma failed_research_keeps_its_observations_witness :
  has_session (ready unreachable_site)
  /\ exists r s' nav,
       executeTask (scripted unreachable_site) (a_task "research" demo_url)
         (ready unreachable_site) = (inr r, s')
       /\ res_success r = false
       /\ res_observations r = [nav]
       /\ res_summary r = "Task failed: Failed to navigate to https://example.com".
Proof.
  split; [ reflexivity | ].
  destruct (failed_research_keeps_its_observations (scripted unreachable_site)
              (a_task "research" demo_url) (ready unreachable_site)
              eq_refl eq_refl eq_refl)
    as (r & s' & nav & rest & Hrun & Hobs & _ & Hfail).
  assert (res_success r = false /\ length (res_observations r) = 1%nat) as [Hno Hlen].
  { assert (match fst (executeTask (scripted unreachable_site)
                         (a_task "research" demo_url) (ready unreachable_site)) with
            | inr x => (res_success x, length (res_observations x))
            | inl _ => (true, 0%nat)
            end = (false, 1%nat)) as Hc by (vm_compute; reflexivity).
    rewrite Hrun in Hc. simpl in Hc. injection Hc as Hc1 Hc2. auto. }
  exists r, s', nav. split; [ exact Hrun | ]. split; [ exact Hno | ].
  destruct (Hfail Hno) as (e & Hsum & _ & Hat).
  rewrite Hobs in Hlen. destruct rest; [ | discriminate Hlen ].
  split; [ exact Hobs | ].
  destruct Hat as [(_ & _ & ->) | [(ext & Hrest & _) | (ext & w & Hrest & _)]];
    [ exact Hsum | discriminate Hrest | discriminate Hrest ].
Defined.

Lemma image_task_leaves_the_browser_alone_witness :
  exists r s',
    executeTask (scripted all_well) (a_task "generate_image" None) (boot 0 0)
    = (inr r, s')
    /\ hb s' = new_HummBrowser
    /\ length (res_observations r) = 2%nat.
Proof.
  destruct (image_task_leaves_the_browser_alone (scripted all_well)
              (a_task "generate_image" None) (boot 0 0) eq_refl)
    as (r & s' & Hrun & Hhb & _ & _ & Hok & _).
  exists r, s'. split; [ exact Hrun | ]. split; [ exact Hhb | ].
  assert (res_success r = true) as Hyes.
  { assert (match fst (executeTask (scripted all_well)
                         (a_task "generate_image" None) (boot 0 0)) with
            | inr x => res_success x
            | inl _ => false
            end = true) as Hc by (vm_compute; reflexivity).
    rewrite Hrun in Hc. exact Hc. }
  destruct (Hok Hyes) as (o1 & o2 & -> & _). reflexivity.
Defined.

(** a request as it comes from a client *)
Definition a_request (action : string) (task : option TaskInput) : AgentRequest :=
  {| rq_action := VStr action; rq_task := task |}.

Definition scrape_nothing : TaskInput :=
  {| in_type := "scrape"; in_description := "demo";
     in_userQuery := "latest market trends"; in_targetUrl := None;
     in_selector := None; in_parameters := None; in_enableLiveView := None |}.

Definition server (s : Sys Z) (flag : bool) : Server Z :=
  {| sys := s; agentInitialized := flag |}.

Lemma POST_refuses_when_automation_is_disabled_witness :
  POST (scripted automation_disabled) (inr (a_request "status" None)) "k3j9x2m1q"
    (server (boot 0 0) false)
  = (inr (api_failure 500 "Failed to initialize AI Agent"
            (Some "Browser automation is disabled in production")),
     server (boot 0 0) false).
Proof.
  exact (POST_refuses_when_automation_is_disabled (scripted automation_disabled)
           (a_request "status" None) "k3j9x2m1q" (server (boot 0 0) false)
           eq_refl eq_refl eq_refl).
Defined.

Lemma route_flag_means_session_witness :
  agentInitialized
    (snd (POST (scripted all_well) (inr (a_request "status" None)) "k3j9x2m1q"
            (server (boot 0 0) false))) = true
  /\ has_session
       (sys (snd (POST (scripted all_well) (inr (a_request "status" None))
                    "k3j9x2m1q" (server (boot 0 0) false)))).
Proof.
  assert (flag_means_session (server (boot 0 0) false)) as H
    by (unfold flag_means_session; simpl; discriminate).
  destruct (route_flag_means_session (scripted all_well)
              (server (boot 0 0) false) H) as [Hpost _].
  assert (agentInitialized
            (snd (POST (scripted all_well) (inr (a_request "status" None))
                    "k3j9x2m1q" (server (boot 0 0) false))) = true) as Hflag
    by (vm_compute; reflexivity).
  split; [ exact Hflag | ].
  exact (Hpost (inr (a_request "status" None)) "k3j9x2m1q" Hflag).
Defined.

(** a task that fails is answered 200 all the same *)
Lemma POST_execute_answers_200_whatever_the_task_did_witness :
  exists result v',
    POST (scripted all_well) (inr (a_request "execute" (Some scrape_nothing)))
      "k3j9x2m1q" (server (ready all_well) true)
    = (inr (api_executed result), v')
    /\ api_status (api_executed result) = 200
    /\ res_success result = false
    /\ res_taskId result = "task_0_k3j9x2m1q".
Proof.
  destruct (POST_execute_answers_200_whatever_the_task_did (scripted all_well)
              (a_request "execute" (Some scrape_nothing)) "k3j9x2m1q"
              (server (ready all_well) true) eq_refl eq_refl)
    as (result & s' & Hrun & Hpost & Hid & _).
  exists result; eexists. split; [ exact Hpost | ]. split; [ reflexivity | ].
  split; [ | exact Hid ].
  assert (match fst (executeTask (scripted all_well)
                       (agentTask_of
                          (task_id_of
                             (clock (scripted all_well)
                                (sys (server (ready all_well) true)))
                             "k3j9x2m1q") scrape_nothing)
                       (tick (scripted all_well)
                          (sys (server (ready all_well) true)))) with
          | inr x => res_success x
          | inl _ => true
          end = false) as Hc by (vm_compute; reflexivity).
  rewrite Hrun in Hc. exact Hc.
Defined.

Lemma POST_shutdown_resets_the_route_witness :
  exists v',
    POST (scripted all_well) (inr (a_request "shutdown" None)) "k3j9x2m1q"
      (server (ready all_well) true)
    = (inr (api_said "AI Agent shutdown successfully" None), v')
    /\ agentInitialized v' = false
    /\ GET (scripted all_well) v' = (inr api_not_initialized, v').
Proof.
  destruct (POST_shutdown_resets_the_route (scripted all_well)
              (a_request "shutdown" None) "k3j9x2m1q"
              (server (ready all_well) true) eq_refl)
    as (v' & Hrun & _ & Hflag & _ & _ & _ & Hget).
  exists v'. split; [ exact Hrun | ]. split; [ exact Hflag | exact Hget ].
Defined.

Definition click_buy : HummCommand :=
  {| cmd_action := "click"; cmd_url := None; cmd_selector := Some "#buy";
     cmd_text := None; cmd_options := None |}.

Lemma interactions_wait_for_their_element_witness :
  has_session (ready all_well)
  /\ exists o s',
       executeCommand (scripted all_well) click_buy (ready all_well) = (inr o, s')
       /\ obs_success o = true
       /\ trace s'
          = (trace (ready all_well)
             ++ [WaitForSelector (Some "#buy") 10000; Click (Some "#buy");
                 WaitForTimeout 1000; Url])%list.
Proof.
  split; [ reflexivity | ].
  destruct (interactions_wait_for_their_element (scripted all_well) click_buy
              (ready all_well) 3%nat eq_refl eq_refl
              ltac:(simpl; auto))
    as (o & s' & calls & Hrun & Htr & Hcalls & _).
  assert (obs_success o = true) as Hok.
  { assert (match fst (executeCommand (scripted all_well) click_buy
                         (ready all_well)) with
            | inr x => obs_success x
            | inl _ => false
            end = true) as Hc by (vm_compute; reflexivity).
    rewrite Hrun in Hc. exact Hc. }
  exists o, s'. split; [ exact Hrun | ]. split; [ exact Hok | ].
  rewrite Htr, (Hcalls Hok). reflexivity.
Defined.

Lemma looking_commands_report_what_they_saw_witness :
  has_session (ready screenshot_times_out)
  /\ exists o s',
       executeCommand (scripted screenshot_times_out) (command "screenshot")
         (ready screenshot_times_out) = (inr o, s')
       /\ obs_success o = false
       /\ obs_screenshot o = None
       /\ obs_error o = Some "Screenshot failed: Timeout 30000ms exceeded".
Proof.
  split; [ reflexivity | ].
  destruct (looking_commands_report_what_they_saw (scripted screenshot_times_out)
              (ready screenshot_times_out) 3%nat eq_refl eq_refl)
    as [(o & s' & Hrun & _ & Hpost) _].
  exists o, s'. split; [ exact Hrun | ].
  vm_compute in Hpost. exact Hpost.
Defined.

(** a body that is read, and whose action cannot be written in the message
    of the default branch *)
Example object_action_is_an_internal_error :
  POST (scripted all_well)
    (inr {| rq_action := VObj [("toString", VNum 1)]; rq_task := None |})
    "k3j9x2m1q" (server (ready all_well) true)
  = (inr (api_failure 500 "Internal server error"
            (Some "Cannot convert object to primitive value")),
     server (ready all_well) true).
Proof. vm_compute. reflexivity. Qed.

Example numeric_action_is_unknown :
  fst (POST (scripted all_well) (inr {| rq_action := VNum 7; rq_task := None |})
         "k3j9x2m1q" (server (ready all_well) true))
  = inr (api_failure 400 "Unknown action: 7" None).
Proof. vm_compute. reflexivity. Qed.

(** a no-break space ends the URL, as any white space does *)
Example extractUrl_stops_at_a_no_break_space :
  extractUrlFromResponse
    ("See https://finance.yahoo.com/quote" ++ String (ascii_of_nat 160) "today")
  = "https://finance.yahoo.com/quote".
Proof. vm_compute. reflexivity. Qed.
